(** * StudyFlow backend: syllabus parser and schedule synthesizer

    A shallow embedding of [backend/parser.py] and [backend/scheduler.py].

    Conventions of the embedding.
    - A Python [str] is a [string]; every character is a code point below
      256.  Emoji of the activity labels are kept as their UTF-8 bytes, they
      are only ever copied.
    - A Python [int] is a [Z].
    - A [dict] read with [.get] is a [gmap] from keys to Python values
      ([user_data]) or a record of optional fields ([Deadline], [Activity]).
    - A raised exception is a value [Raise e] of [result]; [try]/[except]
      is a [match] on it.
    - The clock ([datetime.today()], [datetime.now()]) is an explicit
      argument.
    - A [datetime] is its proleptic Gregorian ordinal (the value of
      [toordinal()]) with the microseconds elapsed since midnight; the
      calendar fields are recovered with CPython's [_ord2ymd]. *)

From Stdlib Require Import ZArith Lia List String Ascii Bool Permutation DecimalString.
From stdpp Require Import gmap strings.
Import ListNotations.
Open Scope string_scope.
Open Scope list_scope.
Open Scope Z_scope.

Set Default Proof Using "Type".

(** ** Exceptions *)

Inductive exn : Type :=
| ValueError
| TypeError
| AttributeError
| KeyError
| OverflowError.

Inductive result (A : Type) : Type :=
| Ok (a : A)
| Raise (e : exn).
Arguments Ok {A} a.
Arguments Raise {A} e.

Definition rbind {A B : Type} (r : result A) (f : A -> result B) : result B :=
  match r with
  | Ok a => f a
  | Raise e => Raise e
  end.

Notation "'let*' x ':=' r 'in' k" := (rbind r (fun x => k))
  (at level 10, x name, r at level 100, k at level 200).

(** ** Characters and strings of Python *)

Module Py.

Definition code (c : ascii) : Z := Z.of_N (N_of_ascii c).

Definition in_range (lo hi : ascii) (c : ascii) : bool :=
  (code lo <=? code c) && (code c <=? code hi).

(** [str.isspace] and the class [\s] below code point 256. *)
Definition is_space (c : ascii) : bool :=
  let n := code c in
  ((9 <=? n) && (n <=? 13)) || ((28 <=? n) && (n <=? 32)) || (n =? 133) || (n =? 160).

(** The class [\d] (Unicode decimal digits) below code point 256. *)
Definition is_digit (c : ascii) : bool := in_range "0" "9" c.

Definition is_ascii_upper (c : ascii) : bool := in_range "A" "Z" c.
Definition is_ascii_lower (c : ascii) : bool := in_range "a" "z" c.

(** The class [\w]: alphanumeric code points and the underscore.  Below 256
    these are the ASCII letters and digits, the Latin-1 letters, the
    superscript digits and the vulgar fractions. *)
Definition is_word (c : ascii) : bool :=
  let n := code c in
  is_digit c || is_ascii_upper c || is_ascii_lower c || (n =? 95)
  || (n =? 170) || (n =? 178) || (n =? 179) || (n =? 181) || (n =? 185) || (n =? 186)
  || ((188 <=? n) && (n <=? 190))
  || ((192 <=? n) && (n <=? 214)) || ((216 <=? n) && (n <=? 246))
  || ((248 <=? n) && (n <=? 255)).

(** [str.lower] on one code point: ASCII and Latin-1 capitals move down by
    32, everything else below 256 is fixed. *)
Definition lower_char (c : ascii) : ascii :=
  let n := code c in
  if is_ascii_upper c || ((192 <=? n) && (n <=? 214)) || ((216 <=? n) && (n <=? 222))
  then ascii_of_N (Z.to_N (n + 32)) else c.

(** [str.upper] on one code point that has a single upper-case code point
    below 256. *)
Definition upper_char (c : ascii) : ascii :=
  let n := code c in
  if is_ascii_lower c || ((224 <=? n) && (n <=? 246)) || ((248 <=? n) && (n <=? 254))
  then ascii_of_N (Z.to_N (n - 32)) else c.

Fixpoint smap (f : ascii -> ascii) (s : string) : string :=
  match s with
  | EmptyString => EmptyString
  | String c s' => String (f c) (smap f s')
  end.

Definition lower (s : string) : string := smap lower_char s.
Definition upper (s : string) : string := smap upper_char s.

Fixpoint lstrip (s : string) : string :=
  match s with
  | String c s' => if is_space c then lstrip s' else s
  | EmptyString => EmptyString
  end.

Fixpoint rstrip (s : string) : string :=
  match s with
  | EmptyString => EmptyString
  | String c s' =>
      match rstrip s' with
      | EmptyString => if is_space c then EmptyString else String c EmptyString
      | r => String c r
      end
  end.

Definition strip (s : string) : string := rstrip (lstrip s).

Fixpoint startswith (p s : string) : bool :=
  match p, s with
  | EmptyString, _ => true
  | String a p', String b s' => Ascii.eqb a b && startswith p' s'
  | String _ _, EmptyString => false
  end.

(** [p in s] for two strings. *)
Fixpoint contains (p s : string) : bool :=
  startswith p s ||
  match s with
  | EmptyString => false
  | String _ s' => contains p s'
  end.

Definition len (s : string) : Z := Z.of_nat (String.length s).

(** [s[:n]] for [0 <= n]. *)
Definition take (n : nat) (s : string) : string := String.substring 0 n s.

(** [str(z)] *)
Definition str_of_int (z : Z) : string := NilZero.string_of_int (Z.to_int z).

Fixpoint zeros (n : nat) : string :=
  match n with
  | O => EmptyString
  | S n' => String "0" (zeros n')
  end.

(** [format(z, '0Nd')]: sign first, then zeros up to [width] characters. *)
Definition format_0d (width : nat) (z : Z) : string :=
  if z <? 0 then
    let digits := str_of_int (- z) in
    String "-" (zeros (width - 1 - String.length digits) +:+ digits)
  else
    let digits := str_of_int z in
    zeros (width - String.length digits) +:+ digits.

Definition digit_value (c : ascii) : Z := code c - 48.

Fixpoint digits_value (acc : Z) (s : string) : option Z :=
  match s with
  | EmptyString => Some acc
  | String c s' =>
      if is_digit c then digits_value (10 * acc + digit_value c) s'
      else if Ascii.eqb c "_" then
        (* one underscore between two digits *)
        match s' with
        | String d _ => if is_digit d then digits_value acc s' else None
        | EmptyString => None
        end
      else None
  end.

(** [int(s)] for a string: surrounding white space, an optional sign, then
    decimal digits (single underscores allowed between digits). *)
Definition int_of_str (s : string) : result Z :=
  let body (t : string) : option Z :=
    match t with
    | String c _ => if is_digit c then digits_value 0 t else None
    | EmptyString => None
    end in
  let r :=
    match strip s with
    | String "-" t => option_map Z.opp (body t)
    | String "+" t => body t
    | t => body t
    end in
  match r with
  | Some z => Ok z
  | None => Raise ValueError
  end.

End Py.

(** ** [datetime] *)

Module Datetime.

Definition MAXORDINAL : Z := 3652059.
Definition US_PER_DAY : Z := 86400000000.

Definition _is_leap (year : Z) : bool :=
  (year mod 4 =? 0) && (negb (year mod 100 =? 0) || (year mod 400 =? 0)).

Definition _DAYS_IN_MONTH (month : Z) : Z :=
  match month with
  | 1 => 31 | 2 => 28 | 3 => 31 | 4 => 30 | 5 => 31 | 6 => 30
  | 7 => 31 | 8 => 31 | 9 => 30 | 10 => 31 | 11 => 30 | 12 => 31
  | _ => -1
  end.

Definition _DAYS_BEFORE_MONTH (month : Z) : Z :=
  match month with
  | 1 => 0 | 2 => 31 | 3 => 59 | 4 => 90 | 5 => 120 | 6 => 151
  | 7 => 181 | 8 => 212 | 9 => 243 | 10 => 273 | 11 => 304 | 12 => 334
  | _ => -1
  end.

Definition b2z (b : bool) : Z := if b then 1 else 0.

Definition _days_before_year (year : Z) : Z :=
  let y := year - 1 in
  y * 365 + y / 4 - y / 100 + y / 400.

Definition _days_in_month (year month : Z) : Z :=
  if (month =? 2) && _is_leap year then 29 else _DAYS_IN_MONTH month.

Definition _days_before_month (year month : Z) : Z :=
  _DAYS_BEFORE_MONTH month + b2z ((2 <? month) && _is_leap year).

Definition _ymd2ord (year month day : Z) : Z :=
  _days_before_year year + _days_before_month year month + day.

Definition _ord2ymd (n : Z) : Z * Z * Z :=
  let n := n - 1 in
  let n400 := n / 146097 in
  let n := n mod 146097 in
  let year := n400 * 400 + 1 in
  let n100 := n / 36524 in
  let n := n mod 36524 in
  let n4 := n / 1461 in
  let n := n mod 1461 in
  let n1 := n / 365 in
  let n := n mod 365 in
  let year := year + (n100 * 100 + n4 * 4 + n1) in
  if (n1 =? 4) || (n100 =? 4) then (year - 1, 12, 31)
  else
    let leapyear := (n1 =? 3) && (negb (n4 =? 24) || (n100 =? 3)) in
    let month := (n + 50) / 32 in
    let preceding := _DAYS_BEFORE_MONTH month + b2z ((2 <? month) && leapyear) in
    if n <? preceding then
      let month := month - 1 in
      let preceding := preceding - (_DAYS_IN_MONTH month + b2z ((month =? 2) && leapyear)) in
      (year, month, n - preceding + 1)
    else (year, month, n - preceding + 1).

(** A [datetime]: the day as its ordinal, the time of day in microseconds. *)
Record datetime : Type := mk_datetime {
  ordinal : Z;
  time_us : Z
}.

Definition valid (dt : datetime) : Prop :=
  1 <= ordinal dt <= MAXORDINAL /\ 0 <= time_us dt < US_PER_DAY.

(** [datetime(year, month, day)]: midnight of a calendar date, [ValueError]
    when the fields are out of range. *)
Definition make_date (year month day : Z) : result datetime :=
  if (1 <=? year) && (year <=? 9999) && (1 <=? month) && (month <=? 12)
     && (1 <=? day) && (day <=? _days_in_month year month)
  then Ok (mk_datetime (_ymd2ord year month day) 0)
  else Raise ValueError.

(** [dt + timedelta(days=i)] *)
Definition add_days (dt : datetime) (i : Z) : result datetime :=
  let o := ordinal dt + i in
  if (1 <=? o) && (o <=? MAXORDINAL) then Ok (mk_datetime o (time_us dt))
  else Raise OverflowError.

(** [a < b] *)
Definition lt (a b : datetime) : bool :=
  (ordinal a <? ordinal b) || ((ordinal a =? ordinal b) && (time_us a <? time_us b)).

(** [(a - b).days]: a [timedelta] is normalised with its seconds and
    microseconds non-negative, so [days] is the floor. *)
Definition sub_days (a b : datetime) : Z :=
  ((ordinal a - ordinal b) * US_PER_DAY + (time_us a - time_us b)) / US_PER_DAY.

(** [dt.weekday()]: Monday is 0. *)
Definition weekday (dt : datetime) : Z := (ordinal dt + 6) mod 7.

Definition year (dt : datetime) : Z := fst (fst (_ord2ymd (ordinal dt))).

(** ['%Y-%m-%d'] of three fields: four, two and two digits. *)
Definition iso (y m d : Z) : string :=
  Py.format_0d 4 y +:+ "-" +:+ Py.format_0d 2 m +:+ "-" +:+ Py.format_0d 2 d.

(** [dt.strftime('%Y-%m-%d')] *)
Definition strftime_ymd (dt : datetime) : string :=
  let '(y, m, d) := _ord2ymd (ordinal dt) in iso y m d.

End Datetime.

(** ** Regular expressions of [re]

    The fragment the program uses: one-character classes, sequence,
    alternation, greedy and lazy repetition of a class, [^], [\b] and named
    groups.  [matches r st] lists every way [r] matches at the position
    [st], in the order in which the backtracking matcher of [re] tries them:
    the match that [re] reports is the first one. *)

Module Re.

Inductive regex : Type :=
| Eps
| Chr (p : ascii -> bool)
| Seq (r1 r2 : regex)
| Alt (r1 r2 : regex)
| Star (greedy : bool) (p : ascii -> bool)
| Bol
| WordB
| Group (name : string) (r : regex).

(** A position in the subject: the character before it (none at the start),
    the text after it, and the groups captured so far. *)
Record mstate : Type := mk_mstate {
  prev : option ascii;
  rest : string;
  caps : list (string * string)
}.

Definition init (s : string) : mstate := mk_mstate None s [].

Definition consumed (before after : mstate) : string :=
  Py.take (String.length (rest before) - String.length (rest after)) (rest before).

Fixpoint star_matches (greedy : bool) (p : ascii -> bool)
    (pv : option ascii) (s : string) (cs : list (string * string)) : list mstate :=
  let here := mk_mstate pv s cs in
  match s with
  | String c s' =>
      if p c then
        if greedy then star_matches greedy p (Some c) s' cs ++ [here]
        else here :: star_matches greedy p (Some c) s' cs
      else [here]
  | EmptyString => [here]
  end.

Definition opt_is (p : ascii -> bool) (o : option ascii) : bool :=
  match o with
  | Some c => p c
  | None => false
  end.

Definition next (s : string) : option ascii :=
  match s with
  | String c _ => Some c
  | EmptyString => None
  end.

Fixpoint matches (r : regex) (st : mstate) : list mstate :=
  match r with
  | Eps => [st]
  | Chr p =>
      match rest st with
      | String c s' => if p c then [mk_mstate (Some c) s' (caps st)] else []
      | EmptyString => []
      end
  | Seq r1 r2 => flat_map (matches r2) (matches r1 st)
  | Alt r1 r2 => matches r1 st ++ matches r2 st
  | Star greedy p => star_matches greedy p (prev st) (rest st) (caps st)
  | Bol => match prev st with None => [st] | Some _ => [] end
  | WordB =>
      if xorb (opt_is Py.is_word (prev st)) (opt_is Py.is_word (next (rest st)))
      then [st] else []
  | Group name r1 =>
      map (fun st' => mk_mstate (prev st') (rest st') ((name, consumed st st') :: caps st'))
          (matches r1 st)
  end.

(** The match found at a position, if any. *)
Definition match_at (r : regex) (st : mstate) : option mstate :=
  head (matches r st).

(** *** Writing patterns *)

(** The class of one character. *)
Definition just (c : ascii) : ascii -> bool := Ascii.eqb c.

(** A literal character under [re.IGNORECASE]. *)
Definition ieq (c : ascii) (x : ascii) : bool :=
  Ascii.eqb (Py.lower_char x) (Py.lower_char c).

(** [.] without [re.DOTALL] *)
Definition dot (c : ascii) : bool := negb (Py.code c =? 10).

Fixpoint seqs (rs : list regex) : regex :=
  match rs with
  | [] => Eps
  | [r] => r
  | r :: rs' => Seq r (seqs rs')
  end.

Fixpoint alts (rs : list regex) : regex :=
  match rs with
  | [] => Seq (Chr (fun _ => false)) Eps
  | [r] => r
  | r :: rs' => Alt r (alts rs')
  end.

(** [r?] *)
Definition opt (r : regex) : regex := Alt r Eps.
(** [[p]+] *)
Definition plus (p : ascii -> bool) : regex := Seq (Chr p) (Star true p).
(** [[p]{1,2}] *)
Definition rep12 (p : ascii -> bool) : regex := Seq (Chr p) (opt (Chr p)).
(** [[p]{3,4}] and the like are not used by the modelled functions. *)
Definition rep4 (p : ascii -> bool) : regex := seqs [Chr p; Chr p; Chr p; Chr p].

(** A literal word under [re.IGNORECASE]. *)
Fixpoint lit (s : string) : regex :=
  match s with
  | EmptyString => Eps
  | String c EmptyString => Chr (ieq c)
  | String c s' => Seq (Chr (ieq c)) (lit s')
  end.

(** *** [re.findall] and [re.sub]

    The subject is scanned from the left; after a match the scan resumes at
    its end.  [skip] counts the characters of the last match still to pass.
    None of the modelled patterns matches the empty string. *)

Fixpoint findall_from (r : regex) (pv : option ascii) (s : string) (skip : nat)
    : list string :=
  match s with
  | EmptyString => []
  | String c s' =>
      match skip with
      | S n => findall_from r (Some c) s' n
      | O =>
          match match_at r (mk_mstate pv s []) with
          | Some st' =>
              let m := consumed (mk_mstate pv s []) st' in
              m :: findall_from r (Some c) s' (String.length m - 1)
          | None => findall_from r (Some c) s' 0
          end
      end
  end.

Definition findall (r : regex) (s : string) : list string :=
  findall_from r None s 0.

Fixpoint sub_from (r : regex) (repl : string) (pv : option ascii) (s : string)
    (skip : nat) : string :=
  match s with
  | EmptyString => EmptyString
  | String c s' =>
      match skip with
      | S n => sub_from r repl (Some c) s' n
      | O =>
          match match_at r (mk_mstate pv s []) with
          | Some st' =>
              let m := consumed (mk_mstate pv s []) st' in
              match String.length m with
              | O => String c (sub_from r repl (Some c) s' 0)
              | S n => repl +:+ sub_from r repl (Some c) s' n
              end
          | None => String c (sub_from r repl (Some c) s' 0)
          end
      end
  end.

(** [re.sub(r, repl, s)] *)
Definition sub (r : regex) (repl : string) (s : string) : string :=
  sub_from r repl None s 0.

End Re.

(** ** [datetime.strptime]

    CPython turns the format into a regular expression (module
    [_strptime]): a run of white space becomes [\s+], a directive becomes a
    named group, any other character stands for itself; the expression is
    compiled with [re.IGNORECASE] and matched at the start of the text, and
    the match has to end where the text ends.  The month names are those of
    the C locale. *)

Module Strptime.
Import Re.

Definition f_month : list string :=
  ["january"; "february"; "march"; "april"; "may"; "june"; "july";
   "august"; "september"; "october"; "november"; "december"].

Definition a_month : list string :=
  ["jan"; "feb"; "mar"; "apr"; "may"; "jun"; "jul"; "aug"; "sep"; "oct"; "nov"; "dec"].

(** [sorted(names, key=len, reverse=True)] of [f_month]: the sort is stable. *)
Definition f_month_by_len : list string :=
  ["september"; "february"; "november"; "december"; "january"; "october";
   "august"; "march"; "april"; "june"; "july"; "may"].

Definition directive (d : ascii) : option regex :=
  if Ascii.eqb d "d" then
    Some (Group "d" (alts [Seq (Chr (just "3")) (Chr (Py.in_range "0" "1"));
                           Seq (Chr (Py.in_range "1" "2")) (Chr Py.is_digit);
                           Seq (Chr (just "0")) (Chr (Py.in_range "1" "9"));
                           Chr (Py.in_range "1" "9");
                           Seq (Chr (just " ")) (Chr (Py.in_range "1" "9"))]))
  else if Ascii.eqb d "m" then
    Some (Group "m" (alts [Seq (Chr (just "1")) (Chr (Py.in_range "0" "2"));
                           Seq (Chr (just "0")) (Chr (Py.in_range "1" "9"));
                           Chr (Py.in_range "1" "9")]))
  else if Ascii.eqb d "Y" then Some (Group "Y" (rep4 Py.is_digit))
  else if Ascii.eqb d "B" then Some (Group "B" (alts (map lit f_month_by_len)))
  else if Ascii.eqb d "b" then Some (Group "b" (alts (map lit a_month)))
  else None.

(** The expression of a format; [None] for a directive the program never
    uses or a stray [%].  [ws] tells that the previous character of the
    format was white space. *)
Fixpoint pattern_from (ws : bool) (fmt : string) : option regex :=
  match fmt with
  | EmptyString => Some Eps
  | String c fmt' =>
      if Ascii.eqb c "%" then
        match fmt' with
        | String d fmt'' =>
            match directive d, pattern_from false fmt'' with
            | Some r, Some r' => Some (Seq r r')
            | _, _ => None
            end
        | EmptyString => None
        end
      else if Py.is_space c then
        if ws then pattern_from true fmt'
        else option_map (Seq (plus Py.is_space)) (pattern_from true fmt')
      else option_map (Seq (Chr (ieq c))) (pattern_from false fmt')
  end.

Definition pattern (fmt : string) : option regex := pattern_from false fmt.

Fixpoint lookup (name : string) (cs : list (string * string)) : option string :=
  match cs with
  | [] => None
  | (k, v) :: cs' => if String.eqb k name then Some v else lookup name cs'
  end.

(** [names.index(s)], counted from 1. *)
Fixpoint index_from (i : Z) (names : list string) (s : string) : option Z :=
  match names with
  | [] => None
  | n :: names' => if String.eqb n s then Some i else index_from (i + 1) names' s
  end.

Definition group_int (name : string) (cs : list (string * string)) (dflt : Z) : result Z :=
  match lookup name cs with
  | Some v => Py.int_of_str v
  | None => Ok dflt
  end.

Definition group_month (cs : list (string * string)) : result Z :=
  match lookup "B" cs, lookup "b" cs, lookup "m" cs with
  | Some v, _, _ =>
      match index_from 1 f_month (Py.lower v) with Some i => Ok i | None => Raise ValueError end
  | None, Some v, _ =>
      match index_from 1 a_month (Py.lower v) with Some i => Ok i | None => Raise ValueError end
  | None, None, Some v => Py.int_of_str v
  | None, None, None => Ok 1
  end.

(** The groups of the match of [text] against [fmt], when it spans [text]. *)
Definition parse (text fmt : string) : result (list (string * string)) :=
  match pattern fmt with
  | None => Raise ValueError
  | Some r =>
      match match_at r (init text) with
      | None => Raise ValueError
      | Some st =>
          match rest st with
          | EmptyString => Ok (caps st)
          | String _ _ => Raise ValueError
          end
      end
  end.

(** Year, month and day read from the groups; a format without a year
    means 1900, without month or day the first. *)
Definition fields (cs : list (string * string)) : result (Z * Z * Z) :=
  let* year := group_int "Y" cs 1900 in
  let* month := group_month cs in
  let* day := group_int "d" cs 1 in
  Ok (year, month, day).

(** [datetime.strptime(text, fmt)] for formats of year, month and day. *)
Definition strptime (text fmt : string) : result Datetime.datetime :=
  let* cs := parse text fmt in
  let* ymd := fields cs in
  let '(year, month, day) := ymd in
  Datetime.make_date year month day.

End Strptime.

(** ** [scheduler.py] *)

Module Scheduler.
Import Datetime.

(** A deadline [dict]; each key is absent or holds a string. *)
Record Deadline : Type := mk_deadline {
  d_date : option string;
  d_type : option string;
  d_title : option string;
  d_description : option string;
  d_course_code : option string;
  d_time : option string
}.

(** The values found in [user_data]. *)
Inductive pyval : Type :=
| PyNone
| PyInt (z : Z)
| PyStr (s : string)
| PyDeadlines (l : list Deadline).

Inductive activity_type : Type :=
| routine | meal | study | deadline | review | wellness | free.

(** An activity [dict]; an optional field is a key that may be absent. *)
Record Activity : Type := mk_activity {
  time : string;
  activity : string;
  type : activity_type;
  duration : option Z;
  description : option string;
  course : option string;
  priority : option string
}.

(** [int(v)] *)
Definition py_int (v : pyval) : result Z :=
  match v with
  | PyInt z => Ok z
  | PyStr s => Py.int_of_str s
  | PyNone => Raise TypeError
  | PyDeadlines _ => Raise TypeError
  end.

(** [v == s] for a string literal [s] *)
Definition py_eq_str (v : pyval) (s : string) : bool :=
  match v with
  | PyStr t => String.eqb t s
  | _ => false
  end.

(** [f"{h:02d}:00"] *)
Definition hh00 (h : Z) : string := Py.format_0d 2 h +:+ ":00".

Definition generate_study_sessions (wakeup sleep : Z) (study_style : pyval)
    (day_of_week : Z) : list Activity :=
  let available_hours := sleep - wakeup - 4 in
  if py_eq_str study_style "pomodoro" then
    let morning_start := wakeup + 2 in
    let afternoon_start := 14 in
    let evening_start := 19 in
    [ mk_activity (hh00 morning_start) "📚 Morning Study Block (4 Pomodoros)" study
        (Some 120) (Some "25min study + 5min break × 4") None None;
      mk_activity (hh00 afternoon_start) "📚 Afternoon Study Block (4 Pomodoros)" study
        (Some 120) (Some "25min study + 5min break × 4") None None ]
    ++ (if day_of_week <? 5 then
          [ mk_activity (hh00 evening_start) "📚 Evening Study Block (2 Pomodoros)" study
              (Some 60) (Some "25min study + 5min break × 2") None None ]
        else [])
  else if py_eq_str study_style "focused" then
    [ mk_activity (hh00 (wakeup + 2)) "📚 Deep Focus Session 1" study
        (Some 180) (Some "Extended focused study session") None None;
      mk_activity "14:00" "📚 Deep Focus Session 2" study
        (Some 150) (Some "Extended focused study session") None None ]
  else
    [ mk_activity (hh00 (wakeup + 2)) "📚 Morning Study Session" study
        (Some 90) (Some "Flexible study session") None None;
      mk_activity "13:00" "📚 Afternoon Study Session" study
        (Some 60) (Some "Flexible study session") None None;
      mk_activity "16:00" "📚 Late Afternoon Study" study
        (Some 90) (Some "Flexible study session") None None;
      mk_activity "19:30" "📚 Evening Review" study
        (Some 45) (Some "Review and light study") None None ].

Definition type_emojis (t : string) : option string :=
  if String.eqb t "exam" then Some "📝"
  else if String.eqb t "assignment" then Some "📄"
  else if String.eqb t "project" then Some "🚀"
  else if String.eqb t "quiz" then Some "❓"
  else if String.eqb t "presentation" then Some "🎤"
  else None.

Definition deadline_activity (dl : Deadline) : Activity :=
  let emoji := default "⚠️" (type_emojis (default "" (d_type dl))) in
  mk_activity (default "23:59" (d_time dl))
    (emoji +:+ " " +:+ Py.upper (default "" (d_type dl)) +:+ ": " +:+ default "" (d_title dl))
    deadline
    None
    (Some (default "" (d_description dl)))
    (Some (default "" (d_course_code dl)))
    (Some "high").

Fixpoint get_deadlines_for_date (date : datetime) (deadlines : list Deadline)
    : list Activity :=
  let date_str := strftime_ymd date in
  match deadlines with
  | [] => []
  | dl :: deadlines' =>
      match d_date dl with
      | Some s =>
          if String.eqb s date_str
          then deadline_activity dl :: get_deadlines_for_date date deadlines'
          else get_deadlines_for_date date deadlines'
      | None => get_deadlines_for_date date deadlines'
      end
  end.

Definition in_1_3_7 (days_until : Z) : bool :=
  (days_until =? 1) || (days_until =? 3) || (days_until =? 7).

Definition major (dl : Deadline) : bool :=
  match d_type dl with
  | Some t => String.eqb t "exam" || String.eqb t "project"
  | None => false
  end.

(** The literal [{1: 'Intensive', 3: 'Focused', 7: 'Initial'}] *)
Definition intensity_of (days_until : Z) : option string :=
  if days_until =? 1 then Some "Intensive"
  else if days_until =? 3 then Some "Focused"
  else if days_until =? 7 then Some "Initial"
  else None.

Definition review_activity (days_until : Z) (intensity : string) (dl : Deadline)
    : Activity :=
  mk_activity "20:00"
    ("📖 " +:+ intensity +:+ " Review: " +:+ default "" (d_title dl))
    review
    (Some (if days_until =? 1 then 60 else 45))
    None
    (Some (default "" (d_course_code dl)))
    (Some (if days_until <=? 3 then "high" else "medium")).

Fixpoint generate_review_sessions (date : datetime) (deadlines : list Deadline)
    : result (list Activity) :=
  match deadlines with
  | [] => Ok []
  | dl :: deadlines' =>
      let* deadline_date := Strptime.strptime (default "" (d_date dl)) "%Y-%m-%d" in
      let days_until := sub_days deadline_date date in
      let* more := generate_review_sessions date deadlines' in
      if in_1_3_7 days_until && major dl then
        match intensity_of days_until with
        | Some intensity => Ok (review_activity days_until intensity dl :: more)
        | None => Raise KeyError
        end
      else Ok more
  end.

(** [list.sort(key=lambda x: x["time"])]: a stable sort on the time string,
    compared code point by code point. *)
Fixpoint insert_by_time (a : Activity) (l : list Activity) : list Activity :=
  match l with
  | [] => [a]
  | b :: l' =>
      if String.leb (time a) (time b) then a :: b :: l'
      else b :: insert_by_time a l'
  end.

Definition sort_by_time (l : list Activity) : list Activity :=
  foldr insert_by_time [] l.

Definition generate_daily_plan {P : Type} (date : datetime) (wakeup sleep : Z)
    (study_style : pyval) (deadlines : list Deadline) (parsed_dates : P)
    : result (list Activity) :=
  let day_of_week := weekday date in
  let morning :=
    [ mk_activity (hh00 wakeup) "🌅 Morning Routine & Wake Up" routine
        (Some 60) None None None ] in
  let breakfast_time := wakeup + 1 in
  let breakfast :=
    [ mk_activity (hh00 breakfast_time) "🍳 Breakfast" meal (Some 30) None None None ] in
  let study_sessions := generate_study_sessions wakeup sleep study_style day_of_week in
  let meals :=
    [ mk_activity "12:00" "🥗 Lunch Break" meal (Some 60) None None None;
      mk_activity "18:00" "🍽️ Dinner" meal (Some 60) None None None ] in
  let deadline_activities := get_deadlines_for_date date deadlines in
  let* review_sessions := generate_review_sessions date deadlines in
  let exercise :=
    if day_of_week <? 5 then
      [ mk_activity (hh00 (wakeup + 8)) "💪 Exercise/Wellness Time" wellness
          (Some 45) None None None ]
    else [] in
  let free_time := sleep - 2 in
  let relax :=
    [ mk_activity (hh00 free_time) "🎉 Free Time & Relaxation" free
        (Some 120) None None None ] in
  Ok (sort_by_time
        (morning ++ breakfast ++ study_sessions ++ meals ++ deadline_activities
         ++ review_sessions ++ exercise ++ relax)).

(** [user_data.get("deadlines", [])], as the loops over it read it: a list
    of dictionaries.  The empty string iterates like the empty list. *)
Definition as_deadlines (v : pyval) : result (list Deadline) :=
  match v with
  | PyDeadlines l => Ok l
  | PyStr EmptyString => Ok []
  | PyStr (String _ _) => Raise AttributeError
  | PyNone => Raise TypeError
  | PyInt _ => Raise TypeError
  end.

(** The body of [for i in range(120)], over the days still to do. *)
Fixpoint schedule_days {P : Type} (start_date : datetime) (wakeup sleep : Z)
    (study_style : pyval) (deadlines : list Deadline) (parsed_dates : P)
    (days : list Z) (schedule : gmap string (list Activity))
    : result (gmap string (list Activity)) :=
  match days with
  | [] => Ok schedule
  | i :: days' =>
      let* current_day := add_days start_date i in
      let date_str := strftime_ymd current_day in
      if lt current_day start_date then
        schedule_days start_date wakeup sleep study_style deadlines parsed_dates
          days' schedule
      else
        let* daily_plan :=
          generate_daily_plan current_day wakeup sleep study_style deadlines
            parsed_dates in
        schedule_days start_date wakeup sleep study_style deadlines parsed_dates
          days' (<[date_str := daily_plan]> schedule)
  end.

(** [range(n)] *)
Definition range (n : nat) : list Z := map Z.of_nat (seq 0 n).

(** [create_schedule(parsed_dates, user_data)], with [today] the value of
    [datetime.today()]. *)
Definition create_schedule {P : Type} (today : datetime) (parsed_dates : P)
    (user_data : gmap string pyval) : result (gmap string (list Activity)) :=
  let* wakeup := py_int (default (PyInt 8) (user_data !! "wakeup")) in
  let* sleep := py_int (default (PyInt 23) (user_data !! "sleep")) in
  let study_style := default (PyStr "pomodoro") (user_data !! "study_style") in
  let* deadlines := as_deadlines (default (PyDeadlines []) (user_data !! "deadlines")) in
  let start_date := today in
  schedule_days start_date wakeup sleep study_style deadlines parsed_dates
    (range 120) ∅.

End Scheduler.

(** ** [parser.py] *)

Module Parser.
Import Re.

(** *** [validate_and_format_date] *)

Definition date_formats : list string :=
  ["%m/%d/%Y"; "%m-%d-%Y"; "%Y-%m-%d"; "%B %d, %Y"; "%d %B %Y"; "%b %d, %Y";
   "%d %b %Y"; "%m/%d"; "%B %d"; "%b %d"].

(** One turn of the loop over the formats: the call of [strptime]. *)
Definition attempt (now : Datetime.datetime) (date_str date_format : string)
    : result Datetime.datetime :=
  if negb (Py.contains "%Y" date_format) then
    let current_year := Datetime.year now in
    let date_str_with_year := date_str +:+ ", " +:+ Py.str_of_int current_year in
    let date_format_with_year := date_format +:+ ", %Y" in
    Strptime.strptime date_str_with_year date_format_with_year
  else Strptime.strptime date_str date_format.

(** The loop: [except ValueError: continue]. *)
Fixpoint try_formats (now : Datetime.datetime) (date_str : string)
    (formats : list string) : result (option string) :=
  match formats with
  | [] => Ok None
  | date_format :: formats' =>
      match attempt now date_str date_format with
      | Ok parsed_date => Ok (Some (Datetime.strftime_ymd parsed_date))
      | Raise ValueError => try_formats now date_str formats'
      | Raise e => Raise e
      end
  end.

(** [validate_and_format_date(date_str)], with [now] the value of
    [datetime.now()]; the outer [except:] turns any exception into [None]. *)
Definition validate_and_format_date (now : Datetime.datetime) (date_str : string)
    : result (option string) :=
  match try_formats now date_str date_formats with
  | Ok r => Ok r
  | Raise _ => Ok None
  end.

(** *** [extract_dates] *)

Definition d12 : regex := rep12 Py.is_digit.
Definition d4 : regex := rep4 Py.is_digit.

Definition date_patterns : list regex :=
  [ seqs [d12; Chr (just "/"); d12; Chr (just "/"); d4];
    seqs [d12; Chr (just "-"); d12; Chr (just "-"); d4];
    seqs [d4; Chr (just "-"); d12; Chr (just "-"); d12];
    seqs [WordB; plus Py.is_word; Chr (just " "); d12; Chr (just ","); Chr (just " "); d4; WordB];
    seqs [WordB; d12; Chr (just " "); plus Py.is_word; Chr (just " "); d4; WordB];
    seqs [WordB; plus Py.is_word; Chr (just " "); d12; WordB] ].

(** The list [dates] after the loop over the patterns. *)
Definition raw_dates (text : string) : list string :=
  flat_map (fun pattern => findall pattern text) date_patterns.

(** [list(set(dates))]: the distinct elements of [dates], in an order that
    Python does not fix. *)
Definition list_of_set (dates l : list string) : Prop :=
  List.NoDup l /\ forall x, In x l <-> In x dates.

(** The second loop: the dates that validate, in order. *)
Fixpoint validated_dates (now : Datetime.datetime) (dates : list string) : list string :=
  match dates with
  | [] => []
  | date_str :: dates' =>
      match validate_and_format_date now date_str with
      | Ok (Some validated_date) => validated_date :: validated_dates now dates'
      | _ => validated_dates now dates'
      end
  end.

(** [extract_dates(text)] returns [out]. *)
Definition extract_dates (now : Datetime.datetime) (text : string)
    (out : list string) : Prop :=
  exists dates, list_of_set (raw_dates text) dates /\ out = validated_dates now dates.

(** One admissible order: first occurrences, left to right. *)
Fixpoint distinct (l : list string) : list string :=
  match l with
  | [] => []
  | x :: l' => x :: List.filter (fun y => negb (String.eqb x y)) (distinct l')
  end.


(** *** [determine_deadline_type] *)

(** [any(word in sentence_lower for word in words)] *)
Definition any_in (words : list string) (sentence_lower : string) : bool :=
  existsb (fun word => Py.contains word sentence_lower) words.

Definition determine_deadline_type (sentence : string) : string :=
  let sentence_lower := Py.lower sentence in
  if any_in ["exam"; "test"; "final"; "midterm"] sentence_lower then "exam"
  else if any_in ["assignment"; "homework"; "hw"] sentence_lower then "assignment"
  else if any_in ["project"; "paper"] sentence_lower then "project"
  else if Py.contains "quiz" sentence_lower then "quiz"
  else if any_in ["presentation"; "present"] sentence_lower then "presentation"
  else "assignment".

(** *** [extract_deadline_title] *)

(** [^.*?word:?\s*] *)
Definition prefix_pattern (word : string) : regex :=
  seqs [Bol; Star false dot; lit word; opt (Chr (just ":")); Star true Py.is_space].

Definition prefixes_to_remove : list regex :=
  map prefix_pattern ["due"; "deadline"; "assignment"; "exam"; "test"; "quiz"; "project"].

Definition extract_deadline_title (sentence : string) : string :=
  let sentence := Py.strip sentence in
  let title := fold_left (fun title prefix => sub prefix "" title) prefixes_to_remove sentence in
  let title := Py.strip (sub (plus Py.is_space) " " title) in
  let title :=
    if 100 <? Py.len title then Py.take 97 title +:+ "..." else title in
  match title with
  | EmptyString => "Untitled Deadline"
  | _ => title
  end.

End Parser.

(** ** Auxiliary definitions of the calendar proofs *)

Module Calendar.
Import Datetime.

(** The last step of [_ord2ymd]: month and day from the day of the year. *)
Definition month_day (leapyear : bool) (n : Z) : Z * Z :=
  let month := (n + 50) / 32 in
  let preceding := _DAYS_BEFORE_MONTH month + b2z ((2 <? month) && leapyear) in
  if n <? preceding then
    let month := month - 1 in
    let preceding := preceding - (_DAYS_IN_MONTH month + b2z ((month =? 2) && leapyear)) in
    (month, n - preceding + 1)
  else (month, n - preceding + 1).

Definition month_day_ok (leapyear : bool) (n : Z) : bool :=
  let '(m, d) := month_day leapyear n in
  (1 <=? m) && (m <=? 12) && (1 <=? d)
  && (d <=? (if (m =? 2) && leapyear then 29 else _DAYS_IN_MONTH m))
  && (_DAYS_BEFORE_MONTH m + b2z ((2 <? m) && leapyear) + d =? n + 1).

Definition valid_ymd (y m d : Z) : Prop :=
  1 <= y <= 9999 /\ 1 <= m <= 12 /\ 1 <= d <= _days_in_month y m.

(** The date [i] days after [dt], when it is in range. *)
Definition day_after (dt : datetime) (i : Z) : datetime :=
  mk_datetime (ordinal dt + i) (time_us dt).

(** [format_0d width z] has [width] characters and reads back as [z]. *)
Definition format_ok (width : nat) (z : Z) : bool :=
  Nat.eqb (String.length (Py.format_0d width z)) width
  && match Py.digits_value 0 (Py.format_0d width z) with
     | Some z' => z' =? z
     | None => false
     end.

End Calendar.

(** ** Auxiliary definitions of the scheduler proofs *)

Module SchedulerSpec.
Import Datetime Calendar Scheduler.

Definition type_eqb (t u : activity_type) : bool :=
  match t, u with
  | routine, routine | meal, meal | study, study | deadline, deadline
  | review, review | wellness, wellness | free, free => true
  | _, _ => false
  end.

(** The number of activities of one type in a day. *)
Definition count_type (t : activity_type) (plan : list Activity) : nat :=
  length (List.filter (fun a => type_eqb (type a) t) plan).

(** The day has an activity of type [t] at [tm] that lasts [minutes]. *)
Definition has (plan : list Activity) (t : activity_type) (tm : string) (minutes : Z) : Prop :=
  exists a, In a plan /\ type a = t /\ time a = tm /\ duration a = Some minutes.

(** The list that [generate_daily_plan] sorts when there is no deadline. *)
Definition plain_day (wakeup sleep : Z) (study_style : pyval) (day_of_week : Z)
    : list Activity :=
  [ mk_activity (hh00 wakeup) "🌅 Morning Routine & Wake Up" routine (Some 60) None None None ]
  ++ [ mk_activity (hh00 (wakeup + 1)) "🍳 Breakfast" meal (Some 30) None None None ]
  ++ generate_study_sessions wakeup sleep study_style day_of_week
  ++ [ mk_activity "12:00" "🥗 Lunch Break" meal (Some 60) None None None;
       mk_activity "18:00" "🍽️ Dinner" meal (Some 60) None None None ]
  ++ [] ++ []
  ++ (if day_of_week <? 5 then
        [ mk_activity (hh00 (wakeup + 8)) "💪 Exercise/Wellness Time" wellness
            (Some 45) None None None ]
      else [])
  ++ [ mk_activity (hh00 (sleep - 2)) "🎉 Free Time & Relaxation" free
         (Some 120) None None None ].

(** What a day of the schedule holds when there is no deadline. *)
Definition fixed_activities (wakeup sleep day_of_week : Z) (plan : list Activity) : Prop :=
  (6 <= length plan)%nat
  /\ has plan routine (hh00 wakeup) 60
  /\ has plan meal (hh00 (wakeup + 1)) 30
  /\ (2 <= count_type study plan)%nat
  /\ has plan meal "12:00" 60
  /\ has plan meal "18:00" 60
  /\ has plan free (hh00 (sleep - 2)) 120
  /\ count_type wellness plan = (if day_of_week <? 5 then 1%nat else 0%nat)
  /\ (day_of_week < 5 -> has plan wellness (hh00 (wakeup + 8)) 45).

(** The duration field as the code leaves it: absent on a deadline
    activity, an integer on every other one. *)
Definition duration_by_type (a : Activity) : Prop :=
  match type a with
  | deadline => duration a = None
  | _ => exists minutes : Z, duration a = Some minutes
  end.

(** The two study templates that the claims name. *)
Definition pomodoro_template (wakeup day_of_week : Z) : list (string * Z) :=
  [(hh00 (wakeup + 2), 120); ("14:00", 120)]
  ++ (if day_of_week <? 5 then [("19:00", 60)] else []).

Definition flexible_template (wakeup : Z) : list (string * Z) :=
  [(hh00 (wakeup + 2), 90); ("13:00", 60); ("16:00", 90); ("19:30", 45)].

Definition focused_template (wakeup : Z) : list (string * Z) :=
  [(hh00 (wakeup + 2), 180); ("14:00", 150)].

(** The exception a call ends with, if any. *)
Definition raised {A : Type} (r : result A) : option exn :=
  match r with
  | Ok _ => None
  | Raise e => Some e
  end.

Definition is_some {A : Type} (o : option A) : bool :=
  match o with
  | Some _ => true
  | None => false
  end.

(** Time and duration of each session. *)
Definition blocks (sessions : list Activity) : list (string * option Z) :=
  map (fun a => (time a, duration a)) sessions.

Definition some_minutes (l : list (string * Z)) : list (string * option Z) :=
  map (fun '(t, d) => (t, Some d)) l.

End SchedulerSpec.

(** ** Auxiliary definitions of the proofs on regular expressions *)

Module ReSpec.
Import Re.

Definition all_ascii : list ascii := map ascii_of_nat (seq 0 256).

(** Every character of [p] is in [q]; no character is in both. *)
Definition subclass (p q : ascii -> bool) : bool :=
  forallb (fun c => implb (p c) (q c)) all_ascii.

Definition disjoint (p q : ascii -> bool) : bool :=
  forallb (fun c => negb (p c && q c)) all_ascii.

(** The number of characters of class [q] in a text. *)
Fixpoint count (q : ascii -> bool) (s : string) : nat :=
  match s with
  | EmptyString => 0
  | String c s' => (if q c then 1 else 0) + count q s'
  end.

(** Bounds on the number of characters of class [q] in a text that [r]
    matches, when the shape of [r] gives them. *)
Fixpoint bounds (q : ascii -> bool) (r : regex) : option (nat * nat) :=
  match r with
  | Eps | Bol | WordB => Some (0, 0)%nat
  | Chr p =>
      if subclass p q then Some (1, 1)%nat
      else if disjoint p q then Some (0, 0)%nat
      else Some (0, 1)%nat
  | Seq r1 r2 =>
      match bounds q r1, bounds q r2 with
      | Some (a, b), Some (c, d) => Some (a + c, b + d)%nat
      | _, _ => None
      end
  | Alt r1 r2 =>
      match bounds q r1, bounds q r2 with
      | Some (a, b), Some (c, d) => Some (Nat.min a c, Nat.max b d)
      | _, _ => None
      end
  | Star _ p => if disjoint p q then Some (0, 0)%nat else None
  | Group _ r1 => bounds q r1
  end.

(** No class of [r] accepts the character [c]. *)
Fixpoint avoids (c : ascii) (r : regex) : bool :=
  match r with
  | Eps | Bol | WordB => true
  | Chr p | Star _ p => negb (p c)
  | Seq r1 r2 | Alt r1 r2 => avoids c r1 && avoids c r2
  | Group _ r1 => avoids c r1
  end.

(** Two ranges of numbers with no number in common. *)
Definition apart (b1 b2 : option (nat * nat)) : bool :=
  match b1, b2 with
  | Some (lo1, hi1), Some (lo2, hi2) => Nat.ltb hi1 lo2 || Nat.ltb hi2 lo1
  | _, _ => false
  end.

(** The position [st] in a subject that goes on with [t]. *)
Definition extend (t : string) (st : mstate) : mstate :=
  mk_mstate (prev st) (rest st +:+ t) (caps st).

(** Every character of [s] is of class [p]. *)
Fixpoint every (p : ascii -> bool) (s : string) : bool :=
  match s with
  | EmptyString => true
  | String c s' => p c && every p s'
  end.

(** The texts that [r] matches, when [r] is built from classes, sequence
    and alternation only. *)
Fixpoint lang (r : regex) : option (list string) :=
  match r with
  | Eps => Some [EmptyString]
  | Chr p => Some (map (fun c => String c EmptyString) (List.filter p all_ascii))
  | Seq r1 r2 =>
      match lang r1, lang r2 with
      | Some l1, Some l2 => Some (flat_map (fun x => map (String.append x) l2) l1)
      | _, _ => None
      end
  | Alt r1 r2 =>
      match lang r1, lang r2 with
      | Some l1, Some l2 => Some (l1 ++ l2)
      | _, _ => None
      end
  | Star _ _ | Bol | WordB | Group _ _ => None
  end.

(** [r] has no group. *)
Fixpoint no_group (r : regex) : bool :=
  match r with
  | Group _ _ => false
  | Seq r1 r2 | Alt r1 r2 => no_group r1 && no_group r2
  | _ => true
  end.

(** Every text of [r] passes the test [ok]; every pair of a text of [r] and
    a text of [r'] does. *)
Definition all_of (r : regex) (ok : string -> bool) : bool :=
  match lang r with
  | Some l => forallb ok l
  | None => false
  end.

Definition all_pairs (r r' : regex) (ok : string -> string -> bool) : bool :=
  match lang r, lang r' with
  | Some l, Some l' => forallb (fun p => forallb (ok p) l') l
  | _, _ => false
  end.

(** [r] followed by [tail]: the expression of a format that goes on. *)
Fixpoint graft (r tail : regex) : regex :=
  match r with
  | Eps => tail
  | Seq r1 r2 => Seq r1 (graft r2 tail)
  | _ => Seq r tail
  end.

(** The first position of a list that is at the end of the subject. *)
Definition at_end (st : mstate) : bool :=
  match rest st with
  | EmptyString => true
  | String _ _ => false
  end.

Definition first_full (l : list mstate) : option mstate := List.find at_end l.

(** [r] matches the whole text [s]. *)
Definition spans (r : regex) (s : string) : Prop :=
  exists st, In st (matches r (init s)) /\ rest st = EmptyString.

End ReSpec.

(** ** Auxiliary definitions of the parser proofs *)

Module ParserSpec.
Import Parser.

(** [word] occurs in [sentence] up to the case of the letters. *)
Definition occurs_ci (word sentence : string) : Prop :=
  exists a m b, sentence = a +:+ m +:+ b /\ Py.lower m = word.

(** The keyword groups in the order of the specification, each with its
    category. *)
Definition priority_groups : list (list string * string) :=
  [ (["exam"; "test"; "final"; "midterm"], "exam");
    (["assignment"; "homework"; "hw"], "assignment");
    (["project"; "paper"], "project");
    (["quiz"], "quiz");
    (["presentation"; "present"], "presentation") ].

(** The category of the first group with a keyword in the sentence, and
    "assignment" when no group has one. *)
Inductive classified (sentence : string) : list (list string * string) -> string -> Prop :=
| classified_default : classified sentence [] "assignment"
| classified_here words category groups :
    (exists word, In word words /\ occurs_ci word sentence) ->
    classified sentence ((words, category) :: groups) category
| classified_later words category groups result :
    (forall word, In word words -> ~ occurs_ci word sentence) ->
    classified sentence groups result ->
    classified sentence ((words, category) :: groups) result.

(** The text and the format that one turn of the loop hands to [strptime]. *)
Definition attempt_text (now : Datetime.datetime) (date_str date_format : string) : string :=
  if negb (Py.contains "%Y" date_format)
  then date_str +:+ ", " +:+ Py.str_of_int (Datetime.year now)
  else date_str.

Definition attempt_format (date_format : string) : string :=
  if negb (Py.contains "%Y" date_format) then date_format +:+ ", %Y" else date_format.


(** The text matches and its fields are not a date of the calendar. *)
Definition impossible_date (now : Datetime.datetime) (date_str date_format : string) : Prop :=
  exists cs,
    Strptime.parse (attempt_text now date_str date_format) (attempt_format date_format)
    = Ok cs
    /\ match Strptime.fields cs with
       | Ok (y, m, d) => ~ Calendar.valid_ymd y m d
       | Raise _ => True
       end.

(** The formats with a year and those without, in the order of the loop. *)
Definition year_formats : list string :=
  ["%m/%d/%Y"; "%m-%d-%Y"; "%Y-%m-%d"; "%B %d, %Y"; "%d %B %Y"; "%b %d, %Y"; "%d %b %Y"].

Definition yearless_formats : list string := ["%m/%d"; "%B %d"; "%b %d"].

(** Whether a format, read from a state [ws], ends in white space. *)
Fixpoint end_ws (ws : bool) (fmt : string) : bool :=
  match fmt with
  | EmptyString => ws
  | String c fmt' =>
      if Ascii.eqb c "%" then
        match fmt' with
        | String _ fmt'' => end_ws false fmt''
        | EmptyString => false
        end
      else if Py.is_space c then end_ws true fmt'
      else end_ws false fmt'
  end.

(** The expression of a format of the program. *)
Definition pattern_of (f : string) : Re.regex := default Re.Eps (Strptime.pattern f).

(** [s] is a text of the format [f]: the expression of [f] matches all of it. *)
Definition in_format (f s : string) : Prop := ReSpec.spans (pattern_of f) s.

(** A year-less date string: a text of one of the formats MM/DD, Month DD
    and Mon DD. *)
Definition yearless (s : string) : Prop :=
  exists f, In f yearless_formats /\ in_format f s.

(** The classes that tell the formats apart: their separators and digits. *)
Definition slash : ascii -> bool := Re.just "/".
Definition dash : ascii -> bool := Re.just "-".
Definition comma : ascii -> bool := Re.just ",".

(** The class on which a format with a year and a year-less one differ in
    number of characters. *)
Definition telling_class (year_format : string) : ascii -> bool :=
  if String.eqb year_format "%m/%d/%Y" then slash
  else if String.eqb year_format "%m-%d-%Y" then dash
  else if String.eqb year_format "%Y-%m-%d" then dash
  else if String.eqb year_format "%B %d, %Y" then comma
  else if String.eqb year_format "%b %d, %Y" then comma
  else Py.is_digit.

Definition told_apart (year_format yearless_format : string) : bool :=
  let q := telling_class year_format in
  ReSpec.apart (ReSpec.bounds q (pattern_of year_format))
    (ReSpec.bounds q (pattern_of yearless_format))
  || ReSpec.apart (ReSpec.bounds slash (pattern_of year_format))
       (ReSpec.bounds slash (pattern_of yearless_format)).

(** The expression inside the group of a directive. *)
Definition group_body (r : Re.regex) : Re.regex :=
  match r with
  | Re.Group _ body => body
  | _ => Re.Eps
  end.

Definition directive_body (d : ascii) : Re.regex :=
  group_body (default Re.Eps (Strptime.directive d)).

(** The text of a day reads as 1 to 31, that of a month as 1 to 12. *)
Definition day_ok (w : string) : bool :=
  match Py.int_of_str w with
  | Ok k => (1 <=? k) && (k <=? 31)
  | Raise _ => false
  end.

Definition month_digits_ok (w : string) : bool :=
  match Py.int_of_str w with
  | Ok k => (1 <=? k) && (k <=? 12)
  | Raise _ => false
  end.

Definition month_name_ok (names : list string) (w : string) : bool :=
  match Strptime.index_from 1 names (Py.lower w) with
  | Some i => (1 <=? i) && (i <=? 12)
  | None => false
  end.

(** A full month name [p] and an abbreviation [p'] that can both start one
    text and be followed by white space: they are the same text, and name
    the same month. *)
Definition compatible (p p' : string) : bool :=
  if Nat.eqb (String.length p) (String.length p') then
    negb (String.eqb p p')
    || match Strptime.index_from 1 Strptime.f_month (Py.lower p),
             Strptime.index_from 1 Strptime.a_month (Py.lower p') with
       | Some i, Some j => i =? j
       | _, _ => false
       end
  else if Nat.ltb (String.length p) (String.length p') then
    negb (Py.startswith p p' && Re.opt_is Py.is_space (String.get (String.length p) p'))
  else
    negb (Py.startswith p' p && Re.opt_is Py.is_space (String.get (String.length p') p)).

(** The first of the readings of month and day that is a date in [year]. *)
Fixpoint first_date (year : Z) (readings : list (option (Z * Z))) : option string :=
  match readings with
  | [] => None
  | Some (m, d) :: readings' =>
      match Datetime.make_date year m d with
      | Ok dt => Some (Datetime.strftime_ymd dt)
      | Raise _ => first_date year readings'
      end
  | None :: readings' => first_date year readings'
  end.

(** The expression of [, %Y], which the loop appends to a year-less format. *)
Definition year_tail : Re.regex :=
  Re.Seq (Re.Chr (Re.ieq ","))
    (Re.Seq (Re.plus Py.is_space)
       (Re.Seq (Re.Group "Y" (Re.rep4 Py.is_digit)) Re.Eps)).

(** Month and day that the format [f] reads in the text [s]. *)
Definition month_day_of (f s : string) : option (Z * Z) :=
  match ReSpec.first_full (Re.matches (pattern_of f) (Re.init s)) with
  | Some st =>
      match Strptime.group_month (Re.caps st), Strptime.group_int "d" (Re.caps st) 1 with
      | Ok m, Ok d => Some (m, d)
      | _, _ => None
      end
  | None => None
  end.

(** The year is written with four digits and reads back. *)
Definition year_text_ok (y : Z) : bool :=
  match Py.str_of_int y with
  | String a (String b (String c (String d EmptyString))) =>
      Py.is_digit a && Py.is_digit b && Py.is_digit c && Py.is_digit d
      && match Py.int_of_str (Py.str_of_int y) with
         | Ok z => z =? y
         | Raise _ => false
         end
  | _ => false
  end.

(** [validate_and_format_date d] is [c]. *)
Definition validates_to (now : Datetime.datetime) (c : string) (d : string) : bool :=
  match validate_and_format_date now d with
  | Ok (Some v) => String.eqb v c
  | _ => false
  end.

End ParserSpec.

(** ** Concrete inputs *)

Module Examples.
Import Datetime Scheduler.

(** 12 March 2024 (a Tuesday), 10:00:00. *)
Definition today0 : datetime := mk_datetime 738957 36000000000.

(** The same day at midnight. *)
Definition midnight0 : datetime := mk_datetime 738957 0.

(** A project due three days after [today0]. *)
Definition project_in_3_days : Deadline :=
  mk_deadline (Some "2024-03-15") (Some "project") (Some "Term project")
    (Some "Hand in the report") (Some "CS101") (Some "17:00").

(** A quiz due on [today0]. *)
Definition quiz_today : Deadline :=
  mk_deadline (Some "2024-03-12") (Some "quiz") (Some "Quiz 4") None (Some "CS101") None.

(** A clock for the parser: the same moment. *)
Definition now0 : datetime := today0.

Definition no_preferences : gmap string pyval := ∅.

Definition with_quiz_today : gmap string pyval :=
  <["deadlines" := PyDeadlines [quiz_today]]> ∅.

Definition with_project : gmap string pyval :=
  <["deadlines" := PyDeadlines [project_in_3_days]]> ∅.

Definition wakeup_early : gmap string pyval :=
  <["wakeup" := PyStr "early"]> ∅.

(** The schedule of a call, or the empty dictionary if the call raised. *)
Definition schedule_of (r : result (gmap string (list Activity)))
    : gmap string (list Activity) :=
  match r with
  | Ok schedule => schedule
  | Raise _ => ∅
  end.

Definition schedule_with_quiz : gmap string (list Activity) :=
  schedule_of (create_schedule today0 tt with_quiz_today).

Definition plan_with_quiz : list Activity :=
  default [] (schedule_with_quiz !! "2024-03-12").

Definition schedule_with_project : gmap string (list Activity) :=
  schedule_of (create_schedule today0 tt with_project).

End Examples.

(** ** Auxiliary definitions of the proofs on extracted dates *)

Module DatesSpec.
Import Re.



End DatesSpec.

(** ** Auxiliary definitions of the proofs on schedules with deadlines *)

Module PlanSpec.
Import Datetime Calendar Scheduler SchedulerSpec.

(** The date of a deadline reads as a day of the calendar ([strptime] with
    ['%Y-%m-%d'] accepts it). *)
Definition date_parses (dl : Deadline) : bool :=
  match Strptime.strptime (default "" (d_date dl)) "%Y-%m-%d" with
  | Ok _ => true
  | Raise _ => false
  end.

(** The deadline carries exactly the text [date_str] as its date. *)
Definition due_on (date_str : string) (dl : Deadline) : bool :=
  match d_date dl with
  | Some s => String.eqb s date_str
  | None => false
  end.

(** The review sessions of a day; none when the call raises. *)
Definition reviews_of (date : datetime) (deadlines : list Deadline) : list Activity :=
  match generate_review_sessions date deadlines with
  | Ok sessions => sessions
  | Raise _ => []
  end.

(** The list that [generate_daily_plan] sorts. *)
Definition day_with (wakeup sleep : Z) (study_style : pyval) (deadlines : list Deadline)
    (date : datetime) : list Activity :=
  [ mk_activity (hh00 wakeup) "🌅 Morning Routine & Wake Up" routine (Some 60) None None None ]
  ++ [ mk_activity (hh00 (wakeup + 1)) "🍳 Breakfast" meal (Some 30) None None None ]
  ++ generate_study_sessions wakeup sleep study_style (weekday date)
  ++ [ mk_activity "12:00" "🥗 Lunch Break" meal (Some 60) None None None;
       mk_activity "18:00" "🍽️ Dinner" meal (Some 60) None None None ]
  ++ get_deadlines_for_date date deadlines
  ++ reviews_of date deadlines
  ++ (if weekday date <? 5 then
        [ mk_activity (hh00 (wakeup + 8)) "💪 Exercise/Wellness Time" wellness
            (Some 45) None None None ]
      else [])
  ++ [ mk_activity (hh00 (sleep - 2)) "🎉 Free Time & Relaxation" free
         (Some 120) None None None ].

(** The activities are in the order of their time texts. *)
Fixpoint in_time_order (plan : list Activity) : Prop :=
  match plan with
  | [] => True
  | a :: plan' =>
      Forall (fun b => String.leb (time a) (time b) = true) plan' /\ in_time_order plan'
  end.

(** The dictionary after the loop has run over [days]. *)
Definition filled_with (start_date : datetime) (wakeup sleep : Z) (study_style : pyval)
    (deadlines : list Deadline) (days : list Z) (schedule : gmap string (list Activity))
    : gmap string (list Activity) :=
  foldl (fun m i =>
           <[strftime_ymd (day_after start_date i) :=
               sort_by_time (day_with wakeup sleep study_style deadlines
                               (day_after start_date i))]> m)
        schedule days.

End PlanSpec.

(** ** Auxiliary definitions of the proofs on canonical dates *)

Module IsoSpec.
Import Re.

Definition digits10 : list ascii :=
  ["0"; "1"; "2"; "3"; "4"; "5"; "6"; "7"; "8"; "9"]%char.

(** The expression of ['%Y-%m-%d'] after the group of the year. *)
Definition after_year : regex :=
  match ParserSpec.pattern_of "%Y-%m-%d" with
  | Seq _ r => r
  | _ => Eps
  end.

Fixpoint caps_eqb (a b : list (string * string)) : bool :=
  match a, b with
  | [], [] => true
  | (k, v) :: a', (k', v') :: b' => String.eqb k k' && String.eqb v v' && caps_eqb a' b'
  | _, _ => false
  end.

Definition reads_as (text : string) (z : Z) : bool :=
  match Py.int_of_str text with
  | Ok z' => z' =? z
  | Raise _ => false
  end.

(** After a year that ends with the digit [e], the text [-MM-DD] of month
    [m] and day [d] is matched to its end, with the groups of month and
    day, and these read back as [m] and [d]. *)
Definition month_day_text_ok (e : ascii) (m d : Z) : bool :=
  let mm := Py.format_0d 2 m in
  let dd := Py.format_0d 2 d in
  match match_at after_year (mk_mstate (Some e) ("-" +:+ mm +:+ "-" +:+ dd) []) with
  | Some st =>
      ReSpec.at_end st && caps_eqb (caps st) [("d", dd); ("m", mm)]
      && reads_as mm m && reads_as dd d
  | None => false
  end.

(** A text that starts with three digits is not matched by the
    expressions of ['%m/%d/%Y'] and ['%m-%d-%Y'], whatever follows. *)
Definition no_month_first (fmt : string) (a b c : ascii) (tail : string) : bool :=
  match matches (ParserSpec.pattern_of fmt) (init (String a (String b (String c tail)))) with
  | [] => true
  | _ :: _ => false
  end.

(** The groups set before an expression is matched stay behind those it
    sets. *)
Definition behind (cs : list (string * string)) (st : mstate) : mstate :=
  mk_mstate (prev st) (rest st) (caps st ++ cs).

End IsoSpec.

(** ** [generate_weekly_summary]

    The statistics of the current week.  The hours of study are a Python
    [float], the sum of the quotients [duration / 60]; the float arithmetic
    is a parameter of the model: the conversion of an [int], the true
    division of two [int]s and the addition. *)

Module Summary.
Import Datetime Scheduler.

Section Floats.
Context {float : Type} (of_int : Z -> float) (true_div : Z -> Z -> float)
  (add : float -> float -> float).

(** The value under ['total_study_hours']: the [int] 0 at first, a [float]
    after the first addition. *)
Inductive number : Type :=
| Int (z : Z)
| Float (f : float).

(** [n += f] for a float [f] *)
Definition add_float (n : number) (f : float) : number :=
  match n with
  | Int z => Float (add (of_int z) f)
  | Float g => Float (add g f)
  end.

(** An entry of ['upcoming_deadlines']. *)
Record upcoming : Type := mk_upcoming {
  u_date : string;
  u_title : string;
  u_course : string
}.

Record WeeklyStats : Type := mk_weekly_stats {
  total_study_hours : number;
  deadlines_this_week : Z;
  study_sessions : Z;
  upcoming_deadlines : list upcoming
}.

(** The body of [for activity in daily_plan]. *)
Definition count_activity (date_str : string) (weekly_stats : WeeklyStats)
    (a : Activity) : WeeklyStats :=
  match type a with
  | study =>
      mk_weekly_stats
        (add_float (total_study_hours weekly_stats) (true_div (default 60 (duration a)) 60))
        (deadlines_this_week weekly_stats)
        (study_sessions weekly_stats + 1)
        (upcoming_deadlines weekly_stats)
  | deadline =>
      mk_weekly_stats
        (total_study_hours weekly_stats)
        (deadlines_this_week weekly_stats + 1)
        (study_sessions weekly_stats)
        (upcoming_deadlines weekly_stats
         ++ [mk_upcoming date_str (activity a) (default "" (course a))])
  | _ => weekly_stats
  end.

(** The body of [for i in range(7)], over the days still to do. *)
Fixpoint week_days (week_start : datetime) (schedule : gmap string (list Activity))
    (days : list Z) (weekly_stats : WeeklyStats) : result WeeklyStats :=
  match days with
  | [] => Ok weekly_stats
  | i :: days' =>
      let* date := add_days week_start i in
      let date_str := strftime_ymd date in
      match schedule !! date_str with
      | Some daily_plan =>
          week_days week_start schedule days'
            (fold_left (count_activity date_str) daily_plan weekly_stats)
      | None => week_days week_start schedule days' weekly_stats
      end
  end.

(** [generate_weekly_summary(schedule)], with [today] the value of
    [datetime.today()]. *)
Definition generate_weekly_summary (today : datetime)
    (schedule : gmap string (list Activity)) : result WeeklyStats :=
  let* week_start := add_days today (- weekday today) in
  week_days week_start schedule (range 7) (mk_weekly_stats (Int 0) 0 0 []).

End Floats.

End Summary.

(** ** Auxiliary definitions of the proofs on the weekly summary *)

Module SummarySpec.
Import Datetime Calendar Scheduler SchedulerSpec.

(** The days from today to the Sunday of the week, counted from today. *)
Definition days_left (today : datetime) : list Z :=
  range (Z.to_nat (7 - weekday today)).

(** The dates of the seven days of the week of [today]. *)
Definition week_dates (today : datetime) : list string :=
  map (fun i => strftime_ymd (day_after today (i - weekday today))) (range 7).

End SummarySpec.

(** ** [generate_calendar_ics_file] of [backend/emailer.py]

    The calendar file attached to the weekly mail.  [schedule_data.items()]
    is the list of the entries of the dictionary, in its order;
    [uuid.uuid4()] is drawn from a sequence [uuids], the [n]-th call giving
    [uuids n].  What the body of [try] raises is caught by the bare
    [except], so the body is a partial function. *)

Module Emailer.
Import Datetime Scheduler.

Definition nl : string := String (ascii_of_nat 10) EmptyString.

(** [s.split(sep)] for a separator of one character *)
Fixpoint split_on (sep : ascii) (s : string) : list string :=
  match s with
  | EmptyString => [EmptyString]
  | String c s' =>
      if Ascii.eqb c sep then EmptyString :: split_on sep s'
      else
        match split_on sep s' with
        | part :: parts => String c part :: parts
        | [] => [String c EmptyString]
        end
  end.

Definition US_PER_MINUTE : Z := 60000000.

Definition hour_of (dt : datetime) : Z := time_us dt / (60 * US_PER_MINUTE).
Definition minute_of (dt : datetime) : Z := (time_us dt / US_PER_MINUTE) mod 60.
Definition second_of (dt : datetime) : Z := (time_us dt / 1000000) mod 60.

(** [dt.replace(hour=hour, minute=minute)]: [None] for the [ValueError] of
    a field out of range. *)
Definition replace_hour_minute (dt : datetime) (hour minute : Z) : option datetime :=
  if (0 <=? hour) && (hour <=? 23) && (0 <=? minute) && (minute <=? 59)
  then Some (mk_datetime (ordinal dt)
               ((hour * 60 + minute) * US_PER_MINUTE + time_us dt mod US_PER_MINUTE))
  else None.

(** [dt.replace(minute=minute)] *)
Definition replace_minute (dt : datetime) (minute : Z) : option datetime :=
  if (0 <=? minute) && (minute <=? 59)
  then Some (mk_datetime (ordinal dt)
               ((hour_of dt * 60 + minute) * US_PER_MINUTE + time_us dt mod US_PER_MINUTE))
  else None.

(** [dt.strftime('%Y%m%dT%H%M%S')] *)
Definition strftime_ics (dt : datetime) : string :=
  let '(y, m, d) := _ord2ymd (ordinal dt) in
  Py.format_0d 4 y +:+ Py.format_0d 2 m +:+ Py.format_0d 2 d +:+ "T"
  +:+ Py.format_0d 2 (hour_of dt) +:+ Py.format_0d 2 (minute_of dt)
  +:+ Py.format_0d 2 (second_of dt).

(** [hour, minute = map(int, activity_time.split(':'))] *)
Definition hour_minute (activity_time : string) : option (Z * Z) :=
  match split_on ":" activity_time with
  | [h; m] =>
      match Py.int_of_str h, Py.int_of_str m with
      | Ok hour, Ok minute => Some (hour, minute)
      | _, _ => None
      end
  | _ => None
  end.

Definition header : string :=
  "BEGIN:VCALENDAR" +:+ nl +:+ "VERSION:2.0" +:+ nl
  +:+ "PRODID:-//StudyFlow//StudyFlow App//EN" +:+ nl
  +:+ "CALSCALE:GREGORIAN" +:+ nl +:+ "METHOD:PUBLISH" +:+ nl.

Definition vevent (event_id start_str end_str summary description : string) : string :=
  "BEGIN:VEVENT" +:+ nl
  +:+ "UID:" +:+ event_id +:+ "@studyflow.app" +:+ nl
  +:+ "DTSTART:" +:+ start_str +:+ nl
  +:+ "DTEND:" +:+ end_str +:+ nl
  +:+ "SUMMARY:" +:+ summary +:+ nl
  +:+ "DESCRIPTION:" +:+ description +:+ nl
  +:+ "CATEGORIES:EDUCATION" +:+ nl
  +:+ "END:VEVENT" +:+ nl.

(** The body of [try]: the text of the event, when nothing raises. *)
Definition event_text (event_id : string) (event_date : datetime) (a : Activity)
    : option string :=
  match hour_minute (time a) with
  | Some (hour, minute) =>
      match replace_hour_minute event_date hour minute with
      | Some start_datetime =>
          let duration_minutes := default 60 (duration a) in
          match replace_minute start_datetime
                  (minute_of start_datetime + duration_minutes) with
          | Some end_datetime =>
              let start_str := strftime_ics start_datetime in
              let end_str := strftime_ics end_datetime in
              Some (vevent event_id start_str end_str (activity a)
                      (default "Generated by StudyFlow" (description a)))
          | None => None
          end
      | None => None
      end
  | None => None
  end.

(** [activity.get('type') in ['study', 'deadline', 'exam']]; no activity of
    a schedule has the type ['exam']. *)
Definition exported_type (a : Activity) : bool :=
  match type a with
  | study | deadline => true
  | _ => false
  end.

(** The loop over the activities of a day; the state is the number of
    identifiers drawn and the text so far. *)
Fixpoint day_events (uuids : nat -> string) (date_str : string)
    (activities : list Activity) (n : nat) (ics_content : string)
    : result (nat * string) :=
  match activities with
  | [] => Ok (n, ics_content)
  | a :: activities' =>
      if exported_type a then
        let event_id := uuids n in
        let* event_date := Strptime.strptime date_str "%Y-%m-%d" in
        match event_text event_id event_date a with
        | Some text => day_events uuids date_str activities' (S n) (ics_content +:+ text)
        | None => day_events uuids date_str activities' (S n) ics_content
        end
      else day_events uuids date_str activities' n ics_content
  end.

(** The loop over the days. *)
Fixpoint all_events (uuids : nat -> string) (items : list (string * list Activity))
    (n : nat) (ics_content : string) : result (nat * string) :=
  match items with
  | [] => Ok (n, ics_content)
  | (date_str, activities) :: items' =>
      let* state := day_events uuids date_str activities n ics_content in
      all_events uuids items' (fst state) (snd state)
  end.

Definition generate_calendar_ics_file (uuids : nat -> string)
    (schedule_data : list (string * list Activity)) (student_email : string)
    : result string :=
  let* state := all_events uuids schedule_data 0 header in
  Ok (snd state +:+ "END:VCALENDAR").

End Emailer.

(** ** Auxiliary definitions of the proofs on the calendar file *)

Module EmailerSpec.
Import Datetime Scheduler Emailer.

(** The entries of a dictionary, in some order. *)
Definition entries_of (schedule : gmap string (list Activity))
    (items : list (string * list Activity)) : Prop :=
  forall date_str activities,
    In (date_str, activities) items -> schedule !! date_str = Some activities.

(** An hour or more, or the evening review of 45 minutes at 19:30. *)
Definition too_long (a : Activity) : Prop :=
  60 <= default 60 (duration a) \/ (time a = "19:30" /\ duration a = Some 45).

End EmailerSpec.

(** ** [extract_deadlines] of [backend/parser.py] *)

Module Deadlines.
Import Re Parser.



(** [re.split(r, s)]: the texts between the matches.  [piece] is the text
    since the last match, [skip] counts the characters of the last match
    still to pass.  The pattern of the program matches one character. *)
Fixpoint split_from (r : regex) (pv : option ascii) (s : string) (skip : nat)
    (piece : string) : list string :=
  match s with
  | EmptyString => [piece]
  | String c s' =>
      match skip with
      | S n => split_from r (Some c) s' n piece
      | O =>
          match match_at r (mk_mstate pv s []) with
          | Some st' =>
              match String.length (consumed (mk_mstate pv s []) st') with
              | O => split_from r (Some c) s' 0 (piece +:+ String c EmptyString)
              | S n => piece :: split_from r (Some c) s' n EmptyString
              end
          | None => split_from r (Some c) s' 0 (piece +:+ String c EmptyString)
          end
      end
  end.

Definition split (r : regex) (s : string) : list string :=
  split_from r None s 0 EmptyString.












End Deadlines.

(** ** Auxiliary definitions of the proofs on extracted deadlines *)

Module DeadlinesSpec.
Import Re Parser Deadlines.






End DeadlinesSpec.

(** ** [extract_class_times] of [backend/parser.py] *)

Module ClassTimes.
Import Re.












End ClassTimes.

(** ** Auxiliary definitions of the proofs on class times *)

Module ClassTimesSpec.
Import Re ClassTimes.



End ClassTimesSpec.

(** * Properties *)

(** ** Lists *)

Module ListFacts.

Lemma filter_length_perm {A} (f : A -> bool) (l l' : list A) :
  Permutation l l' -> length (List.filter f l) = length (List.filter f l').
Proof.
  induction 1 as [|x l l' _ IH|x y l|l l' l'' _ IH1 _ IH2]; simpl.
  - reflexivity.
  - destruct (f x); simpl; congruence.
  - destruct (f x), (f y); reflexivity.
  - congruence.
Qed.

Lemma filter_none {A} (f : A -> bool) (l : list A) :
  (forall x, In x l -> f x = false) -> List.filter f l = [].
Proof.
  induction l as [|a l IH]; simpl; intros H; [reflexivity|].
  rewrite (H a) by now left. apply IH. intros x Hx. apply H. now right.
Qed.

Lemma filter_at_most_one {A} (f : A -> bool) (l : list A) :
  List.NoDup l ->
  (forall x y, In x l -> In y l -> f x = true -> f y = true -> x = y) ->
  (length (List.filter f l) <= 1)%nat.
Proof.
  induction l as [|a l IH]; simpl; intros Hnd Hinj; [lia|].
  apply List.NoDup_cons_iff in Hnd as [Ha Hnd].
  destruct (f a) eqn:E.
  - rewrite filter_none; [simpl; lia|].
    intros x Hx. destruct (f x) eqn:Ex; [|reflexivity].
    exfalso. apply Ha. rewrite (Hinj a x); auto.
  - apply IH; [exact Hnd|]. intros x y Hx Hy. apply Hinj; now right.
Qed.

End ListFacts.

(** ** The calendar: [_ord2ymd] and [_ymd2ord] are inverse *)

Module CalendarFacts.
Import Datetime Calendar.

Lemma month_day_ok_all leapyear n :
  0 <= n < 365 + b2z leapyear -> month_day_ok leapyear n = true.
Proof.
  intros Hn.
  assert (H : List.forallb (fun k => month_day_ok leapyear (Z.of_nat k)) (seq 0 366) = true
              \/ (leapyear = false /\ List.forallb (fun k => month_day_ok false (Z.of_nat k)) (seq 0 365) = true)).
  { destruct leapyear; [left | right; split; [reflexivity|]]; vm_compute; reflexivity. }
  destruct H as [H | [-> H]];
    (eapply List.forallb_forall with (x := Z.to_nat n) in H;
     [rewrite Z2Nat.id in H by lia; exact H | apply in_seq; unfold b2z in Hn; try destruct leapyear; lia]).
Qed.

Lemma ord2ymd_split n :
  1 <= n ->
  let a := (n-1) / 146097 in
  let b := ((n-1) mod 146097) / 36524 in
  let c := (((n-1) mod 146097) mod 36524) / 1461 in
  let d := ((((n-1) mod 146097) mod 36524) mod 1461) / 365 in
  let r := ((((n-1) mod 146097) mod 36524) mod 1461) mod 365 in
    0 <= a /\ 0 <= b <= 4 /\ 0 <= c <= 24 /\ 0 <= d <= 4 /\ 0 <= r < 365 /\
    n - 1 = 146097 * a + 36524 * b + 1461 * c + 365 * d + r /\
    (b = 4 -> c = 0 /\ d = 0 /\ r = 0) /\ (d = 4 -> r = 0 /\ c <= 23).
Proof.
  intros Hn a b c d r. subst a b c d r.
  Z.div_mod_to_equations; lia.
Qed.

Lemma days_before_year_split a b c d :
  0 <= a -> 0 <= b <= 3 -> 0 <= c <= 24 -> 0 <= d <= 3 ->
  _days_before_year (400 * a + 100 * b + 4 * c + d + 1)
  = 146097 * a + 36524 * b + 1461 * c + 365 * d.
Proof.
  intros. unfold _days_before_year. cbv zeta.
  Z.div_mod_to_equations; lia.
Qed.

Lemma is_leap_split a b c d :
  0 <= a -> 0 <= b <= 3 -> 0 <= c <= 24 -> 0 <= d <= 3 ->
  _is_leap (400 * a + 100 * b + 4 * c + d + 1)
  = (d =? 3) && (negb (c =? 24) || (b =? 3)).
Proof.
  intros. unfold _is_leap.
  repeat match goal with |- context [?x =? ?y] => destruct (Z.eqb_spec x y) end; simpl; try reflexivity;
  exfalso; Z.div_mod_to_equations; lia.
Qed.

Lemma ord2ymd_unfold n :
  let a := (n-1) / 146097 in
  let b := ((n-1) mod 146097) / 36524 in
  let c := (((n-1) mod 146097) mod 36524) / 1461 in
  let d := ((((n-1) mod 146097) mod 36524) mod 1461) / 365 in
  let r := ((((n-1) mod 146097) mod 36524) mod 1461) mod 365 in
  let y := a * 400 + 1 + (b * 100 + c * 4 + d) in
  _ord2ymd n =
    if (d =? 4) || (b =? 4) then (y - 1, 12, 31)
    else let '(m, dd) := month_day ((d =? 3) && (negb (c =? 24) || (b =? 3))) r in (y, m, dd).
Proof.
  intros. subst a b c d r y. unfold _ord2ymd, month_day. cbv zeta.
  destruct (_ || _); [reflexivity|].
  destruct (_ <? _); reflexivity.
Qed.

Lemma ord2ymd_ok n :
  1 <= n <= MAXORDINAL ->
  let '(y, m, d) := _ord2ymd n in
  1 <= y <= 9999 /\ 1 <= m <= 12 /\ 1 <= d <= _days_in_month y m /\ _ymd2ord y m d = n.
Proof.
  unfold MAXORDINAL. intros Hn.
  rewrite ord2ymd_unfold. 
  pose proof (ord2ymd_split n ltac:(lia)) as H. cbv zeta in H |- *.
  set (a := (n-1) / 146097) in *.
  set (b := ((n-1) mod 146097) / 36524) in *.
  set (c := (((n-1) mod 146097) mod 36524) / 1461) in *.
  set (d := ((((n-1) mod 146097) mod 36524) mod 1461) / 365) in *.
  set (r := ((((n-1) mod 146097) mod 36524) mod 1461) mod 365) in *.
  clearbody a b c d r.
  destruct H as (Ha & Hb & Hc & Hd & Hr & Hsum & Hb4 & Hd4).
  destruct (Z.eqb_spec d 4) as [Hd4'|Hd4']; simpl orb.
  - destruct (Hd4 Hd4') as [-> Hc23]. subst d.
    assert (Hb3 : b <= 3) by lia.
    replace (a * 400 + 1 + (b * 100 + c * 4 + 4) - 1) with (400 * a + 100 * b + 4 * c + 3 + 1) by lia.
    unfold _ymd2ord, _days_in_month, _days_before_month.
    rewrite is_leap_split, days_before_year_split by lia.
    replace (c =? 24) with false by (symmetry; apply Z.eqb_neq; lia).
    simpl. lia.
  - destruct (Z.eqb_spec b 4) as [Hb4'|Hb4'].
    + destruct (Hb4 Hb4') as (-> & -> & ->). subst b.
      replace (a * 400 + 1 + (4 * 100 + 0 * 4 + 0) - 1) with (400 * a + 100 * 3 + 4 * 24 + 3 + 1) by lia.
      unfold _ymd2ord, _days_in_month, _days_before_month.
      rewrite is_leap_split, days_before_year_split by lia.
      simpl. lia.
    + set (leap := (d =? 3) && (negb (c =? 24) || (b =? 3))).
      assert (Hleap : _is_leap (400 * a + 100 * b + 4 * c + d + 1) = leap)
        by (apply is_leap_split; lia).
      pose proof (month_day_ok_all leap r ltac:(destruct leap; simpl; lia)) as Hmd.
      unfold month_day_ok in Hmd.
      destruct (month_day leap r) as [m dd].
      replace (a * 400 + 1 + (b * 100 + c * 4 + d)) with (400 * a + 100 * b + 4 * c + d + 1) by lia.
      unfold _ymd2ord, _days_in_month, _days_before_month.
      rewrite Hleap, days_before_year_split by lia.
      repeat (apply andb_prop in Hmd; destruct Hmd as [Hmd ?]).
      repeat match goal with H : (_ <=? _) = true |- _ => apply Z.leb_le in H
                        | H : (_ =? _) = true |- _ => apply Z.eqb_eq in H end.
      lia.
Qed.

Lemma days_before_year_succ y :
  1 <= y -> _days_before_year (y + 1) = _days_before_year y + 365 + b2z (_is_leap y).
Proof.
  intros Hy. unfold _days_before_year, _is_leap, b2z. cbv zeta.
  replace (y + 1 - 1) with y by lia.
  repeat match goal with |- context [?x =? ?y] => destruct (Z.eqb_spec x y) end; simpl;
  Z.div_mod_to_equations; lia.
Qed.

Lemma days_before_year_mono y y' :
  1 <= y <= y' -> _days_before_year y <= _days_before_year y'.
Proof.
  intros Hy. unfold _days_before_year. cbv zeta.
  Z.div_mod_to_equations; lia.
Qed.

Lemma month_cases m : 1 <= m <= 12 ->
  m = 1 \/ m = 2 \/ m = 3 \/ m = 4 \/ m = 5 \/ m = 6 \/ m = 7 \/ m = 8 \/ m = 9 \/ m = 10
  \/ m = 11 \/ m = 12.
Proof. lia. Qed.

Lemma day_of_year_bounds y m d :
  valid_ymd y m d ->
  1 <= _days_before_month y m + d <= 365 + b2z (_is_leap y).
Proof.
  intros (Hy & Hm & Hd). unfold _days_before_month, _days_in_month in *.
  destruct (_is_leap y); destruct (month_cases m Hm) as [->|[->|[->|[->|[->|[->|[->|[->|[->|[->|[->| ->]]]]]]]]]]];
    simpl in *; lia.
Qed.

Lemma day_of_year_inj y m d m' d' :
  valid_ymd y m d -> valid_ymd y m' d' ->
  _days_before_month y m + d = _days_before_month y m' + d' -> m = m' /\ d = d'.
Proof.
  intros (Hy & Hm & Hd) (_ & Hm' & Hd'). unfold _days_before_month, _days_in_month in *.
  destruct (_is_leap y);
    destruct (month_cases m Hm) as [->|[->|[->|[->|[->|[->|[->|[->|[->|[->|[->| ->]]]]]]]]]]];
    destruct (month_cases m' Hm') as [->|[->|[->|[->|[->|[->|[->|[->|[->|[->|[->| ->]]]]]]]]]]];
    simpl in *; lia.
Qed.

Lemma ymd2ord_inj y m d y' m' d' :
  valid_ymd y m d -> valid_ymd y' m' d' ->
  _ymd2ord y m d = _ymd2ord y' m' d' -> y = y' /\ m = m' /\ d = d'.
Proof.
  intros Hv Hv' Heq. unfold _ymd2ord in Heq.
  pose proof (day_of_year_bounds _ _ _ Hv) as Hb.
  pose proof (day_of_year_bounds _ _ _ Hv') as Hb'.
  assert (Hyy : y = y').
  { destruct Hv as (Hy & _), Hv' as (Hy' & _).
    destruct (Z.lt_trichotomy y y') as [Hlt | [Heq' | Hgt]]; [exfalso | exact Heq' | exfalso].
    - pose proof (days_before_year_succ y ltac:(lia)).
      pose proof (days_before_year_mono (y + 1) y' ltac:(lia)). lia.
    - pose proof (days_before_year_succ y' ltac:(lia)).
      pose proof (days_before_year_mono (y' + 1) y ltac:(lia)). lia. }
  subst y'. split; [reflexivity|].
  apply (day_of_year_inj y); [assumption..|lia].
Qed.

Lemma ymd2ord_range y m d :
  valid_ymd y m d -> 1 <= _ymd2ord y m d <= MAXORDINAL.
Proof.
  intros Hv. pose proof (day_of_year_bounds _ _ _ Hv) as Hb.
  destruct Hv as (Hy & _). unfold _ymd2ord, MAXORDINAL.
  pose proof (days_before_year_mono 1 y ltac:(lia)) as H1.
  pose proof (days_before_year_succ y ltac:(lia)) as H2.
  pose proof (days_before_year_mono (y + 1) 10000 ltac:(lia)) as H3.
  change (_days_before_year 1) with 0 in H1.
  change (_days_before_year 10000) with 3652059 in H3. lia.
Qed.

Lemma ord2ymd_ymd2ord y m d :
  valid_ymd y m d -> _ord2ymd (_ymd2ord y m d) = (y, m, d).
Proof.
  intros Hv. pose proof (ymd2ord_range _ _ _ Hv) as Hr.
  pose proof (ord2ymd_ok _ Hr) as Hok.
  destruct (_ord2ymd (_ymd2ord y m d)) as [[y' m'] d'].
  destruct Hok as (Hy' & Hm' & Hd' & Heq).
  destruct (ymd2ord_inj y' m' d' y m d) as (-> & -> & ->); try assumption; try reflexivity.
  repeat split; lia.
Qed.

Lemma format_ok_below (width : nat) (bound : Z) z :
  List.forallb (fun k => format_ok width (Z.of_nat k)) (seq 0 (Z.to_nat bound)) = true ->
  0 <= z < bound -> format_ok width z = true.
Proof.
  intros Hall Hz.
  eapply List.forallb_forall with (x := Z.to_nat z) in Hall.
  - rewrite Z2Nat.id in Hall by lia. exact Hall.
  - apply in_seq. lia.
Qed.

Lemma format_4_ok z : 0 <= z < 10000 -> format_ok 4 z = true.
Proof. apply (format_ok_below 4 10000). vm_compute. reflexivity. Qed.

Lemma format_2_ok z : 0 <= z < 100 -> format_ok 2 z = true.
Proof. apply (format_ok_below 2 100). vm_compute. reflexivity. Qed.

Lemma format_ok_length width z :
  format_ok width z = true -> String.length (Py.format_0d width z) = width.
Proof.
  unfold format_ok. intros H. apply andb_prop in H as [H _].
  now apply Nat.eqb_eq in H.
Qed.

Lemma format_ok_inj width z z' :
  format_ok width z = true -> format_ok width z' = true ->
  Py.format_0d width z = Py.format_0d width z' -> z = z'.
Proof.
  unfold format_ok. intros H H' Heq. rewrite <- Heq in H'.
  apply andb_prop in H as [_ H]. apply andb_prop in H' as [_ H'].
  destruct (Py.digits_value 0 (Py.format_0d width z)); [|discriminate].
  apply Z.eqb_eq in H, H'. congruence.
Qed.

Lemma append_nil_l (s : string) : "" +:+ s = s.
Proof. reflexivity. Qed.

Lemma append_cons (c : ascii) (s t : string) : String c s +:+ t = String c (s +:+ t).
Proof. reflexivity. Qed.

Lemma length_append (s t : string) :
  String.length (s +:+ t) = (String.length s + String.length t)%nat.
Proof.
  induction s as [|c s IH]; [reflexivity|].
  change (S (String.length (s +:+ t)) = S (String.length s + String.length t)).
  now rewrite IH.
Qed.

Lemma append_inj_length (a a' b b' : string) :
  String.length a = String.length a' -> a +:+ b = a' +:+ b' -> a = a' /\ b = b'.
Proof.
  revert a'. induction a as [|c a IH]; intros [|c' a'] Hlen Heq; simpl in *;
    try discriminate.
  - split; [reflexivity | exact Heq].
  - injection Heq as -> Heq. injection Hlen as Hlen.
    destruct (IH a' Hlen Heq) as [-> ->]. split; reflexivity.
Qed.

Lemma days_in_month_le y m : _days_in_month y m <= 31.
Proof.
  unfold _days_in_month, _DAYS_IN_MONTH.
  destruct (_ && _); [lia|].
  destruct m as [|p|p]; try lia.
  do 4 (destruct p as [p|p|]; try lia).
Qed.

Lemma iso_inj y m d y' m' d' :
  valid_ymd y m d -> valid_ymd y' m' d' -> iso y m d = iso y' m' d' ->
  y = y' /\ m = m' /\ d = d'.
Proof.
  intros (Hy & Hm & Hd) (Hy' & Hm' & Hd') Heq.
  pose proof (days_in_month_le y m). pose proof (days_in_month_le y' m').
  pose proof (format_4_ok y ltac:(lia)) as Fy.
  pose proof (format_4_ok y' ltac:(lia)) as Fy'.
  pose proof (format_2_ok m ltac:(lia)) as Fm.
  pose proof (format_2_ok m' ltac:(lia)) as Fm'.
  pose proof (format_2_ok d ltac:(lia)) as Fd.
  pose proof (format_2_ok d' ltac:(lia)) as Fd'.
  unfold iso in Heq.
  apply append_inj_length in Heq as [Ey Heq];
    [|rewrite (format_ok_length 4 y), (format_ok_length 4 y'); auto].
  rewrite ?append_cons, ?append_nil_l in Heq. injection Heq as Heq.
  apply append_inj_length in Heq as [Em Heq];
    [|rewrite (format_ok_length 2 m), (format_ok_length 2 m'); auto].
  rewrite ?append_cons, ?append_nil_l in Heq. injection Heq as Heq.
  repeat split; eapply format_ok_inj; eassumption.
Qed.

Lemma iso_length y m d : valid_ymd y m d -> String.length (iso y m d) = 10%nat.
Proof.
  intros (Hy & Hm & Hd). pose proof (days_in_month_le y m).
  unfold iso. rewrite !length_append.
  rewrite (format_ok_length 4 y), (format_ok_length 2 m), (format_ok_length 2 d);
    [reflexivity | apply format_2_ok; lia | apply format_2_ok; lia | apply format_4_ok; lia].
Qed.

(** [strftime('%Y-%m-%d')] tells the days apart. *)
Lemma strftime_ymd_inj (a b : datetime) :
  1 <= ordinal a <= MAXORDINAL -> 1 <= ordinal b <= MAXORDINAL ->
  strftime_ymd a = strftime_ymd b -> ordinal a = ordinal b.
Proof.
  intros Ha Hb. unfold strftime_ymd.
  pose proof (ord2ymd_ok _ Ha) as Oa. pose proof (ord2ymd_ok _ Hb) as Ob.
  destruct (_ord2ymd (ordinal a)) as [[y m] d].
  destruct (_ord2ymd (ordinal b)) as [[y' m'] d'].
  destruct Oa as (? & ? & ? & <-), Ob as (? & ? & ? & <-).
  intros Heq. apply iso_inj in Heq as (-> & -> & ->); [reflexivity| |];
    repeat split; lia.
Qed.

(** The text of a date made by [make_date] shows its fields. *)
Lemma strftime_make_date y m d dt :
  make_date y m d = Ok dt -> valid_ymd y m d /\ strftime_ymd dt = iso y m d.
Proof.
  unfold make_date. destruct (_ && _) eqn:E; [|discriminate].
  intros [= <-].
  repeat (apply andb_prop in E as [E ?]).
  repeat match goal with H : (_ <=? _) = true |- _ => apply Z.leb_le in H end.
  assert (Hv : valid_ymd y m d) by (repeat split; lia).
  split; [exact Hv|]. unfold strftime_ymd. simpl.
  now rewrite ord2ymd_ymd2ord.
Qed.

End CalendarFacts.

(** ** The scheduler *)

Module SchedulerFacts.
Import Datetime Calendar ListFacts CalendarFacts Scheduler SchedulerSpec.

(** *** Sorting keeps the activities *)

Lemma insert_by_time_perm a l : Permutation (insert_by_time a l) (a :: l).
Proof.
  induction l as [|b l IH]; simpl; [reflexivity|].
  destruct (String.leb (time a) (time b)); [reflexivity|].
  rewrite IH. apply perm_swap.
Qed.

Lemma sort_by_time_perm l : Permutation (sort_by_time l) l.
Proof.
  induction l as [|a l IH]; simpl; [reflexivity|].
  rewrite insert_by_time_perm. now constructor.
Qed.

Lemma count_type_sort t l : count_type t (sort_by_time l) = count_type t l.
Proof. apply filter_length_perm, sort_by_time_perm. Qed.

Lemma has_sort l t tm d : has l t tm d -> has (sort_by_time l) t tm d.
Proof.
  intros (a & Hin & H). exists a. split; [|exact H].
  eapply Permutation_in; [symmetry; apply sort_by_time_perm | exact Hin].
Qed.

Lemma in_sort a l : In a (sort_by_time l) <-> In a l.
Proof.
  split; apply Permutation_in; [|symmetry]; apply sort_by_time_perm.
Qed.

(** *** The study sessions *)

Lemma study_sessions_cases wakeup sleep study_style day_of_week :
  let sessions := generate_study_sessions wakeup sleep study_style day_of_week in
  Forall (fun a => type a = study /\ exists minutes, duration a = Some minutes) sessions
  /\ (2 <= length sessions <= 4)%nat.
Proof.
  unfold generate_study_sessions.
  destruct (py_eq_str study_style "pomodoro");
    [destruct (day_of_week <? 5)|destruct (py_eq_str study_style "focused")];
    simpl; (split; [repeat constructor; simpl; eauto | lia]).
Qed.

Lemma count_study_sessions wakeup sleep study_style day_of_week :
  let sessions := generate_study_sessions wakeup sleep study_style day_of_week in
  count_type study sessions = length sessions
  /\ count_type wellness sessions = 0%nat.
Proof.
  unfold generate_study_sessions.
  destruct (py_eq_str study_style "pomodoro");
    [destruct (day_of_week <? 5)|destruct (py_eq_str study_style "focused")];
    split; reflexivity.
Qed.

Lemma count_type_app t l l' :
  count_type t (l ++ l') = (count_type t l + count_type t l')%nat.
Proof. unfold count_type. now rewrite List.filter_app, List.length_app. Qed.

Lemma count_type_cons t a l :
  count_type t (a :: l) = ((if type_eqb (type a) t then 1 else 0) + count_type t l)%nat.
Proof. unfold count_type. simpl. now destruct (type_eqb (type a) t). Qed.

(** *** A day without deadlines *)

Lemma generate_daily_plan_nil {P} dt wakeup sleep study_style (parsed_dates : P) :
  generate_daily_plan dt wakeup sleep study_style [] parsed_dates
  = Ok (sort_by_time (plain_day wakeup sleep study_style (weekday dt))).
Proof. reflexivity. Qed.

(** [has] at the place reached by [path] in the unsorted list. *)
Ltac has_at path :=
  apply has_sort; eexists;
  split; [unfold plain_day; simpl; path | repeat split; reflexivity].

Ltac after_sessions path :=
  right; right; apply in_or_app; right; path.

Lemma plain_day_fixed wakeup sleep study_style day_of_week :
  fixed_activities wakeup sleep day_of_week
    (sort_by_time (plain_day wakeup sleep study_style day_of_week)).
Proof.
  pose proof (study_sessions_cases wakeup sleep study_style day_of_week) as [_ Hlen].
  pose proof (count_study_sessions wakeup sleep study_style day_of_week) as [Hst Hwl].
  cbv zeta in *.
  unfold fixed_activities.
  rewrite (Permutation_length (sort_by_time_perm _)), !count_type_sort.
  split; [|split; [|split; [|split; [|split; [|split; [|split; [|split]]]]]]].
  - unfold plain_day. rewrite !List.length_app. simpl. lia.
  - has_at ltac:(left; reflexivity).
  - has_at ltac:(right; left; reflexivity).
  - unfold plain_day. rewrite !count_type_app, Hst.
    destruct (day_of_week <? 5); simpl; lia.
  - has_at ltac:(after_sessions ltac:(left; reflexivity)).
  - has_at ltac:(after_sessions ltac:(right; left; reflexivity)).
  - has_at ltac:(after_sessions
                   ltac:(right; right; apply in_or_app; right; left; reflexivity)).
  - unfold plain_day. rewrite !count_type_app, Hwl.
    destruct (day_of_week <? 5); reflexivity.
  - intros Hd. apply Z.ltb_lt in Hd. unfold plain_day. rewrite Hd.
    has_at ltac:(after_sessions ltac:(right; right; left; reflexivity)).
Qed.

(** *** The loop over the days *)

Section Loop.
Context {P : Type} (start_date : datetime) (wakeup sleep : Z) (study_style : pyval)
  (parsed_dates : P).

(** The dictionary after the loop has run over [days], without deadlines. *)
Definition filled (days : list Z) (schedule : gmap string (list Activity))
    : gmap string (list Activity) :=
  foldl (fun m i =>
           <[strftime_ymd (day_after start_date i) :=
               sort_by_time (plain_day wakeup sleep study_style
                               (weekday (day_after start_date i)))]> m)
        schedule days.

Lemma schedule_days_nil days schedule :
  1 <= ordinal start_date ->
  Forall (fun i => 0 <= i /\ ordinal start_date + i <= MAXORDINAL) days ->
  schedule_days start_date wakeup sleep study_style [] parsed_dates days schedule
  = Ok (filled days schedule).
Proof.
  intros Hstart Hdays. revert schedule.
  induction Hdays as [|i days [Hi Hmax] _ IH]; intros schedule; [reflexivity|].
  simpl. unfold add_days.
  replace ((1 <=? ordinal start_date + i) && (ordinal start_date + i <=? MAXORDINAL))
    with true by (symmetry; apply andb_true_intro; split; apply Z.leb_le; lia).
  simpl rbind. unfold lt. simpl ordinal. simpl time_us.
  replace (ordinal start_date + i <? ordinal start_date) with false
    by (symmetry; apply Z.ltb_ge; lia).
  rewrite Z.ltb_irrefl, andb_false_r. simpl.
  apply IH.
Qed.

Lemma filled_lookup_other days schedule k :
  Forall (fun i => strftime_ymd (day_after start_date i) <> k) days ->
  filled days schedule !! k = schedule !! k.
Proof.
  intros H. revert schedule. unfold filled.
  induction H as [|i days Hi _ IH]; intros schedule; [reflexivity|].
  simpl. rewrite IH. now apply lookup_insert_ne.
Qed.

Lemma filled_some days schedule k :
  is_Some (filled days schedule !! k)
  <-> is_Some (schedule !! k) \/ exists i, In i days /\ k = strftime_ymd (day_after start_date i).
Proof.
  revert schedule. unfold filled.
  induction days as [|i days IH]; intros schedule; simpl.
  - split; [auto | intros [H | (i & [] & _)]; exact H].
  - rewrite IH. destruct (decide (strftime_ymd (day_after start_date i) = k)) as [E|E].
    + subst k. rewrite lookup_insert_eq. split; intros _; [|left; eauto].
      right. exists i. auto.
    + rewrite lookup_insert_ne by exact E.
      split; intros [H | (j & Hj & Hk)]; auto.
      * right. exists j. auto.
      * destruct Hj as [-> | Hj]; [congruence|]. right. exists j. auto.
Qed.

Lemma key_inj i j :
  1 <= ordinal start_date + i <= MAXORDINAL ->
  1 <= ordinal start_date + j <= MAXORDINAL ->
  strftime_ymd (day_after start_date i) = strftime_ymd (day_after start_date j) -> i = j.
Proof.
  intros Hi Hj H. apply strftime_ymd_inj in H; simpl in *; lia.
Qed.

Lemma filled_lookup_in days schedule i :
  List.NoDup days ->
  Forall (fun i => 1 <= ordinal start_date + i <= MAXORDINAL) days ->
  In i days ->
  filled days schedule !! strftime_ymd (day_after start_date i)
  = Some (sort_by_time (plain_day wakeup sleep study_style
                          (weekday (day_after start_date i)))).
Proof.
  intros Hnd Hr. revert schedule.
  induction Hr as [|j days Hj Hr IH]; intros schedule Hin; [destruct Hin|].
  apply List.NoDup_cons_iff in Hnd as [Hnotin Hnd].
  change (filled (j :: days) schedule)
    with (filled days (<[strftime_ymd (day_after start_date j) :=
                           sort_by_time (plain_day wakeup sleep study_style
                                           (weekday (day_after start_date j)))]> schedule)).
  destruct (in_dec Z.eq_dec i days) as [Hi | Hi]; [now apply IH|].
  destruct Hin as [-> | Hin]; [|contradiction].
  rewrite filled_lookup_other; [apply lookup_insert_eq|].
  rewrite List.Forall_forall in Hr |- *. intros k Hk E.
  apply key_inj in E; [congruence | now apply Hr | exact Hj].
Qed.

Lemma filled_size days schedule :
  List.NoDup days ->
  Forall (fun i => 1 <= ordinal start_date + i <= MAXORDINAL) days ->
  Forall (fun i => schedule !! strftime_ymd (day_after start_date i) = None) days ->
  size (filled days schedule) = (size schedule + length days)%nat.
Proof.
  intros Hnd Hr. revert schedule.
  induction Hr as [|j days Hj Hr IH]; intros schedule Hfresh; [simpl; lia|].
  apply List.NoDup_cons_iff in Hnd as [Hnotin Hnd].
  apply List.Forall_cons_iff in Hfresh as [Hfj Hfresh].
  change (filled (j :: days) schedule)
    with (filled days (<[strftime_ymd (day_after start_date j) :=
                           sort_by_time (plain_day wakeup sleep study_style
                                           (weekday (day_after start_date j)))]> schedule)).
  rewrite IH; [rewrite map_size_insert_None by exact Hfj; simpl; lia | exact Hnd |].
  rewrite List.Forall_forall in Hr, Hfresh |- *. intros k Hk.
  rewrite lookup_insert_ne; [now apply Hfresh|].
  intros E. apply key_inj in E; [congruence | exact Hj | now apply Hr].
Qed.

End Loop.

Lemma range_spec n i : In i (range n) <-> 0 <= i < Z.of_nat n.
Proof.
  unfold range. rewrite List.in_map_iff. split.
  - intros (k & <- & Hk). apply in_seq in Hk. lia.
  - intros Hi. exists (Z.to_nat i). split; [lia | apply in_seq; lia].
Qed.

Lemma range_NoDup n : List.NoDup (range n).
Proof.
  unfold range. apply Finite.Injective_map_NoDup; [|apply List.seq_NoDup].
  intros x y. lia.
Qed.

(** C5. With no deadline, [create_schedule] returns a schedule for every
    preference set whose wake-up and sleep hours are integers: its keys are
    the 120 consecutive dates from today on, and every day holds at least
    six activities, among them the morning routine, breakfast, two study
    blocks or more, lunch, dinner and free time, and the wellness activity
    exactly from Monday to Friday. *)
Theorem create_schedule_without_deadlines {P : Type} (today : datetime)
    (parsed_dates : P) (user_data : gmap string pyval) (wakeup sleep : Z) :
  valid today ->
  ordinal today + 119 <= MAXORDINAL ->
  py_int (default (PyInt 8) (user_data !! "wakeup")) = Ok wakeup ->
  py_int (default (PyInt 23) (user_data !! "sleep")) = Ok sleep ->
  as_deadlines (default (PyDeadlines []) (user_data !! "deadlines")) = Ok [] ->
  exists schedule,
    create_schedule today parsed_dates user_data = Ok schedule
    /\ size schedule = 120%nat
    /\ (forall date, is_Some (schedule !! date)
                     <-> exists i, 0 <= i < 120 /\ date = strftime_ymd (day_after today i))
    /\ (forall i, 0 <= i < 120 ->
          exists plan,
            schedule !! strftime_ymd (day_after today i) = Some plan
            /\ fixed_activities wakeup sleep (weekday (day_after today i)) plan).
Proof.
  intros [Hord _] Hmax Hw Hs Hd.
  assert (Hrange : Forall (fun i => 1 <= ordinal today + i <= MAXORDINAL) (range 120)).
  { apply List.Forall_forall. intros i Hi. apply range_spec in Hi. lia. }
  eexists. split; [|split; [|split]].
  - unfold create_schedule. rewrite Hw, Hs, Hd. unfold rbind. cbv beta iota.
    apply schedule_days_nil; [lia|].
    apply List.Forall_forall. intros i Hi. apply range_spec in Hi. lia.
  - rewrite filled_size; [reflexivity | apply range_NoDup | exact Hrange |].
    apply List.Forall_forall. intros i _. apply lookup_empty.
  - intros date. rewrite filled_some, lookup_empty. split.
    + intros [[x Hx] | (i & Hi & ->)]; [discriminate|].
      exists i. apply range_spec in Hi. split; [lia | reflexivity].
    + intros (i & Hi & ->). right. exists i. split; [apply range_spec; lia | reflexivity].
  - intros i Hi. eexists. split.
    + apply filled_lookup_in; [apply range_NoDup | exact Hrange | apply range_spec; lia].
    + apply plain_day_fixed.
Qed.

(** *** The duration field *)

Lemma deadlines_for_date_duration date deadlines :
  Forall duration_by_type (get_deadlines_for_date date deadlines).
Proof.
  induction deadlines as [|dl deadlines IH]; simpl; [constructor|].
  destruct (d_date dl) as [s|]; [|exact IH].
  destruct (String.eqb s (strftime_ymd date)); [|exact IH].
  constructor; [reflexivity | exact IH].
Qed.

Lemma review_sessions_duration date deadlines sessions :
  generate_review_sessions date deadlines = Ok sessions ->
  Forall duration_by_type sessions.
Proof.
  revert sessions. induction deadlines as [|dl deadlines IH]; simpl; intros sessions H.
  - injection H as <-. constructor.
  - destruct (Strptime.strptime _ _) as [deadline_date|]; [|discriminate].
    simpl in H. destruct (generate_review_sessions date deadlines) as [more|];
      [|discriminate].
    simpl in H. specialize (IH more eq_refl).
    destruct (_ && _).
    + destruct (intensity_of _); [|discriminate]. injection H as <-.
      constructor; [|exact IH]. unfold duration_by_type. simpl. eauto.
    + injection H as <-. exact IH.
Qed.

Lemma study_sessions_duration wakeup sleep study_style day_of_week :
  Forall duration_by_type (generate_study_sessions wakeup sleep study_style day_of_week).
Proof.
  pose proof (study_sessions_cases wakeup sleep study_style day_of_week) as [H _].
  cbv zeta in H. eapply List.Forall_impl; [|exact H].
  intros a [Ht Hd]. unfold duration_by_type. now rewrite Ht.
Qed.

Lemma daily_plan_duration {P} date wakeup sleep study_style deadlines
    (parsed_dates : P) plan :
  generate_daily_plan date wakeup sleep study_style deadlines parsed_dates = Ok plan ->
  Forall duration_by_type plan.
Proof.
  unfold generate_daily_plan. cbv zeta.
  destruct (generate_review_sessions date deadlines) as [reviews|] eqn:Hrev;
    [|discriminate].
  unfold rbind.
  match goal with
  | |- Ok (sort_by_time ?l) = _ -> _ =>
      generalize (sort_by_time_perm l); generalize (sort_by_time l)
  end.
  intros sorted Hperm [= <-].
  eapply Permutation_Forall; [symmetry; exact Hperm|].
  repeat (apply Forall_app; split).
  - repeat constructor. unfold duration_by_type. simpl. eauto.
  - repeat constructor. unfold duration_by_type. simpl. eauto.
  - apply study_sessions_duration.
  - repeat constructor; unfold duration_by_type; simpl; eauto.
  - apply deadlines_for_date_duration.
  - eapply review_sessions_duration, Hrev.
  - destruct (_ <? 5); repeat constructor. unfold duration_by_type. simpl. eauto.
  - repeat constructor. unfold duration_by_type. simpl. eauto.
Qed.

(** Whatever holds of every daily plan holds of every day of the loop. *)
Lemma schedule_days_invariant {P} (Q : list Activity -> Prop) start_date wakeup sleep
    study_style deadlines (parsed_dates : P) days schedule schedule' :
  (forall date plan,
     generate_daily_plan date wakeup sleep study_style deadlines parsed_dates = Ok plan ->
     Q plan) ->
  (forall k plan, schedule !! k = Some plan -> Q plan) ->
  schedule_days start_date wakeup sleep study_style deadlines parsed_dates days schedule
  = Ok schedule' ->
  forall k plan, schedule' !! k = Some plan -> Q plan.
Proof.
  intros Hplan. revert schedule.
  induction days as [|i days IH]; simpl; intros schedule Hinv H.
  - injection H as <-. exact Hinv.
  - destruct (add_days start_date i) as [current_day|]; [|discriminate].
    simpl in H. destruct (lt current_day start_date); [eapply IH; eassumption|].
    destruct (generate_daily_plan _ _ _ _ _ _) as [daily_plan|] eqn:Hday; [|discriminate].
    simpl in H. eapply IH; [|exact H].
    intros k plan Hk. destruct (decide (strftime_ymd current_day = k)) as [E|E].
    + subst k. rewrite lookup_insert_eq in Hk. injection Hk as <-. eapply Hplan, Hday.
    + rewrite lookup_insert_ne in Hk by exact E. eapply Hinv, Hk.
Qed.

(** C3, as the code has it.  In every day of a schedule, an activity of type
    [deadline] has no duration field, and every other activity has a
    duration that is an integer number of minutes. *)
Theorem duration_except_on_deadlines {P : Type} (today : datetime) (parsed_dates : P)
    (user_data : gmap string pyval) (schedule : gmap string (list Activity))
    (date : string) (plan : list Activity) (a : Activity) :
  create_schedule today parsed_dates user_data = Ok schedule ->
  schedule !! date = Some plan ->
  In a plan ->
  duration_by_type a.
Proof.
  unfold create_schedule. generalize (range 120). intros days H Hdate Ha.
  destruct (py_int (default (PyInt 8) (user_data !! "wakeup"))) as [wakeup|]; [|discriminate].
  destruct (py_int (default (PyInt 23) (user_data !! "sleep"))) as [sleep|]; [|discriminate].
  destruct (as_deadlines _) as [deadlines|]; [|discriminate].
  unfold rbind in H.
  assert (HF : Forall duration_by_type plan).
  { refine (schedule_days_invariant (Forall duration_by_type)
              _ _ _ _ _ _ _ _ _ _ _ H _ _ Hdate).
    - intros d p. apply daily_plan_duration.
    - intros k p Hk. rewrite lookup_empty in Hk. discriminate. }
  rewrite List.Forall_forall in HF. now apply HF.
Qed.

Lemma not_raised_eq {A : Type} (r : result A) (d : A) :
  raised r = None -> r = Ok (match r with Ok a => a | Raise _ => d end).
Proof. destruct r; [reflexivity | discriminate]. Defined.

Lemma is_some_eq {A : Type} (o : option A) (d : A) :
  is_some o = true -> o = Some (default d o).
Proof. destruct o; [reflexivity | discriminate]. Defined.

Lemma schedule_with_quiz_eq :
  create_schedule Examples.today0 tt Examples.with_quiz_today
  = Ok Examples.schedule_with_quiz.
Proof. apply (not_raised_eq _ ∅). vm_compute. reflexivity. Defined.

Lemma plan_with_quiz_eq :
  Examples.schedule_with_quiz !! "2024-03-12" = Some Examples.plan_with_quiz.
Proof. apply is_some_eq. vm_compute. reflexivity. Defined.

Lemma plan_with_quiz_in :
  In (deadline_activity Examples.quiz_today) Examples.plan_with_quiz.
Proof. vm_compute. do 9 right. left. reflexivity. Defined.

Lemma duration_except_on_deadlines_witness :
  create_schedule Examples.today0 tt Examples.with_quiz_today = Ok Examples.schedule_with_quiz
  /\ duration_by_type (deadline_activity Examples.quiz_today).
Proof.
  split; [exact schedule_with_quiz_eq|].
  exact (duration_except_on_deadlines Examples.today0 tt Examples.with_quiz_today
           Examples.schedule_with_quiz "2024-03-12" Examples.plan_with_quiz
           (deadline_activity Examples.quiz_today)
           schedule_with_quiz_eq plan_with_quiz_eq plan_with_quiz_in).
Defined.

(** C3, as stated, fails: the activity of a deadline that falls on a day of
    the schedule has no duration field. *)
Lemma deadline_activity_has_no_duration :
  exists schedule plan a,
    create_schedule Examples.today0 tt Examples.with_quiz_today = Ok schedule
    /\ schedule !! "2024-03-12" = Some plan
    /\ In a plan
    /\ type a = deadline
    /\ duration a = None.
Proof.
  exists Examples.schedule_with_quiz, Examples.plan_with_quiz,
         (deadline_activity Examples.quiz_today).
  split; [exact schedule_with_quiz_eq|].
  split; [exact plan_with_quiz_eq|].
  split; [exact plan_with_quiz_in|].
  split; reflexivity.
Qed.

Lemma create_schedule_without_deadlines_witness :
  exists schedule,
    create_schedule Examples.today0 tt Examples.no_preferences = Ok schedule
    /\ size schedule = 120%nat
    /\ (forall date, is_Some (schedule !! date)
                     <-> exists i, 0 <= i < 120
                                   /\ date = strftime_ymd (day_after Examples.today0 i))
    /\ (forall i, 0 <= i < 120 ->
          exists plan,
            schedule !! strftime_ymd (day_after Examples.today0 i) = Some plan
            /\ fixed_activities 8 23 (weekday (day_after Examples.today0 i)) plan).
Proof.
  apply (create_schedule_without_deadlines Examples.today0 tt Examples.no_preferences 8 23).
  - unfold valid, MAXORDINAL, US_PER_DAY. simpl. lia.
  - unfold MAXORDINAL. simpl. lia.
  - reflexivity.
  - reflexivity.
  - reflexivity.
Defined.

(** C10. The study sessions do not depend on the sleep hour. *)
Theorem study_sessions_ignore_sleep (wakeup sleep1 sleep2 : Z) (study_style : pyval)
    (day_of_week : Z) :
  generate_study_sessions wakeup sleep1 study_style day_of_week
  = generate_study_sessions wakeup sleep2 study_style day_of_week.
Proof. reflexivity. Qed.

(** What changes with the sleep hour is the free-time activity. *)
Lemma daily_plan_sleep {P} date wakeup study_style deadlines (parsed_dates : P) :
  exists common,
    forall sleep plan,
      generate_daily_plan date wakeup sleep study_style deadlines parsed_dates = Ok plan ->
      Permutation plan
        (common ++ [ mk_activity (hh00 (sleep - 2)) "🎉 Free Time & Relaxation" free
                       (Some 120) None None None ]).
Proof.
  unfold generate_daily_plan. cbv zeta.
  destruct (generate_review_sessions date deadlines) as [reviews|];
    [|exists []; discriminate].
  unfold rbind. eexists. intros sleep plan.
  match goal with
  | |- Ok (sort_by_time ?l) = _ -> _ =>
      generalize (sort_by_time_perm l); generalize (sort_by_time l)
  end.
  intros sorted Hperm [= <-]. rewrite Hperm.
  rewrite (study_sessions_ignore_sleep wakeup sleep 0).
  rewrite !List.app_assoc. reflexivity.
Qed.

(** *** Review sessions *)

Lemma review_sessions_single date dl deadline_date :
  Strptime.strptime (default "" (d_date dl)) "%Y-%m-%d" = Ok deadline_date ->
  generate_review_sessions date [dl]
  = let days_until := sub_days deadline_date date in
    match intensity_of days_until with
    | Some intensity =>
        Ok (if major dl then [review_activity days_until intensity dl] else [])
    | None => Ok []
    end.
Proof.
  intros H. simpl. rewrite H. simpl. unfold in_1_3_7, intensity_of.
  destruct (_ =? 1); [simpl; now destruct (major dl)|].
  destruct (_ =? 3); [simpl; now destruct (major dl)|].
  destruct (_ =? 7); [simpl; now destruct (major dl)|].
  reflexivity.
Qed.

(** The days between a date at midnight and a moment of some day: whole
    days when that moment is midnight too, one less otherwise. *)
Lemma sub_days_of_midnight (deadline_date date : datetime) :
  time_us deadline_date = 0 -> 0 <= time_us date < US_PER_DAY ->
  sub_days deadline_date date
  = ordinal deadline_date - ordinal date - (if time_us date =? 0 then 0 else 1).
Proof.
  unfold sub_days, US_PER_DAY. intros -> Ht.
  destruct (Z.eqb_spec (time_us date) 0) as [E|E].
  - rewrite E. Z.div_mod_to_equations; lia.
  - Z.div_mod_to_equations; lia.
Qed.

(** C4 at [today0], 10:00 on 12 March 2024, for a project dated 15 March,
    three days ahead: [days_until] is 2 and today gets no review; the
    "Focused" review would fall on the day before today and the "Intensive"
    one falls two days before the deadline.  Only at midnight does today get
    the "Focused" review of 45 minutes and high priority. *)
Theorem review_days_shift_with_the_clock :
  strftime_ymd Examples.today0 = "2024-03-12"
  /\ d_date Examples.project_in_3_days = Some "2024-03-15"
  /\ generate_review_sessions Examples.today0 [Examples.project_in_3_days] = Ok []
  /\ generate_review_sessions (day_after Examples.today0 (-1)) [Examples.project_in_3_days]
     = Ok [review_activity 3 "Focused" Examples.project_in_3_days]
  /\ generate_review_sessions (day_after Examples.today0 1) [Examples.project_in_3_days]
     = Ok [review_activity 1 "Intensive" Examples.project_in_3_days]
  /\ generate_review_sessions (day_after Examples.today0 2) [Examples.project_in_3_days]
     = Ok []
  /\ generate_review_sessions Examples.midnight0 [Examples.project_in_3_days]
     = Ok [review_activity 3 "Focused" Examples.project_in_3_days]
  /\ duration (review_activity 3 "Focused" Examples.project_in_3_days) = Some 45
  /\ priority (review_activity 3 "Focused" Examples.project_in_3_days) = Some "high"
  /\ raised (create_schedule Examples.today0 tt Examples.with_project) = None
  /\ option_map (count_type review) (Examples.schedule_with_project !! "2024-03-12")
     = Some 0%nat
  /\ option_map (List.filter (fun a => type_eqb (type a) review))
       (Examples.schedule_with_project !! "2024-03-13")
     = Some [review_activity 1 "Intensive" Examples.project_in_3_days].
Proof. repeat split; vm_compute; reflexivity. Qed.

(** *** Preferences *)

Lemma schedule_days_raised_style {P} start_date wakeup sleep style1 style2 deadlines
    (parsed_dates : P) days schedule1 schedule2 :
  raised (schedule_days start_date wakeup sleep style1 deadlines parsed_dates days schedule1)
  = raised (schedule_days start_date wakeup sleep style2 deadlines parsed_dates days schedule2).
Proof.
  revert schedule1 schedule2.
  induction days as [|i days IH]; intros schedule1 schedule2; simpl; [reflexivity|].
  destruct (add_days start_date i) as [current_day|]; [|reflexivity].
  simpl. destruct (lt current_day start_date); [apply IH|].
  unfold generate_daily_plan. cbv zeta.
  destruct (generate_review_sessions current_day deadlines); [|reflexivity].
  unfold rbind. apply IH.
Qed.

Lemma blocks_by_style wakeup sleep study_style day_of_week :
  blocks (generate_study_sessions wakeup sleep study_style day_of_week)
  = some_minutes
      (if py_eq_str study_style "pomodoro" then pomodoro_template wakeup day_of_week
       else if py_eq_str study_style "focused" then focused_template wakeup
       else flexible_template wakeup).
Proof.
  unfold generate_study_sessions.
  destruct (py_eq_str study_style "pomodoro");
    [unfold pomodoro_template; destruct (day_of_week <? 5)
    |destruct (py_eq_str study_style "focused")]; reflexivity.
Qed.

(** C2, as the code has it.  A missing [study_style] is read as "pomodoro",
    a missing [wakeup] as 8 and a missing [sleep] as 23.  The value
    "pomodoro" takes the first branch of the generator: two blocks of 120
    minutes, and one of 60 minutes from Monday to Friday; only a value
    other than "pomodoro" and "focused" takes the else-branch with its four
    sessions.  No value of [study_style] makes the call raise; a [wakeup]
    or [sleep] that [int] rejects does. *)
Theorem preferences_default {P : Type} (today : datetime) (parsed_dates : P)
    (user_data : gmap string pyval) :
  create_schedule today parsed_dates (delete "study_style" user_data)
  = create_schedule today parsed_dates (<["study_style" := PyStr "pomodoro"]> user_data)
  /\ create_schedule today parsed_dates (delete "wakeup" user_data)
     = create_schedule today parsed_dates (<["wakeup" := PyInt 8]> user_data)
  /\ create_schedule today parsed_dates (delete "sleep" user_data)
     = create_schedule today parsed_dates (<["sleep" := PyInt 23]> user_data)
  /\ (forall wakeup sleep study_style day_of_week,
        blocks (generate_study_sessions wakeup sleep study_style day_of_week)
        = some_minutes
            (if py_eq_str study_style "pomodoro" then pomodoro_template wakeup day_of_week
             else if py_eq_str study_style "focused" then focused_template wakeup
             else flexible_template wakeup))
  /\ (forall v,
        raised (create_schedule today parsed_dates (<["study_style" := v]> user_data))
        = raised (create_schedule today parsed_dates (delete "study_style" user_data)))
  /\ (forall v,
        match py_int v with
        | Raise e =>
            create_schedule today parsed_dates (<["wakeup" := v]> user_data) = Raise e
        | Ok _ => True
        end)
  /\ (forall v,
        match py_int v with
        | Raise _ =>
            raised (create_schedule today parsed_dates (<["sleep" := v]> user_data)) <> None
        | Ok _ => True
        end).
Proof.
  unfold create_schedule. generalize (range 120). intros days.
  repeat split.
  - now rewrite lookup_delete_eq, lookup_insert_eq, !lookup_delete_ne, !lookup_insert_ne.
  - now rewrite lookup_delete_eq, lookup_insert_eq, !lookup_delete_ne, !lookup_insert_ne.
  - now rewrite lookup_delete_eq, lookup_insert_eq, !lookup_delete_ne, !lookup_insert_ne.
  - intros. apply blocks_by_style.
  - intros v.
    rewrite lookup_delete_eq, lookup_insert_eq, !lookup_delete_ne, !lookup_insert_ne by done.
    destruct (py_int (default (PyInt 8) (user_data !! "wakeup"))); [|reflexivity].
    destruct (py_int (default (PyInt 23) (user_data !! "sleep"))); [|reflexivity].
    destruct (as_deadlines _); [|reflexivity].
    unfold rbind. apply schedule_days_raised_style.
  - intros v. rewrite lookup_insert_eq. simpl. now destruct (py_int v).
  - intros v. rewrite lookup_insert_eq, lookup_insert_ne by done. simpl.
    destruct (py_int v); [exact I|].
    now destruct (py_int (default (PyInt 8) (user_data !! "wakeup"))).
Qed.

(** C2, as stated, fails: the default "pomodoro" gets the three blocks of
    the pomodoro branch on a weekday, not the four sessions of the
    else-branch, and a wake-up hour that is not a number is rejected. *)
Lemma default_style_is_not_flexible :
  let study_style := default (PyStr "pomodoro") (Examples.no_preferences !! "study_style") in
  blocks (generate_study_sessions 8 23 study_style 1)
  = some_minutes [("10:00", 120); ("14:00", 120); ("19:00", 60)]
  /\ blocks (generate_study_sessions 8 23 study_style 1) <> some_minutes (flexible_template 8)
  /\ create_schedule Examples.today0 tt Examples.wakeup_early = Raise ValueError.
Proof.
  split; [reflexivity|]. split; [discriminate|]. vm_compute. reflexivity.
Qed.

End SchedulerFacts.

(** ** The parser *)

Module ParserFacts.
Import Datetime Calendar ListFacts CalendarFacts Parser ParserSpec.

(** *** Substrings *)

Lemma append_assoc (a b c : string) : (a +:+ b) +:+ c = a +:+ (b +:+ c).
Proof.
  induction a as [|x a IH]; [reflexivity|].
  rewrite !append_cons. now rewrite IH.
Qed.

Lemma startswith_spec p s : Py.startswith p s = true <-> exists t, s = p +:+ t.
Proof.
  revert s. induction p as [|a p IH]; intros s; simpl.
  - split; [intros _; now exists s | reflexivity].
  - destruct s as [|b s].
    + split; [discriminate | intros [t H]; discriminate H].
    + rewrite andb_true_iff, IH. split.
      * intros [E [t ->]]. apply Ascii.eqb_eq in E as ->. now exists t.
      * intros [t H]. rewrite append_cons in H. injection H as -> ->.
        split; [apply Ascii.eqb_refl | now exists t].
Qed.

Lemma contains_spec p s : Py.contains p s = true <-> exists a b, s = a +:+ p +:+ b.
Proof.
  induction s as [|c s IH].
  - simpl. rewrite orb_false_r, startswith_spec. split.
    + intros [t H]. now exists "", t.
    + intros (a & b & H). exists b. destruct a; [exact H | discriminate H].
  - simpl. rewrite orb_true_iff, startswith_spec, IH. split.
    + intros [[t H] | (a & b & H)]; [now exists "", t|].
      exists (String c a), b. now rewrite append_cons, H.
    + intros (a & b & H). destruct a as [|x a].
      * left. now exists b.
      * right. rewrite append_cons in H. injection H as -> ->. now exists a, b.
Qed.

Lemma smap_append f a b : Py.smap f (a +:+ b) = Py.smap f a +:+ Py.smap f b.
Proof.
  induction a as [|x a IH]; [reflexivity|].
  rewrite append_cons. simpl. now rewrite IH, append_cons.
Qed.

Lemma smap_split f s x y :
  Py.smap f s = x +:+ y -> exists a b, s = a +:+ b /\ Py.smap f a = x /\ Py.smap f b = y.
Proof.
  revert s. induction x as [|c x IH]; intros s H.
  - exists "", s. now rewrite append_nil_l in H.
  - destruct s as [|d s]; [discriminate H|].
    rewrite append_cons in H. simpl in H. injection H as Hc H.
    destruct (IH s H) as (a & b & -> & Ha & Hb).
    exists (String d a), b. rewrite append_cons. simpl. now rewrite Hc, Ha, Hb.
Qed.

(** The test of the code is the occurrence of the keyword up to case. *)
Lemma contains_lower word sentence :
  Py.contains word (Py.lower sentence) = true <-> occurs_ci word sentence.
Proof.
  rewrite contains_spec. unfold occurs_ci, Py.lower. split.
  - intros (x & y & H).
    apply smap_split in H as (a & t & -> & Ha & Ht).
    apply smap_split in Ht as (m & b & -> & Hm & Hb).
    now exists a, m, b.
  - intros (a & m & b & -> & Hm).
    exists (Py.smap Py.lower_char a), (Py.smap Py.lower_char b).
    now rewrite !smap_append, Hm.
Qed.

Lemma any_in_spec words sentence :
  any_in words (Py.lower sentence) = true
  <-> exists word, In word words /\ occurs_ci word sentence.
Proof.
  unfold any_in. rewrite List.existsb_exists.
  split; intros (w & Hin & H); exists w; (split; [exact Hin|]); now apply contains_lower.
Qed.

Lemma any_in_none words sentence :
  any_in words (Py.lower sentence) = false ->
  forall word, In word words -> ~ occurs_ci word sentence.
Proof.
  intros H word Hin Hocc.
  assert (any_in words (Py.lower sentence) = true) by (apply any_in_spec; eauto).
  congruence.
Qed.

(** C6. [determine_deadline_type] returns the category of the first of the
    keyword groups, in the order exam, assignment, project, quiz,
    presentation, that has a keyword occurring in the sentence whatever the
    case of its letters, and "assignment" when none has; the sentence
    "Midterm exam and final project due" holds an exam keyword and a project
    keyword and is an exam. *)
Theorem determine_deadline_type_priority :
  (forall sentence,
     classified sentence priority_groups (determine_deadline_type sentence))
  /\ occurs_ci "exam" "Midterm exam and final project due"
  /\ occurs_ci "project" "Midterm exam and final project due"
  /\ determine_deadline_type "Midterm exam and final project due" = "exam".
Proof.
  split; [|split; [|split]].
  - intros sentence. unfold determine_deadline_type, priority_groups. cbv zeta.
    destruct (any_in ["exam"; "test"; "final"; "midterm"] _) eqn:E1;
      [apply classified_here; now apply any_in_spec|].
    apply classified_later; [now apply any_in_none|].
    destruct (any_in ["assignment"; "homework"; "hw"] _) eqn:E2;
      [apply classified_here; now apply any_in_spec|].
    apply classified_later; [now apply any_in_none|].
    destruct (any_in ["project"; "paper"] _) eqn:E3;
      [apply classified_here; now apply any_in_spec|].
    apply classified_later; [now apply any_in_none|].
    destruct (Py.contains "quiz" _) eqn:E4.
    { apply classified_here. exists "quiz". split; [now left | now apply contains_lower]. }
    apply classified_later.
    { intros word [<- | []] H. apply contains_lower in H. congruence. }
    destruct (any_in ["presentation"; "present"] _) eqn:E5;
      [apply classified_here; now apply any_in_spec|].
    apply classified_later; [now apply any_in_none|].
    apply classified_default.
  - now exists "Midterm ", "exam", " and final project due".
  - now exists "Midterm exam and final ", "project", " due".
  - reflexivity.
Qed.

(** C1 at its own example.  The first pattern, [^.*?due:?\s*], removes the
    sentence up to and including its first "due": the title of
    "Assignment: Essay on climate change due Friday" is "Friday". *)
Theorem title_of_the_essay_sentence :
  Re.sub (prefix_pattern "due") "" "Assignment: Essay on climate change due Friday"
  = "Friday"
  /\ extract_deadline_title "Assignment: Essay on climate change due Friday" = "Friday"
  /\ extract_deadline_title "Assignment: Essay on climate change due Friday"
     <> "Essay on climate change due Friday".
Proof. split; [|split]; [vm_compute; reflexivity..|discriminate]. Qed.

(** *** [validate_and_format_date] *)

Lemma make_date_valid y m d :
  match make_date y m d with
  | Ok _ => valid_ymd y m d
  | Raise e => e = ValueError /\ ~ valid_ymd y m d
  end.
Proof.
  unfold make_date, valid_ymd. destruct (_ && _) eqn:E.
  - repeat (apply andb_prop in E as [E ?]).
    repeat match goal with H : (_ <=? _) = true |- _ => apply Z.leb_le in H end. lia.
  - split; [reflexivity|]. intros (Hy & Hm & Hd).
    repeat (apply andb_false_iff in E as [E|E]); apply Z.leb_gt in E; lia.
Qed.

Lemma int_of_str_raises s e : Py.int_of_str s = Raise e -> e = ValueError.
Proof.
  unfold Py.int_of_str. cbv zeta.
  match goal with |- match ?r with _ => _ end = _ -> _ => destruct r end; congruence.
Qed.

Lemma group_int_raises name cs dflt e :
  Strptime.group_int name cs dflt = Raise e -> e = ValueError.
Proof.
  unfold Strptime.group_int. destruct (Strptime.lookup name cs);
    [apply int_of_str_raises | discriminate].
Qed.

Lemma group_month_raises cs e : Strptime.group_month cs = Raise e -> e = ValueError.
Proof.
  unfold Strptime.group_month.
  destruct (Strptime.lookup "B" cs) as [v|].
  { destruct (Strptime.index_from 1 Strptime.f_month (Py.lower v)); congruence. }
  destruct (Strptime.lookup "b" cs) as [v|].
  { destruct (Strptime.index_from 1 Strptime.a_month (Py.lower v)); congruence. }
  destruct (Strptime.lookup "m" cs) as [v|]; [apply int_of_str_raises | discriminate].
Qed.

Lemma fields_raises cs e : Strptime.fields cs = Raise e -> e = ValueError.
Proof.
  unfold Strptime.fields.
  destruct (Strptime.group_int "Y" cs 1900) eqn:EY; simpl;
    [|intros [= <-]; eapply group_int_raises, EY].
  destruct (Strptime.group_month cs) eqn:EM; simpl;
    [|intros [= <-]; eapply group_month_raises, EM].
  destruct (Strptime.group_int "d" cs 1) eqn:ED; simpl;
    [discriminate | intros [= <-]; eapply group_int_raises, ED].
Qed.

Lemma parse_raises text fmt e : Strptime.parse text fmt = Raise e -> e = ValueError.
Proof.
  unfold Strptime.parse. destruct (Strptime.pattern fmt); [|congruence].
  destruct (Re.match_at _ _) as [st|]; [|congruence].
  destruct (Re.rest st); congruence.
Qed.

(** The two ways [strptime] ends: a date of the calendar, or [ValueError]
    because the text does not match or its fields are no date. *)
Lemma strptime_cases text fmt :
  (exists cs y m d dt,
     Strptime.parse text fmt = Ok cs /\ Strptime.fields cs = Ok (y, m, d)
     /\ valid_ymd y m d /\ make_date y m d = Ok dt /\ Strptime.strptime text fmt = Ok dt)
  \/ (Strptime.strptime text fmt = Raise ValueError
      /\ ((exists e, Strptime.parse text fmt = Raise e)
          \/ exists cs, Strptime.parse text fmt = Ok cs
                        /\ match Strptime.fields cs with
                           | Ok (y, m, d) => ~ valid_ymd y m d
                           | Raise _ => True
                           end)).
Proof.
  unfold Strptime.strptime.
  destruct (Strptime.parse text fmt) as [cs|e] eqn:Hp; simpl.
  - destruct (Strptime.fields cs) as [[[y m] d]|e] eqn:Hf; simpl.
    + pose proof (make_date_valid y m d) as Hv.
      destruct (make_date y m d) as [dt|e] eqn:Hd.
      * left. exists cs, y, m, d, dt. auto.
      * destruct Hv as [-> Hv]. right. split; [reflexivity|]. right. exists cs.
        now rewrite Hf.
    + pose proof (fields_raises _ _ Hf) as ->. right. split; [reflexivity|]. right.
      exists cs. split; [reflexivity|]. now rewrite Hf.
  - pose proof (parse_raises _ _ _ Hp) as ->. right. split; [reflexivity|]. left. eauto.
Qed.







(** What [validate_and_format_date] does on some texts. *)
Example validate_examples :
  validate_and_format_date Examples.now0 "03/15/2024" = Ok (Some "2024-03-15")
  /\ validate_and_format_date Examples.now0 "April 3, 2025" = Ok (Some "2025-04-03")
  /\ validate_and_format_date Examples.now0 "04/31/2024" = Ok None
  /\ impossible_date Examples.now0 "04/31/2024" "%m/%d/%Y"
  /\ validate_and_format_date Examples.now0 "someday" = Ok None
  /\ validate_and_format_date Examples.now0 "Mar 15" = Ok (Some "2024-03-15").
Proof.
  split; [vm_compute; reflexivity|]. split; [vm_compute; reflexivity|].
  split; [vm_compute; reflexivity|]. split; [|split; vm_compute; reflexivity].
  exists [("Y", "2024"); ("d", "31"); ("m", "04")]. split; [vm_compute; reflexivity|].
  vm_compute. intros (_ & _ & _ & H). apply H. reflexivity.
Qed.

(** *** [extract_dates] *)

Lemma distinct_in x l : In x (distinct l) <-> In x l.
Proof.
  induction l as [|y l IH]; simpl; [reflexivity|].
  rewrite List.filter_In, IH. split.
  - intros [-> | [H _]]; auto.
  - intros [-> | H]; [now left|].
    destruct (String.eqb_spec y x) as [-> | Hne]; [now left|].
    right. split; [exact H|]. now destruct (String.eqb_spec y x).
Qed.

Lemma distinct_NoDup l : List.NoDup (distinct l).
Proof.
  induction l as [|y l IH]; simpl; constructor.
  - rewrite List.filter_In. intros [_ H]. now rewrite String.eqb_refl in H.
  - now apply List.NoDup_filter.
Qed.


Lemma list_of_set_perm dates l : list_of_set dates l -> Permutation l (distinct dates).
Proof.
  intros [Hnd Hin]. apply Permutation.NoDup_Permutation; [exact Hnd | apply distinct_NoDup|].
  intros x. now rewrite Hin, distinct_in.
Qed.


Lemma count_validated now c dates :
  count_occ string_dec (validated_dates now dates) c
  = length (List.filter (validates_to now c) dates).
Proof.
  induction dates as [|d dates IH]; simpl; [reflexivity|].
  unfold validates_to at 1.
  destruct (validate_and_format_date now d) as [[v|]|]; simpl; try exact IH.
  destruct (string_dec v c) as [-> | Hne].
  - rewrite String.eqb_refl. simpl. now rewrite IH.
  - destruct (String.eqb_spec v c); [contradiction | exact IH].
Qed.

(** Each canonical date is returned once for every distinct matched text
    that validates to it. *)
Lemma extract_dates_count now text out c :
  extract_dates now text out ->
  count_occ string_dec out c
  = length (List.filter (validates_to now c) (distinct (raw_dates text))).
Proof.
  intros (dates & Hset & ->). rewrite count_validated.
  apply filter_length_perm, list_of_set_perm, Hset.
Qed.

(** C7, as the code has it.  [extract_dates] removes the duplicates among
    the matched texts, before it validates them: a canonical date is
    returned once for each distinct matched text that validates to it, so
    not more often than there are such texts; when no two distinct matched
    texts validate to the same date, no date is returned twice. *)
Theorem extract_dates_once_per_matched_text (now : datetime) (text : string)
    (out : list string) :
  extract_dates now text out ->
  (forall c,
     count_occ string_dec out c
     = length (List.filter (validates_to now c) (distinct (raw_dates text))))
  /\ ((forall d1 d2 c, In d1 (raw_dates text) -> In d2 (raw_dates text) ->
         validate_and_format_date now d1 = Ok (Some c) ->
         validate_and_format_date now d2 = Ok (Some c) -> d1 = d2) ->
      List.NoDup out).
Proof.
  intros H. split; [intros c; now apply extract_dates_count|].
  intros Hinj. apply (List.NoDup_count_occ string_dec). intros c.
  rewrite (extract_dates_count now text out c H).
  apply filter_at_most_one; [apply distinct_NoDup|].
  intros d1 d2 H1 H2 V1 V2. rewrite distinct_in in H1, H2.
  unfold validates_to in V1, V2.
  destruct (validate_and_format_date now d1) as [[v|]|] eqn:E1; try discriminate.
  destruct (validate_and_format_date now d2) as [[w|]|] eqn:E2; try discriminate.
  apply String.eqb_eq in V1, V2. subst v w. eapply Hinj; eassumption.
Qed.

Lemma extract_dates_once_per_matched_text_witness :
  extract_dates Examples.now0 "03/15/2024 03/15/2024" ["2024-03-15"]
  /\ count_occ string_dec ["2024-03-15"] "2024-03-15" = 1%nat.
Proof.
  assert (H : extract_dates Examples.now0 "03/15/2024 03/15/2024" ["2024-03-15"]).
  { exists ["03/15/2024"; "2024 03"]. split; [|vm_compute; reflexivity].
    split; [repeat constructor; simpl; intuition discriminate|].
    intros x. vm_compute. tauto. }
  split; [exact H|].
  destruct (extract_dates_once_per_matched_text Examples.now0 "03/15/2024 03/15/2024"
              ["2024-03-15"] H) as [Hcount _].
  rewrite (Hcount "2024-03-15"). vm_compute. reflexivity.
Defined.

(** C7, as stated, fails: "03/15/2024" and "3/15/2024" are two matched
    texts with one canonical date, which is returned twice, whatever the
    order of the set. *)
Lemma same_date_returned_twice :
  extract_dates Examples.now0 "03/15/2024 3/15/2024" ["2024-03-15"; "2024-03-15"]
  /\ forall out,
       extract_dates Examples.now0 "03/15/2024 3/15/2024" out ->
       count_occ string_dec out "2024-03-15" = 2%nat /\ ~ List.NoDup out.
Proof.
  split.
  - exists ["03/15/2024"; "3/15/2024"; "2024 3"]. split; [|vm_compute; reflexivity].
    split; [repeat constructor; simpl; intuition discriminate|].
    intros x. vm_compute. tauto.
  - intros out H.
    assert (Hc : count_occ string_dec out "2024-03-15" = 2%nat).
    { rewrite (extract_dates_count _ _ _ _ H). vm_compute. reflexivity. }
    split; [exact Hc|]. intros Hnd.
    rewrite (List.NoDup_count_occ string_dec) in Hnd.
    specialize (Hnd "2024-03-15"). lia.
Qed.

End ParserFacts.

(** ** Regular expressions: what a match consumes *)

Module ReFacts.
Import Re ReSpec CalendarFacts.

Lemma all_ascii_complete c : In c all_ascii.
Proof.
  unfold all_ascii. rewrite <- (ascii_nat_embedding c).
  apply in_map, in_seq. pose proof (nat_ascii_bounded c). lia.
Qed.

Lemma subclass_spec p q c : subclass p q = true -> p c = true -> q c = true.
Proof.
  unfold subclass. rewrite List.forallb_forall. intros H Hp.
  specialize (H c (all_ascii_complete c)). now rewrite Hp in H.
Qed.

Lemma disjoint_spec p q c : disjoint p q = true -> p c = true -> q c = false.
Proof.
  unfold disjoint. rewrite List.forallb_forall. intros H Hp.
  specialize (H c (all_ascii_complete c)). rewrite Hp in H.
  now destruct (q c).
Qed.

Lemma count_append q s t : count q (s +:+ t) = (count q s + count q t)%nat.
Proof.
  induction s as [|c s IH]; [reflexivity|].
  rewrite append_cons. simpl. rewrite IH. lia.
Qed.

Lemma append_nil_r (s : string) : s +:+ "" = s.
Proof. induction s as [|c s IH]; [reflexivity|]. now rewrite append_cons, IH. Qed.

Lemma append_assoc' (a b c : string) : (a +:+ b) +:+ c = a +:+ (b +:+ c).
Proof.
  induction a as [|x a IH]; [reflexivity|].
  rewrite !append_cons. now rewrite IH.
Qed.

Lemma every_count p q w :
  every p w = true -> disjoint p q = true -> count q w = 0%nat.
Proof.
  intros Hw Hd. induction w as [|c w IH]; [reflexivity|].
  simpl in *. apply andb_prop in Hw as [Hc Hw].
  now rewrite (disjoint_spec p q c Hd Hc), IH.
Qed.

Lemma star_matches_sound greedy p pv s cs st' :
  In st' (star_matches greedy p pv s cs) ->
  exists w, s = w +:+ rest st' /\ every p w = true /\ caps st' = cs.
Proof.
  revert pv. induction s as [|c s IH]; intros pv; simpl.
  - intros [<- | []]. exists "". auto.
  - assert (Hhere : mk_mstate pv (String c s) cs = st' ->
                    exists w, String c s = w +:+ rest st' /\ every p w = true
                              /\ caps st' = cs)
      by (intros <-; exists ""; auto).
    assert (Hnext : p c = true -> In st' (star_matches greedy p (Some c) s cs) ->
                    exists w, String c s = w +:+ rest st' /\ every p w = true
                              /\ caps st' = cs).
    { intros Hp Hin. destruct (IH _ Hin) as (w & -> & Hw & Hc).
      exists (String c w). split; [now rewrite append_cons|]. split; [|exact Hc].
      simpl. now rewrite Hp, Hw. }
    destruct (p c) eqn:Hp.
    + destruct greedy.
      * intros Hin. apply in_app_or in Hin as [Hin | [Hin | []]]; auto.
      * intros [Hin | Hin]; auto.
    + intros [Hin | []]. auto.
Qed.

(** The text between two positions, with the bounds that the expression
    gives on its characters of a class. *)
Lemma bounds_sound q r : forall st st' lo hi,
  bounds q r = Some (lo, hi) ->
  In st' (matches r st) ->
  exists w, rest st = w +:+ rest st' /\ (lo <= count q w <= hi)%nat.
Proof.
  induction r as [|p|r1 IH1 r2 IH2|r1 IH1 r2 IH2|greedy p| | |name r1 IH1];
    intros st st' lo hi Hb Hin; simpl in Hb, Hin.
  - injection Hb as <- <-. destruct Hin as [<- | []]. exists "". simpl. split; [reflexivity | lia].
  - destruct (rest st) as [|c s] eqn:Hr; [destruct Hin|].
    destruct (p c) eqn:Hp; [|destruct Hin]. destruct Hin as [<- | []].
    exists (String c ""). split; [reflexivity|]. simpl.
    destruct (subclass p q) eqn:Hs.
    + injection Hb as <- <-. rewrite (subclass_spec p q c Hs Hp). lia.
    + destruct (disjoint p q) eqn:Hd; injection Hb as <- <-.
      * rewrite (disjoint_spec p q c Hd Hp). lia.
      * destruct (q c); lia.
  - destruct (bounds q r1) as [[a b]|]; [|discriminate].
    destruct (bounds q r2) as [[c d]|]; [|discriminate].
    injection Hb as <- <-.
    apply in_flat_map in Hin as (st1 & H1 & H2).
    destruct (IH1 _ _ _ _ eq_refl H1) as (w1 & E1 & B1).
    destruct (IH2 _ _ _ _ eq_refl H2) as (w2 & E2 & B2).
    exists (w1 +:+ w2). rewrite E1, E2, append_assoc', count_append. split; [reflexivity | lia].
  - destruct (bounds q r1) as [[a b]|]; [|discriminate].
    destruct (bounds q r2) as [[c d]|]; [|discriminate].
    injection Hb as <- <-.
    apply in_app_or in Hin as [H1 | H2].
    + destruct (IH1 _ _ _ _ eq_refl H1) as (w & E & B). exists w. split; [exact E | lia].
    + destruct (IH2 _ _ _ _ eq_refl H2) as (w & E & B). exists w. split; [exact E | lia].
  - destruct (disjoint p q) eqn:Hd; [|discriminate]. injection Hb as <- <-.
    apply star_matches_sound in Hin as (w & E & Hw & _).
    exists w. split; [exact E|]. rewrite (every_count p q w Hw Hd). lia.
  - injection Hb as <- <-. destruct (prev st); [destruct Hin|].
    destruct Hin as [<- | []]. exists "". simpl. split; [reflexivity | lia].
  - injection Hb as <- <-. destruct (xorb _ _); [|destruct Hin].
    destruct Hin as [<- | []]. exists "". simpl. split; [reflexivity | lia].
  - apply in_map_iff in Hin as (st1 & <- & H1). simpl.
    exact (IH1 _ _ _ _ Hb H1).
Qed.

(** A text that [r] spans has its characters of class [q] within the
    bounds. *)
Lemma spans_bounds q r s lo hi :
  bounds q r = Some (lo, hi) -> spans r s -> (lo <= count q s <= hi)%nat.
Proof.
  intros Hb (st & Hin & Hrest).
  destruct (bounds_sound q r _ _ _ _ Hb Hin) as (w & E & B).
  simpl in E. rewrite Hrest, append_nil_r in E. now subst w.
Qed.

(** *** A character that no class accepts stops every match *)

Lemma take_append n s t :
  (n <= String.length s)%nat -> Py.take n (s +:+ t) = Py.take n s.
Proof.
  unfold Py.take. revert n. induction s as [|c s IH]; intros n Hn; simpl in Hn.
  - assert (n = 0%nat) as -> by lia. now destruct t.
  - destruct n as [|n]; [reflexivity|].
    rewrite append_cons. simpl. rewrite IH by lia. reflexivity.
Qed.

Lemma consumed_extend t pv s cs st' :
  consumed (mk_mstate pv (s +:+ t) cs) (extend t st') = consumed (mk_mstate pv s cs) st'.
Proof.
  unfold consumed, extend. simpl. rewrite !length_append.
  replace (String.length s + String.length t - (String.length (rest st') + String.length t))%nat
    with (String.length s - String.length (rest st'))%nat by lia.
  apply take_append. lia.
Qed.

Lemma flat_map_map {A B C} (f : B -> list C) (g : A -> B) (l : list A) :
  flat_map f (map g l) = flat_map (fun x => f (g x)) l.
Proof. induction l as [|a l IH]; simpl; [reflexivity | now rewrite IH]. Qed.

Lemma map_flat_map {A B C} (f : B -> C) (g : A -> list B) (l : list A) :
  map f (flat_map g l) = flat_map (fun x => map f (g x)) l.
Proof. induction l as [|a l IH]; simpl; [reflexivity | now rewrite List.map_app, IH]. Qed.

Lemma star_matches_barrier greedy p c0 x s : p c0 = false -> forall pv cs,
  star_matches greedy p pv (s +:+ String c0 x) cs
  = map (extend (String c0 x)) (star_matches greedy p pv s cs).
Proof.
  intros Hp. induction s as [|c s IH]; intros pv cs.
  - rewrite append_nil_l. simpl. now rewrite Hp.
  - rewrite append_cons. simpl. destruct (p c); [|reflexivity].
    rewrite IH. destruct greedy; [now rewrite List.map_app | reflexivity].
Qed.

Lemma extend_eta t pv s cs : extend t (mk_mstate pv s cs) = mk_mstate pv (s +:+ t) cs.
Proof. reflexivity. Qed.

Lemma barrier c0 x r :
  avoids c0 r = true -> Py.is_word c0 = false ->
  forall st, matches r (extend (String c0 x) st) = map (extend (String c0 x)) (matches r st).
Proof.
  intros Hav Hw.
  induction r as [|p|r1 IH1 r2 IH2|r1 IH1 r2 IH2|greedy p| | |name r1 IH1];
    intros [pv s cs]; simpl in Hav.
  - reflexivity.
  - apply negb_true_iff in Hav. rewrite extend_eta. simpl. destruct s as [|c s].
    + rewrite append_nil_l. now rewrite Hav.
    + rewrite append_cons. destruct (p c); reflexivity.
  - apply andb_prop in Hav as [H1 H2]. simpl.
    rewrite (IH1 H1), flat_map_map, map_flat_map.
    apply List.flat_map_ext. intros st. apply (IH2 H2).
  - apply andb_prop in Hav as [H1 H2]. simpl.
    now rewrite (IH1 H1), (IH2 H2), List.map_app.
  - apply negb_true_iff in Hav. rewrite extend_eta. simpl.
    now apply star_matches_barrier.
  - simpl. destruct pv; reflexivity.
  - rewrite extend_eta. simpl. destruct s as [|c s].
    + rewrite append_nil_l. simpl. rewrite Hw. now destruct (xorb _ _).
    + rewrite append_cons. simpl. now destruct (xorb _ _).
  - simpl. rewrite (IH1 Hav), !List.map_map. apply List.map_ext.
    intros st'. rewrite extend_eta. rewrite consumed_extend. reflexivity.
Qed.

(** *** What a match leaves and what it captures *)

Lemma matches_suffix r : forall st st',
  In st' (matches r st) -> exists w, rest st = w +:+ rest st'.
Proof.
  induction r as [|p|r1 IH1 r2 IH2|r1 IH1 r2 IH2|greedy p| | |name r1 IH1];
    intros st st' Hin; simpl in Hin.
  - destruct Hin as [<- | []]. now exists "".
  - destruct (rest st) as [|c s] eqn:Hr; [destruct Hin|].
    destruct (p c); [|destruct Hin]. destruct Hin as [<- | []]. now exists (String c "").
  - apply in_flat_map in Hin as (st1 & H1 & H2).
    destruct (IH1 _ _ H1) as (w1 & E1). destruct (IH2 _ _ H2) as (w2 & E2).
    exists (w1 +:+ w2). now rewrite E1, E2, append_assoc'.
  - apply in_app_or in Hin as [H | H]; eauto.
  - apply star_matches_sound in Hin as (w & E & _). eauto.
  - destruct (prev st); [destruct Hin|]. destruct Hin as [<- | []]. now exists "".
  - destruct (xorb _ _); [|destruct Hin]. destruct Hin as [<- | []]. now exists "".
  - apply in_map_iff in Hin as (st1 & <- & H1). simpl. eauto.
Qed.

Lemma take_length_append w s : Py.take (String.length w) (w +:+ s) = w.
Proof.
  unfold Py.take. induction w as [|c w IH]; [now destruct s|].
  change (String c (String.substring 0 (String.length w) (w +:+ s)) = String c w).
  now rewrite IH.
Qed.

Lemma consumed_split st st' w : rest st = w +:+ rest st' -> consumed st st' = w.
Proof.
  unfold consumed. intros ->. rewrite length_append.
  replace (String.length w + String.length (rest st') - String.length (rest st'))%nat
    with (String.length w) by lia.
  apply take_length_append.
Qed.

Lemma lang_sound_all r :
  match lang r with
  | Some l =>
      forall st st', In st' (matches r st) ->
      exists w, In w l /\ rest st = w +:+ rest st' /\ caps st' = caps st
  | None => True
  end.
Proof.
  induction r as [|p|r1 IH1 r2 IH2|r1 IH1 r2 IH2|greedy p| | |name r1 IH1];
    cbn [lang]; try exact I.
  - intros st st' [<- | []]. exists "". split; [now left | auto].
  - intros st st' Hin. cbn [matches] in Hin.
    destruct (rest st) as [|c s] eqn:Hr; [destruct Hin|].
    destruct (p c) eqn:Hp; [|destruct Hin]. destruct Hin as [<- | []].
    exists (String c ""). split; [|auto].
    apply (in_map (fun x => String x "") _ c), List.filter_In.
    split; [apply all_ascii_complete | exact Hp].
  - destruct (lang r1) as [l1|]; [|exact I].
    destruct (lang r2) as [l2|]; [|exact I].
    intros st st' Hin. cbn [matches] in Hin.
    apply in_flat_map in Hin as (st1 & H1 & H2).
    destruct (IH1 _ _ H1) as (w1 & I1 & E1 & C1).
    destruct (IH2 _ _ H2) as (w2 & I2 & E2 & C2).
    exists (w1 +:+ w2). split; [|split; [now rewrite E1, E2, append_assoc' | congruence]].
    apply in_flat_map. exists w1. split; [exact I1 | now apply in_map].
  - destruct (lang r1) as [l1|]; [|exact I].
    destruct (lang r2) as [l2|]; [|exact I].
    intros st st' Hin. cbn [matches] in Hin.
    apply in_app_or in Hin as [H | H].
    + destruct (IH1 _ _ H) as (w & Hw & E). exists w. split; [|exact E].
      apply in_or_app. now left.
    + destruct (IH2 _ _ H) as (w & Hw & E). exists w. split; [|exact E].
      apply in_or_app. now right.
Qed.

Lemma lang_sound r l st st' :
  lang r = Some l -> In st' (matches r st) ->
  exists w, In w l /\ rest st = w +:+ rest st' /\ caps st' = caps st.
Proof.
  intros Hl. pose proof (lang_sound_all r) as H. rewrite Hl in H. apply H.
Qed.

Lemma flat_map_assoc {A B C} (f : A -> list B) (g : B -> list C) (l : list A) :
  flat_map g (flat_map f l) = flat_map (fun x => flat_map g (f x)) l.
Proof.
  induction l as [|a l IH]; simpl; [reflexivity | now rewrite List.flat_map_app, IH].
Qed.

Lemma matches_graft r tail : forall st,
  matches (graft r tail) st = flat_map (matches tail) (matches r st).
Proof.
  induction r as [|p|r1 IH1 r2 IH2|r1 IH1 r2 IH2|greedy p| | |name r1 IH1];
    intros st; try reflexivity.
  - simpl. now rewrite List.app_nil_r.
  - simpl. rewrite flat_map_assoc. apply List.flat_map_ext. intros st1. apply IH2.
Qed.

(** *** One step of the matcher *)

Lemma matches_seq r1 r2 st :
  matches (Seq r1 r2) st = flat_map (matches r2) (matches r1 st).
Proof. reflexivity. Qed.

Lemma matches_chr p pv c s cs :
  matches (Chr p) (mk_mstate pv (String c s) cs)
  = if p c then [mk_mstate (Some c) s cs] else [].
Proof. reflexivity. Qed.

Lemma matches_chr_end p pv cs : matches (Chr p) (mk_mstate pv "" cs) = [].
Proof. reflexivity. Qed.

Lemma matches_star greedy p pv s cs :
  matches (Star greedy p) (mk_mstate pv s cs) = star_matches greedy p pv s cs.
Proof. reflexivity. Qed.

Lemma star_matches_stop greedy p pv c s cs :
  p c = false ->
  star_matches greedy p pv (String c s) cs = [mk_mstate pv (String c s) cs].
Proof. intros H. simpl. now rewrite H. Qed.

Lemma matches_group name r st :
  matches (Group name r) st
  = map (fun st' => mk_mstate (prev st') (rest st') ((name, consumed st st') :: caps st'))
      (matches r st).
Proof. reflexivity. Qed.

Lemma matches_eps st : matches Eps st = [st].
Proof. reflexivity. Qed.

Lemma flat_map_one {A B} (f : A -> list B) (x : A) : flat_map f [x] = f x.
Proof. simpl. apply List.app_nil_r. Qed.

(** Runs the matcher as far as the text is known. *)
Ltac re_step :=
  progress (rewrite ?matches_seq, ?matches_chr, ?matches_chr_end, ?matches_star,
              ?matches_group, ?matches_eps, ?flat_map_one; cbv iota).

Lemma apart_spans q r r' s :
  apart (bounds q r) (bounds q r') = true -> spans r s -> spans r' s -> False.
Proof.
  unfold apart. intros H Hs Hs'.
  destruct (bounds q r) as [[lo hi]|] eqn:E; [|discriminate].
  destruct (bounds q r') as [[lo' hi']|] eqn:E'; [|discriminate].
  pose proof (spans_bounds q r s lo hi E Hs).
  pose proof (spans_bounds q r' s lo' hi' E' Hs').
  apply orb_prop in H as [H | H]; apply Nat.ltb_lt in H; lia.
Qed.

(** *** Groups *)

Lemma caps_preserved r : no_group r = true -> forall st st',
  In st' (matches r st) -> caps st' = caps st.
Proof.
  induction r as [|p|r1 IH1 r2 IH2|r1 IH1 r2 IH2|greedy p| | |name r1 IH1];
    intros Hn st st' Hin; cbn [no_group] in Hn; cbn [matches] in Hin.
  - now destruct Hin as [<- | []].
  - destruct (rest st) as [|c s]; [destruct Hin|].
    destruct (p c); [|destruct Hin]. now destruct Hin as [<- | []].
  - apply andb_prop in Hn as [H1 H2]. apply in_flat_map in Hin as (st1 & I1 & I2).
    rewrite (IH2 H2 _ _ I2). now apply IH1.
  - apply andb_prop in Hn as [H1 H2]. apply in_app_or in Hin as [I | I]; auto.
  - now apply star_matches_sound in Hin as (w & _ & _ & ->).
  - destruct (prev st); [destruct Hin|]. now destruct Hin as [<- | []].
  - destruct (xorb _ _); [|destruct Hin]. now destruct Hin as [<- | []].
  - discriminate.
Qed.

Lemma all_of_spec r ok st st' :
  all_of r ok = true -> In st' (matches r st) ->
  exists w, ok w = true /\ rest st = w +:+ rest st' /\ caps st' = caps st.
Proof.
  unfold all_of. destruct (lang r) as [l|] eqn:E; [|discriminate].
  intros H Hin. destruct (lang_sound r l st st' E Hin) as (w & Hw & Hr & Hc).
  rewrite List.forallb_forall in H. exists w. auto.
Qed.

Lemma all_pairs_spec r r' ok st1 st1' st2 st2' :
  all_pairs r r' ok = true -> In st1' (matches r st1) -> In st2' (matches r' st2) ->
  exists w w', ok w w' = true /\ rest st1 = w +:+ rest st1' /\ rest st2 = w' +:+ rest st2'.
Proof.
  unfold all_pairs. destruct (lang r) as [l|] eqn:E; [|discriminate].
  destruct (lang r') as [l'|] eqn:E'; [|discriminate].
  intros H H1 H2.
  destruct (lang_sound r l _ _ E H1) as (w & Hw & Hr & _).
  destruct (lang_sound r' l' _ _ E' H2) as (w' & Hw' & Hr' & _).
  rewrite List.forallb_forall in H. specialize (H w Hw).
  rewrite List.forallb_forall in H. exists w, w'. auto.
Qed.

(** A text read by a group, a separator and the group of the day, up to
    the end of the subject. *)
Lemma three_parts g body sep day s st :
  no_group body = true -> no_group sep = true -> no_group day = true ->
  In st (matches (Seq (Group g body) (Seq sep (Seq (Group "d" day) Eps))) (init s)) ->
  rest st = "" ->
  exists a st1 st2 b,
    In a (matches body (init s))
    /\ st1 = mk_mstate (prev a) (rest a) [(g, consumed (init s) a)]
    /\ In st2 (matches sep st1)
    /\ In b (matches day st2)
    /\ rest b = ""
    /\ caps st = [("d", consumed st2 b); (g, consumed (init s) a)].
Proof.
  intros Nb Ns Nd Hin Hrest.
  rewrite matches_seq in Hin. apply in_flat_map in Hin as (st1 & H1 & Hin).
  rewrite matches_group in H1. apply in_map_iff in H1 as (a & <- & Ha).
  rewrite matches_seq in Hin. apply in_flat_map in Hin as (st2 & H2 & Hin).
  rewrite matches_seq in Hin. apply in_flat_map in Hin as (st3 & H3 & Hin).
  rewrite matches_eps in Hin. destruct Hin as [<- | []].
  rewrite matches_group in H3. apply in_map_iff in H3 as (b & <- & Hb).
  simpl in Hrest.
  pose proof (caps_preserved body Nb _ _ Ha) as Ca. simpl in Ca.
  pose proof (caps_preserved sep Ns _ _ H2) as C2. simpl in C2.
  pose proof (caps_preserved day Nd _ _ Hb) as Cb.
  exists a, (mk_mstate (prev a) (rest a) [(g, consumed (init s) a)]), st2, b.
  rewrite Ca in H2. repeat split; try assumption.
  simpl. rewrite Cb, C2, Ca. reflexivity.
Qed.

Lemma plus_inversion p st st' :
  In st' (matches (plus p) st) ->
  exists c w, rest st = String c (w +:+ rest st') /\ p c = true /\ every p w = true.
Proof.
  unfold plus. rewrite matches_seq. intros Hin.
  apply in_flat_map in Hin as ([pv r cs] & H1 & H2).
  destruct st as [pv0 r0 cs0]. destruct r0 as [|c r0]; [destruct H1|].
  rewrite matches_chr in H1. destruct (p c) eqn:Hp; [|destruct H1].
  destruct H1 as [[= <- <- <-] | []].
  rewrite matches_star in H2. apply star_matches_sound in H2 as (w & E & Hw & _).
  exists c, w. simpl. now rewrite E.
Qed.

End ReFacts.

(** ** Year-less dates *)

Module YearlessFacts.
Import Datetime Calendar CalendarFacts SchedulerSpec Re ReSpec ReFacts Parser ParserSpec
  ParserFacts.

Lemma year_text_ok_all y : 1000 <= y <= 9999 -> year_text_ok y = true.
Proof.
  intros Hy.
  assert (H : List.forallb (fun k => year_text_ok (1000 + Z.of_nat k))
                (seq 0 (Z.to_nat 9000)) = true) by (vm_compute; reflexivity).
  eapply List.forallb_forall with (x := Z.to_nat (y - 1000)) in H.
  - now replace (1000 + Z.of_nat (Z.to_nat (y - 1000))) with y in H by lia.
  - apply in_seq. lia.
Qed.

Lemma digit_not_space c : Py.is_digit c = true -> Py.is_space c = false.
Proof. apply (disjoint_spec Py.is_digit Py.is_space c). vm_compute. reflexivity. Qed.

Lemma ieq_comma c : ieq "," c = true -> c = ","%char.
Proof.
  intros H. apply (subclass_spec (ieq ",") comma c) in H; [|vm_compute; reflexivity].
  symmetry. now apply Ascii.eqb_eq.
Qed.

(** [, %Y] at the end of the subject reads the year. *)
Lemma year_tail_at_end a b c d pv cs :
  Py.is_digit a = true -> Py.is_digit b = true -> Py.is_digit c = true ->
  Py.is_digit d = true ->
  matches year_tail
    (mk_mstate pv (String "," (String " " (String a (String b (String c (String d ""))))))
       cs)
  = [mk_mstate (Some d) "" (("Y", String a (String b (String c (String d "")))) :: cs)].
Proof.
  intros Ha Hb Hc Hd. unfold year_tail, plus, rep4, seqs.
  repeat re_step. change (ieq "," ",") with true. repeat re_step.
  change (Py.is_space " ") with true. repeat re_step.
  rewrite (star_matches_stop _ _ _ _ _ _ (digit_not_space a Ha)).
  repeat re_step. rewrite Ha. repeat re_step. rewrite Hb. repeat re_step.
  rewrite Hc. repeat re_step. rewrite Hd. reflexivity.
Qed.

(** [, %Y] does not match where the text goes on without a comma. *)
Lemma year_tail_blocked pv c u cs :
  c <> ","%char -> matches year_tail (mk_mstate pv (String c u) cs) = [].
Proof.
  intros Hc. unfold year_tail. rewrite matches_seq, matches_chr.
  destruct (ieq "," c) eqn:E; [|reflexivity]. now apply ieq_comma in E.
Qed.

(** *** The expression of a format that goes on *)

Lemma pattern_from_append_len n : forall f ws r g,
  (String.length f <= n)%nat ->
  Strptime.pattern_from ws f = Some r ->
  Strptime.pattern_from ws (f +:+ g)
  = option_map (graft r) (Strptime.pattern_from (end_ws ws f) g).
Proof.
  induction n as [|n IH]; intros f ws r g Hlen Hp.
  - destruct f; [|simpl in Hlen; lia].
    simpl in Hp. injection Hp as <-. rewrite append_nil_l. simpl.
    now destruct (Strptime.pattern_from ws g).
  - destruct f as [|c f].
    { simpl in Hp. injection Hp as <-. rewrite append_nil_l. simpl.
      now destruct (Strptime.pattern_from ws g). }
    rewrite append_cons. simpl in Hlen. cbn [Strptime.pattern_from end_ws] in *.
    destruct (Ascii.eqb c "%").
    + destruct f as [|d f]; [discriminate|].
      rewrite append_cons. simpl in Hlen.
      destruct (Strptime.directive d) as [r1|]; [|discriminate].
      destruct (Strptime.pattern_from false f) as [r2|] eqn:E2; [|discriminate].
      injection Hp as <-.
      rewrite (IH f false r2 g ltac:(lia) E2).
      now destruct (Strptime.pattern_from (end_ws false f) g).
    + destruct (Py.is_space c).
      * destruct ws.
        -- apply IH; [lia | exact Hp].
        -- destruct (Strptime.pattern_from true f) as [r2|] eqn:E2; [|discriminate].
           injection Hp as <-.
           rewrite (IH f true r2 g ltac:(lia) E2).
           now destruct (Strptime.pattern_from (end_ws true f) g).
      * destruct (Strptime.pattern_from false f) as [r2|] eqn:E2; [|discriminate].
        injection Hp as <-.
        rewrite (IH f false r2 g ltac:(lia) E2).
        now destruct (Strptime.pattern_from (end_ws false f) g).
Qed.

Lemma pattern_of_some f : is_some (Strptime.pattern f) = true ->
  Strptime.pattern f = Some (pattern_of f).
Proof. unfold pattern_of. now destruct (Strptime.pattern f). Qed.

Lemma pattern_with_year f :
  is_some (Strptime.pattern f) = true -> end_ws false f = false ->
  Strptime.pattern (f +:+ ", %Y") = Some (graft (pattern_of f) year_tail).
Proof.
  intros Hs He. unfold Strptime.pattern.
  rewrite (pattern_from_append_len (String.length f) f false (pattern_of f) ", %Y");
    [|lia|now apply pattern_of_some].
  rewrite He. reflexivity.
Qed.

(** *** The call of [strptime] on a year-less format *)

Lemma yearless_format_facts f :
  In f yearless_formats ->
  Strptime.pattern (f +:+ ", %Y") = Some (graft (pattern_of f) year_tail)
  /\ avoids "," (pattern_of f) = true
  /\ Py.contains "%Y" f = false
  /\ bounds comma (pattern_of f) = Some (0, 0)%nat.
Proof.
  intros [<- | [<- | [<- | []]]];
    (split; [apply pattern_with_year; reflexivity|];
     split; [vm_compute; reflexivity|];
     split; vm_compute; reflexivity).
Qed.

Lemma count_zero_head q c u : count q (String c u) = 0%nat -> q c = false.
Proof. simpl. destruct (q c); [discriminate | reflexivity]. Qed.

Lemma first_after_tail a b c d (l : list mstate) :
  Py.is_digit a = true -> Py.is_digit b = true -> Py.is_digit c = true ->
  Py.is_digit d = true ->
  (forall st, In st l -> count comma (rest st) = 0%nat) ->
  let y4 := String a (String b (String c (String d ""))) in
  head (flat_map (fun st => matches year_tail (extend (String "," (String " " y4)) st)) l)
  = option_map (fun st => mk_mstate (Some d) "" (("Y", y4) :: caps st)) (first_full l).
Proof.
  intros Ha Hb Hc Hd Hl y4. induction l as [|[pv r cs] l IH]; [reflexivity|].
  cbn [flat_map]. rewrite extend_eta. unfold first_full. cbn [List.find].
  unfold at_end at 1. cbn [rest].
  destruct r as [|x u].
  - rewrite append_nil_l. unfold y4. rewrite year_tail_at_end by assumption. reflexivity.
  - rewrite append_cons, year_tail_blocked.
    + simpl app. apply IH. intros st Hst. apply Hl. now right.
    + specialize (Hl _ (or_introl eq_refl)). simpl rest in Hl.
      apply count_zero_head in Hl. unfold comma, just in Hl.
      intros ->. discriminate Hl.
Qed.

Lemma rest_count q r s st :
  In st (matches r (init s)) -> count q s = 0%nat -> count q (rest st) = 0%nat.
Proof.
  intros Hin Hs. apply matches_suffix in Hin as (w & E). simpl in E.
  rewrite E, count_append in Hs. lia.
Qed.

Lemma parse_yearless f s y :
  In f yearless_formats -> count comma s = 0%nat -> 1000 <= y <= 9999 ->
  Strptime.parse (s +:+ ", " +:+ Py.str_of_int y) (f +:+ ", %Y")
  = match first_full (matches (pattern_of f) (init s)) with
    | Some st => Ok (("Y", Py.str_of_int y) :: caps st)
    | None => Raise ValueError
    end.
Proof.
  intros Hf Hs Hy.
  destruct (yearless_format_facts f Hf) as (Hp & Hav & _ & _).
  pose proof (year_text_ok_all y Hy) as Hok. unfold year_text_ok in Hok.
  destruct (Py.str_of_int y) as [|a [|b [|c [|d [|? ?]]]]]; try discriminate.
  do 4 (apply andb_prop in Hok as [Hok ?]).
  unfold Strptime.parse. rewrite Hp. unfold match_at.
  rewrite !append_cons, append_nil_l.
  change (init (s +:+ String "," (String " " (String a (String b (String c (String d "")))))))
    with (extend (String "," (String " " (String a (String b (String c (String d ""))))))
            (init s)).
  rewrite matches_graft, (barrier _ _ _ Hav eq_refl), flat_map_map.
  rewrite first_after_tail; try assumption.
  - destruct (first_full (matches (pattern_of f) (init s))); reflexivity.
  - intros st Hst. eapply rest_count; eassumption.
Qed.

Lemma fields_with_year y4 cs :
  Strptime.fields (("Y", y4) :: cs)
  = let* year := Py.int_of_str y4 in
    let* month := Strptime.group_month cs in
    let* day := Strptime.group_int "d" cs 1 in
    Ok (year, month, day).
Proof. reflexivity. Qed.

(** On a text without a comma, the call for a year-less format reads month
    and day in the text and takes the year of the clock. *)
Lemma attempt_yearless now f s :
  In f yearless_formats -> count comma s = 0%nat -> 1000 <= year now <= 9999 ->
  attempt now s f
  = match month_day_of f s with
    | Some (m, d) => make_date (year now) m d
    | None => Raise ValueError
    end.
Proof.
  intros Hf Hs Hy.
  destruct (yearless_format_facts f Hf) as (_ & _ & Hc & _).
  unfold attempt. rewrite Hc. cbv zeta. simpl negb. cbv iota.
  unfold Strptime.strptime. rewrite (parse_yearless f s (year now) Hf Hs Hy).
  unfold month_day_of.
  destruct (first_full (matches (pattern_of f) (init s))) as [st|]; [|reflexivity].
  simpl rbind. rewrite fields_with_year.
  pose proof (year_text_ok_all _ Hy) as Hok. unfold year_text_ok in Hok.
  destruct (Py.str_of_int (year now)) as [|a [|b [|c [|d [|? ?]]]]]; try discriminate.
  destruct (Py.int_of_str _) as [z|]; [|now rewrite andb_false_r in Hok].
  apply andb_prop in Hok as [_ Hz]. apply Z.eqb_eq in Hz. subst z. simpl rbind.
  destruct (Strptime.group_month (caps st)) as [m|e] eqn:Em.
  - simpl rbind. destruct (Strptime.group_int "d" (caps st) 1) as [day|e] eqn:Ed.
    + reflexivity.
    + apply group_int_raises in Ed. now subst e.
  - apply group_month_raises in Em. now subst e.
Qed.

(** *** A year-less text is in no format with a year *)

Lemma formats_told_apart :
  List.forallb (fun f => List.forallb (told_apart f) yearless_formats) year_formats = true.
Proof. vm_compute. reflexivity. Qed.

Lemma year_format_excluded f g s :
  In f year_formats -> In g yearless_formats -> in_format g s -> ~ in_format f s.
Proof.
  intros Hf Hg Hs Hs'.
  pose proof formats_told_apart as H. rewrite List.forallb_forall in H.
  specialize (H f Hf). rewrite List.forallb_forall in H. specialize (H g Hg).
  unfold told_apart in H. apply orb_prop in H as [H | H];
    eapply apart_spans; eassumption.
Qed.

Lemma year_format_pattern f :
  In f year_formats -> Strptime.pattern f = Some (pattern_of f)
                       /\ Py.contains "%Y" f = true.
Proof.
  intros [<- | [<- | [<- | [<- | [<- | [<- | [<- | []]]]]]]];
    (split; [apply pattern_of_some; reflexivity | vm_compute; reflexivity]).
Qed.

Lemma attempt_year_format now f s :
  In f year_formats -> ~ in_format f s -> attempt now s f = Raise ValueError.
Proof.
  intros Hf Hn. destruct (year_format_pattern f Hf) as [Hp Hc].
  unfold attempt. rewrite Hc. cbn [negb].
  unfold Strptime.strptime, Strptime.parse. rewrite Hp. unfold match_at.
  destruct (matches (pattern_of f) (init s)) as [|st l] eqn:E; [reflexivity|].
  cbn [head]. destruct (rest st) eqn:Er; [|reflexivity].
  exfalso. apply Hn. exists st. split; [|exact Er]. rewrite E. now left.
Qed.

Lemma try_formats_skip now s l1 l2 :
  (forall f, In f l1 -> attempt now s f = Raise ValueError) ->
  try_formats now s (l1 ++ l2) = try_formats now s l2.
Proof.
  induction l1 as [|f l1 IH]; intros H; [reflexivity|].
  cbn [app try_formats]. rewrite (H f (or_introl eq_refl)).
  apply IH. intros g Hg. apply H. now right.
Qed.

Lemma yearless_no_comma s : yearless s -> count comma s = 0%nat.
Proof.
  intros (f & Hf & Hs). destruct (yearless_format_facts f Hf) as (_ & _ & _ & Hb).
  pose proof (spans_bounds comma _ s _ _ Hb Hs). lia.
Qed.

Lemma try_formats_readings now s formats readings :
  Forall2 (fun f md =>
             attempt now s f
             = match md with
               | Some (m, d) => make_date (year now) m d
               | None => Raise ValueError
               end) formats readings ->
  try_formats now s formats = Ok (first_date (year now) readings).
Proof.
  induction 1 as [|f md formats readings Hf _ IH]; [reflexivity|].
  cbn [try_formats first_date]. rewrite Hf. destruct md as [[m d]|]; [|exact IH].
  pose proof (make_date_valid (year now) m d) as Hv.
  destruct (make_date (year now) m d) as [dt|e]; [reflexivity|].
  destruct Hv as [-> _]. exact IH.
Qed.

(** On a year-less text the loop comes down to the three year-less formats,
    each of which reads month and day in the text. *)
Lemma validate_yearless now s :
  yearless s -> 1000 <= year now <= 9999 ->
  validate_and_format_date now s
  = Ok (first_date (year now)
          [month_day_of "%m/%d" s; month_day_of "%B %d" s; month_day_of "%b %d" s]).
Proof.
  intros Hs Hy. pose proof (yearless_no_comma s Hs) as Hc.
  unfold validate_and_format_date.
  change date_formats with (year_formats ++ yearless_formats).
  rewrite try_formats_skip.
  2:{ intros f Hf. apply attempt_year_format; [exact Hf|].
      destruct Hs as (g & Hg & Hs). eapply year_format_excluded; eassumption. }
  rewrite (try_formats_readings now s yearless_formats
             [month_day_of "%m/%d" s; month_day_of "%B %d" s; month_day_of "%b %d" s]);
    [reflexivity|].
  repeat constructor; apply attempt_yearless; try assumption; cbn; tauto.
Qed.

(** *** What a year-less format reads *)

Lemma shape_full_name :
  pattern_of "%B %d"
  = Seq (Group "B" (directive_body "B"))
      (Seq (plus Py.is_space) (Seq (Group "d" (directive_body "d")) Eps)).
Proof. reflexivity. Qed.

Lemma shape_short_name :
  pattern_of "%b %d"
  = Seq (Group "b" (directive_body "b"))
      (Seq (plus Py.is_space) (Seq (Group "d" (directive_body "d")) Eps)).
Proof. reflexivity. Qed.

Lemma shape_digits :
  pattern_of "%m/%d"
  = Seq (Group "m" (directive_body "m"))
      (Seq (Chr (ieq "/")) (Seq (Group "d" (directive_body "d")) Eps)).
Proof. reflexivity. Qed.

Lemma directive_texts :
  all_of (directive_body "d") day_ok = true
  /\ all_of (directive_body "m") month_digits_ok = true
  /\ all_of (directive_body "B") (month_name_ok Strptime.f_month) = true
  /\ all_of (directive_body "b") (month_name_ok Strptime.a_month) = true.
Proof.
  split; [vm_compute; reflexivity|]. split; [vm_compute; reflexivity|].
  split; vm_compute; reflexivity.
Qed.

Lemma directive_no_group :
  no_group (directive_body "d") = true /\ no_group (directive_body "m") = true
  /\ no_group (directive_body "B") = true /\ no_group (directive_body "b") = true
  /\ no_group (plus Py.is_space) = true /\ no_group (Chr (ieq "/")) = true.
Proof.
  split; [vm_compute; reflexivity|]. split; [vm_compute; reflexivity|].
  split; [vm_compute; reflexivity|]. split; [vm_compute; reflexivity|].
  split; vm_compute; reflexivity.
Qed.

(** The groups of a match of a year-less format up to the end of the text:
    the text of the month, which passes [ok], and the text of the day. *)
Lemma full_state_groups g body sep ok s st :
  no_group body = true -> no_group sep = true -> all_of body ok = true ->
  In st (matches (Seq (Group g body) (Seq sep (Seq (Group "d" (directive_body "d")) Eps)))
           (init s)) ->
  rest st = "" ->
  exists p dtxt a st2,
    ok p = true /\ day_ok dtxt = true
    /\ caps st = [("d", dtxt); (g, p)]
    /\ In a (matches body (init s)) /\ s = p +:+ rest a
    /\ In st2 (matches sep (mk_mstate (prev a) (rest a) [(g, p)]))
    /\ rest st2 = dtxt.
Proof.
  intros Nb Ns Hok Hin Hrest.
  destruct directive_no_group as (Nd & _). destruct directive_texts as (Hday & _).
  destruct (three_parts g body sep (directive_body "d") s st Nb Ns Nd Hin Hrest)
    as (a & st1 & st2 & b & Ha & -> & H2 & Hb & Hrb & Hcaps).
  destruct (all_of_spec body ok _ _ Hok Ha) as (p & Hp & Ep & _).
  destruct (all_of_spec _ day_ok _ _ Hday Hb) as (dtxt & Hd & Ed & _).
  rewrite Hrb, append_nil_r in Ed.
  rewrite (consumed_split _ _ p Ep) in *.
  assert (Ec : consumed st2 b = dtxt)
    by (apply consumed_split; now rewrite Hrb, append_nil_r).
  rewrite Ec in Hcaps.
  exists p, dtxt, a, st2. simpl in Ep. auto 10.
Qed.

Lemma first_full_some l :
  (exists st, In st l /\ rest st = "") ->
  exists st, first_full l = Some st /\ In st l /\ rest st = "".
Proof.
  intros (st & Hin & Hr). unfold first_full.
  destruct (List.find at_end l) as [st'|] eqn:E.
  - apply List.find_some in E as [Hin' He]. exists st'. split; [reflexivity|].
    split; [exact Hin'|]. unfold at_end in He. now destruct (rest st').
  - apply List.find_none with (x := st) in E; [|exact Hin].
    unfold at_end in E. now rewrite Hr in E.
Qed.

Lemma month_day_of_full f s m d :
  month_day_of f s = Some (m, d) ->
  exists st, In st (matches (pattern_of f) (init s)) /\ rest st = ""
             /\ Strptime.group_month (caps st) = Ok m
             /\ Strptime.group_int "d" (caps st) 1 = Ok d.
Proof.
  unfold month_day_of, first_full.
  destruct (List.find at_end _) as [st|] eqn:E; [|discriminate].
  apply List.find_some in E as [Hin He].
  destruct (Strptime.group_month (caps st)) as [m'|] eqn:Em; [|discriminate].
  destruct (Strptime.group_int "d" (caps st) 1) as [d'|] eqn:Ed; [|discriminate].
  intros [= <- <-].
  assert (Hr : rest st = "")
    by (unfold at_end in He; destruct (rest st); [reflexivity | discriminate]).
  exists st. auto.
Qed.

Lemma month_day_in_format f s x : month_day_of f s = Some x -> in_format f s.
Proof.
  destruct x as [m d]. intros H.
  apply month_day_of_full in H as (st & Hin & Hr & _). now exists st.
Qed.

Lemma day_ok_range dtxt :
  day_ok dtxt = true -> exists d, Py.int_of_str dtxt = Ok d /\ 1 <= d <= 31.
Proof.
  unfold day_ok. destruct (Py.int_of_str dtxt) as [d|]; [|discriminate].
  intros H. apply andb_prop in H as [H1 H2]. exists d. split; [reflexivity | lia].
Qed.

(** Every text of a year-less format has a month from 1 to 12 and a day
    from 1 to 31 read in it. *)
Lemma reading_exists f s :
  In f yearless_formats -> in_format f s ->
  exists m d, month_day_of f s = Some (m, d) /\ 1 <= m <= 12 /\ 1 <= d <= 31.
Proof.
  intros Hf Hs. apply first_full_some in Hs as (st & Hfirst & Hin & Hr).
  destruct directive_no_group as (_ & Dm & DB & Db & Dplus & Dslash).
  destruct directive_texts as (_ & Tm & TB & Tb).
  unfold month_day_of. rewrite Hfirst.
  destruct Hf as [<- | [<- | [<- | []]]].
  - rewrite shape_digits in Hin.
    destruct (full_state_groups _ _ _ _ _ _ Dm Dslash Tm Hin Hr)
      as (p & dtxt & _ & _ & Hp & Hd & -> & _).
    apply day_ok_range in Hd as (d & Ed & Hd).
    unfold month_digits_ok in Hp.
    change (Strptime.group_month [("d", dtxt); ("m", p)]) with (Py.int_of_str p).
    change (Strptime.group_int "d" [("d", dtxt); ("m", p)] 1) with (Py.int_of_str dtxt).
    rewrite Ed. destruct (Py.int_of_str p) as [m|]; [|discriminate].
    apply andb_prop in Hp as [H1 H2]. exists m, d. split; [reflexivity | lia].
  - rewrite shape_full_name in Hin.
    destruct (full_state_groups _ _ _ _ _ _ DB Dplus TB Hin Hr)
      as (p & dtxt & _ & _ & Hp & Hd & -> & _).
    apply day_ok_range in Hd as (d & Ed & Hd).
    unfold month_name_ok in Hp.
    change (Strptime.group_month [("d", dtxt); ("B", p)])
      with (match Strptime.index_from 1 Strptime.f_month (Py.lower p) with
            | Some i => Ok i
            | None => Raise ValueError
            end).
    change (Strptime.group_int "d" [("d", dtxt); ("B", p)] 1) with (Py.int_of_str dtxt).
    rewrite Ed. destruct (Strptime.index_from 1 Strptime.f_month (Py.lower p)) as [m|];
      [|discriminate].
    apply andb_prop in Hp as [H1 H2]. exists m, d. split; [reflexivity | lia].
  - rewrite shape_short_name in Hin.
    destruct (full_state_groups _ _ _ _ _ _ Db Dplus Tb Hin Hr)
      as (p & dtxt & _ & _ & Hp & Hd & -> & _).
    apply day_ok_range in Hd as (d & Ed & Hd).
    unfold month_name_ok in Hp.
    change (Strptime.group_month [("d", dtxt); ("b", p)])
      with (match Strptime.index_from 1 Strptime.a_month (Py.lower p) with
            | Some i => Ok i
            | None => Raise ValueError
            end).
    change (Strptime.group_int "d" [("d", dtxt); ("b", p)] 1) with (Py.int_of_str dtxt).
    rewrite Ed. destruct (Strptime.index_from 1 Strptime.a_month (Py.lower p)) as [m|];
      [|discriminate].
    apply andb_prop in Hp as [H1 H2]. exists m, d. split; [reflexivity | lia].
Qed.

(** *** The two formats with a month name agree *)

Lemma append_cancel_l (a b b' : string) : a +:+ b = a +:+ b' -> b = b'.
Proof. intros H. now apply append_inj_length in H as [_ H]. Qed.

Lemma append_longer (a a' b b' : string) :
  a +:+ b = a' +:+ b' -> (String.length a < String.length a')%nat ->
  exists c y, a' = a +:+ String c y /\ b = String c y +:+ b'.
Proof.
  revert a'. induction a as [|x a IH]; intros a' H Hlen.
  - destruct a' as [|c y]; [simpl in Hlen; lia|].
    exists c, y. split; [reflexivity|]. now rewrite append_nil_l in H.
  - destruct a' as [|x' a']; [simpl in Hlen; lia|].
    rewrite !append_cons in H. injection H as -> H. simpl in Hlen.
    destruct (IH a' H ltac:(lia)) as (c & y & -> & Hb).
    exists c, y. split; [now rewrite append_cons | exact Hb].
Qed.

Lemma get_append a c y : String.get (String.length a) (a +:+ String c y) = Some c.
Proof. induction a as [|x a IH]; [reflexivity|]. rewrite append_cons. exact IH. Qed.

Lemma lstrip_spaces w x : every Py.is_space w = true -> Py.lstrip (w +:+ x) = Py.lstrip x.
Proof.
  induction w as [|c w IH]; intros H; [reflexivity|].
  simpl in H. apply andb_prop in H as [Hc Hw].
  rewrite append_cons. simpl. rewrite Hc. now apply IH.
Qed.

Lemma int_of_str_lstrip s t : Py.lstrip s = Py.lstrip t -> Py.int_of_str s = Py.int_of_str t.
Proof. unfold Py.int_of_str, Py.strip. now intros ->. Qed.

Lemma names_compatible :
  all_pairs (directive_body "B") (directive_body "b") compatible = true.
Proof. vm_compute. reflexivity. Qed.

Lemma compatible_same p p' c x c' x' :
  compatible p p' = true ->
  p +:+ String c x = p' +:+ String c' x' ->
  Py.is_space c = true -> Py.is_space c' = true ->
  p = p'
  /\ exists i, Strptime.index_from 1 Strptime.f_month (Py.lower p) = Some i
               /\ Strptime.index_from 1 Strptime.a_month (Py.lower p') = Some i.
Proof.
  unfold compatible. intros Hc Heq Hs Hs'.
  destruct (Nat.eqb_spec (String.length p) (String.length p')) as [El | Nl].
  - apply append_inj_length in Heq as [-> _]; [|exact El].
    split; [reflexivity|]. rewrite String.eqb_refl in Hc.
    destruct (Strptime.index_from 1 Strptime.f_month (Py.lower p')) as [i|],
             (Strptime.index_from 1 Strptime.a_month (Py.lower p')) as [j|];
      cbn [negb orb] in Hc; try discriminate.
    apply Z.eqb_eq in Hc as ->. now exists j.
  - exfalso. destruct (Nat.ltb_spec (String.length p) (String.length p')) as [Lt | Ge].
    + destruct (append_longer _ _ _ _ Heq Lt) as (c0 & y & -> & Hb).
      rewrite append_cons in Hb. injection Hb as <- _.
      rewrite get_append in Hc. simpl in Hc. rewrite Hs, andb_true_r in Hc.
      apply negb_true_iff in Hc.
      assert (Py.startswith p (p +:+ String c y) = true)
        by (apply startswith_spec; now exists (String c y)).
      congruence.
    + symmetry in Heq.
      destruct (append_longer _ _ _ _ Heq ltac:(lia)) as (c0 & y & -> & Hb).
      rewrite append_cons in Hb. injection Hb as <- _.
      rewrite get_append in Hc. simpl in Hc. rewrite Hs', andb_true_r in Hc.
      apply negb_true_iff in Hc.
      assert (Py.startswith p' (p' +:+ String c' y) = true)
        by (apply startswith_spec; now exists (String c' y)).
      congruence.
Qed.

(** A text that is both "Month DD" and "Mon DD" has one month and one day. *)
Lemma names_agree s st st' :
  In st (matches (pattern_of "%B %d") (init s)) -> rest st = "" ->
  In st' (matches (pattern_of "%b %d") (init s)) -> rest st' = "" ->
  Strptime.group_month (caps st) = Strptime.group_month (caps st')
  /\ Strptime.group_int "d" (caps st) 1 = Strptime.group_int "d" (caps st') 1.
Proof.
  intros Hin Hr Hin' Hr'.
  destruct directive_no_group as (_ & _ & DB & Db & Dplus & _).
  destruct directive_texts as (_ & _ & TB & Tb).
  rewrite shape_full_name in Hin. rewrite shape_short_name in Hin'.
  destruct (full_state_groups _ _ _ _ _ _ DB Dplus TB Hin Hr)
    as (p & dtxt & a & st2 & _ & _ & -> & Ha & Es & H2 & E2).
  destruct (full_state_groups _ _ _ _ _ _ Db Dplus Tb Hin' Hr')
    as (p' & dtxt' & a' & st2' & _ & _ & -> & Ha' & Es' & H2' & E2').
  apply plus_inversion in H2 as (c & w & Ew & Hc & Hw).
  apply plus_inversion in H2' as (c' & w' & Ew' & Hc' & Hw').
  simpl in Ew, Ew'. rewrite E2 in Ew. rewrite E2' in Ew'.
  destruct (all_pairs_spec _ _ _ _ _ _ _ names_compatible Ha Ha')
    as (q & q' & Hq & Eq & Eq').
  simpl in Eq, Eq'.
  assert (q = p) by (rewrite Es in Eq; now apply append_inj_length in Eq as [-> _];
                     [|apply (f_equal String.length) in Eq; rewrite !length_append in Eq; lia]).
  assert (q' = p') by (rewrite Es' in Eq'; now apply append_inj_length in Eq' as [-> _];
                       [|apply (f_equal String.length) in Eq'; rewrite !length_append in Eq'; lia]).
  subst q q'.
  rewrite Ew in Es. rewrite Ew' in Es'. rewrite Es' in Es.
  symmetry in Es.
  destruct (compatible_same _ _ _ _ _ _ Hq Es Hc Hc') as (-> & i & Ei & Ei').
  apply append_cancel_l in Es. injection Es as -> Ews.
  split.
  - change (Strptime.group_month [("d", dtxt); ("B", p')])
      with (match Strptime.index_from 1 Strptime.f_month (Py.lower p') with
            | Some i => Ok i
            | None => Raise ValueError
            end).
    change (Strptime.group_month [("d", dtxt'); ("b", p')])
      with (match Strptime.index_from 1 Strptime.a_month (Py.lower p') with
            | Some i => Ok i
            | None => Raise ValueError
            end).
    now rewrite Ei, Ei'.
  - change (Strptime.group_int "d" [("d", dtxt); ("B", p')] 1) with (Py.int_of_str dtxt).
    change (Strptime.group_int "d" [("d", dtxt'); ("b", p')] 1) with (Py.int_of_str dtxt').
    apply int_of_str_lstrip.
    rewrite <- (lstrip_spaces w dtxt Hw), <- (lstrip_spaces w' dtxt' Hw').
    now rewrite Ews.
Qed.

Lemma slash_tells_digits_from_names :
  List.forallb
    (fun g => apart (bounds slash (pattern_of "%m/%d")) (bounds slash (pattern_of g)))
    ["%B %d"; "%b %d"] = true.
Proof. vm_compute. reflexivity. Qed.

Lemma digits_exclude_names g s :
  In g ["%B %d"; "%b %d"] -> in_format "%m/%d" s -> in_format g s -> False.
Proof.
  intros Hg Hs Hs'. pose proof slash_tells_digits_from_names as H.
  rewrite List.forallb_forall in H. specialize (H g Hg).
  eapply apart_spans; eassumption.
Qed.

Lemma names_read_alike s x x' :
  month_day_of "%B %d" s = Some x -> month_day_of "%b %d" s = Some x' -> x = x'.
Proof.
  destruct x as [m d], x' as [m' d']. intros H H'.
  apply month_day_of_full in H as (st & Hin & Hr & Hm & Hd).
  apply month_day_of_full in H' as (st' & Hin' & Hr' & Hm' & Hd').
  destruct (names_agree s st st' Hin Hr Hin' Hr') as [Em Ed].
  congruence.
Qed.

(** The three year-less formats never read two different dates in one text. *)
Lemma readings_agree f g s x :
  In f yearless_formats -> In g yearless_formats ->
  month_day_of f s = Some x ->
  month_day_of g s = None \/ month_day_of g s = Some x.
Proof.
  intros Hf Hg H.
  destruct (month_day_of g s) as [x'|] eqn:E; [right | now left].
  pose proof (month_day_in_format _ _ _ H) as Hs.
  pose proof (month_day_in_format _ _ _ E) as Hs'.
  destruct Hf as [<- | [<- | [<- | []]]], Hg as [<- | [<- | [<- | []]]];
    try congruence;
    try match goal with
        | Hd : in_format "%m/%d" s, Hn : in_format ?g s |- _ =>
            exfalso; apply (digits_exclude_names g s); [cbn; tauto | exact Hd | exact Hn]
        end.
  - f_equal. symmetry. eapply names_read_alike; eassumption.
  - f_equal. eapply names_read_alike; eassumption.
Qed.

Lemma first_date_one y m d readings :
  Forall (fun r => r = None \/ r = Some (m, d)) readings ->
  In (Some (m, d)) readings ->
  first_date y readings
  = match make_date y m d with
    | Ok dt => Some (strftime_ymd dt)
    | Raise _ => None
    end.
Proof.
  induction 1 as [|r readings Hr Hall IH]; intros Hin; [destruct Hin|].
  destruct Hr as [-> | ->].
  - destruct Hin as [Hin | Hin]; [discriminate|]. simpl. now apply IH.
  - simpl. destruct (make_date y m d) eqn:E; [reflexivity|].
    clear Hin IH. induction Hall as [|r readings Hr _ IH']; [reflexivity|].
    destruct Hr as [-> | ->]; simpl; [|rewrite E]; exact IH'.
Qed.

Lemma make_date_cases y m d :
  1 <= y <= 9999 -> 1 <= m <= 12 -> 1 <= d ->
  match make_date y m d with
  | Ok dt => Some (strftime_ymd dt)
  | Raise _ => None
  end = if d <=? _days_in_month y m then Some (iso y m d) else None.
Proof.
  intros Hy Hm Hd. destruct (make_date y m d) as [dt|e] eqn:E.
  - apply strftime_make_date in E as [(_ & _ & Hv) ->].
    destruct (Z.leb_spec d (_days_in_month y m)); [reflexivity | lia].
  - pose proof (make_date_valid y m d) as H. rewrite E in H. destruct H as [_ H].
    destruct (Z.leb_spec d (_days_in_month y m)); [|reflexivity].
    exfalso. apply H. unfold valid_ymd. lia.
Qed.

(** C8: a year-less date string (a text of one of the formats MM/DD,
    Month DD, Mon DD) names one month and one day, whatever the clock; in
    every year from 1000 to 9999 [validate_and_format_date] returns the
    canonical date of that month and day in the current year, so that
    another current year changes the year of the result and nothing else.
    When the current year has no such day (29 February outside leap years)
    the result is [None]. *)
Theorem yearless_dates_take_the_current_year s :
  yearless s ->
  exists m d,
    1 <= m <= 12 /\ 1 <= d <= 31
    /\ forall now, 1000 <= year now <= 9999 ->
         validate_and_format_date now s
         = Ok (if d <=? _days_in_month (year now) m
               then Some (iso (year now) m d) else None).
Proof.
  intros Hs. pose proof Hs as (f & Hf & Hin).
  destruct (reading_exists f s Hf Hin) as (m & d & Hr & Hm & Hd).
  exists m, d. split; [exact Hm|]. split; [exact Hd|].
  intros now Hy. rewrite (validate_yearless now s Hs Hy). f_equal.
  rewrite (first_date_one (year now) m d).
  - apply make_date_cases; lia.
  - repeat (apply List.Forall_cons;
              [eapply readings_agree; [exact Hf | cbn; tauto | exact Hr]|]).
    apply List.Forall_nil.
  - destruct Hf as [<- | [<- | [<- | []]]]; rewrite Hr; cbn; tauto.
Qed.

Lemma in_format_by_search f s st :
  first_full (matches (pattern_of f) (init s)) = Some st -> in_format f s.
Proof.
  unfold first_full. intros H. apply List.find_some in H as [Hin He].
  exists st. split; [exact Hin|]. unfold at_end in He. now destruct (rest st).
Qed.

Lemma yearless_dates_take_the_current_year_witness :
  exists m d,
    1 <= m <= 12 /\ 1 <= d <= 31
    /\ forall now, 1000 <= year now <= 9999 ->
         validate_and_format_date now "Mar 15"
         = Ok (if d <=? _days_in_month (year now) m
               then Some (iso (year now) m d) else None).
Proof.
  apply (yearless_dates_take_the_current_year "Mar 15").
  exists "%b %d". split; [cbn; tauto|].
  apply (in_format_by_search _ _ (mk_mstate (Some "5"%char) "" [("d", "15"); ("b", "Mar")])).
  vm_compute. reflexivity.
Defined.

End YearlessFacts.

(** ** Titles of deadlines *)

Module TitleFacts.
Import Re ReSpec ReFacts Parser CalendarFacts.

Lemma length_take n : forall s, String.length (Py.take n s) = Nat.min n (String.length s).
Proof.
  unfold Py.take. induction n as [|n IH]; intros [|c s]; simpl; try reflexivity.
  now rewrite IH.
Qed.

Lemma lstrip_head s :
  Py.lstrip s = "" \/ exists c t, Py.lstrip s = String c t /\ Py.is_space c = false.
Proof.
  induction s as [|c s IH]; [now left|]. simpl.
  destruct (Py.is_space c) eqn:E; [exact IH|]. right. now exists c, s.
Qed.

Lemma rstrip_head c s :
  Py.is_space c = false -> exists t, Py.rstrip (String c s) = String c t.
Proof.
  intros H. cbn [Py.rstrip]. destruct (Py.rstrip s); [rewrite H|]; eauto.
Qed.

Lemma rstrip_idem s : Py.rstrip (Py.rstrip s) = Py.rstrip s.
Proof.
  induction s as [|a s IH]; [reflexivity|]. cbn [Py.rstrip].
  destruct (Py.rstrip s) as [|d r] eqn:E.
  - destruct (Py.is_space a) eqn:Ea; [reflexivity|].
    cbn [Py.rstrip]. now rewrite Ea.
  - change (Py.rstrip (String a (String d r)))
      with (match Py.rstrip (String d r) with
            | "" => if Py.is_space a then "" else String a ""
            | String x y => String a (String x y)
            end).
    now rewrite IH.
Qed.

Lemma strip_idem s : Py.strip (Py.strip s) = Py.strip s.
Proof.
  unfold Py.strip. destruct (lstrip_head s) as [E | (c & t & E & Hc)]; rewrite E.
  - reflexivity.
  - destruct (rstrip_head c t Hc) as [t' Et]. rewrite Et.
    cbn [Py.lstrip]. rewrite Hc, <- Et. apply rstrip_idem.
Qed.

Lemma rstrip_end d : Py.is_space d = false ->
  forall w, Py.rstrip (w +:+ String d "") = w +:+ String d "".
Proof.
  intros Hd. induction w as [|a w IH].
  - rewrite append_nil_l. cbn [Py.rstrip]. now rewrite Hd.
  - rewrite append_cons. cbn [Py.rstrip]. rewrite IH.
    destruct w; [rewrite append_nil_l | rewrite append_cons]; reflexivity.
Qed.

Lemma take_cons n c s : Py.take (S n) (String c s) = String c (Py.take n s).
Proof. reflexivity. Qed.

Lemma sub_empty r repl : sub r repl "" = "".
Proof. reflexivity. Qed.

Lemma fold_sub_empty (rs : list regex) :
  fold_left (fun title prefix => sub prefix "" title) rs "" = "".
Proof. induction rs as [|r rs IH]; [reflexivity|]. simpl. exact IH. Qed.

Lemma title_shape (sentence : string) :
  (1 <= String.length (extract_deadline_title sentence) <= 100)%nat
  /\ Py.strip (extract_deadline_title sentence) = extract_deadline_title sentence
  /\ (Py.strip sentence = "" -> extract_deadline_title sentence = "Untitled Deadline").
Proof.
  unfold extract_deadline_title.
  split; [|split].
  3:{ intros ->. rewrite fold_sub_empty. reflexivity. }
  all: set (t := Py.strip (sub (plus Py.is_space) " " _)).
  all: assert (Ht : Py.strip t = t) by apply strip_idem.
  all: clearbody t; unfold Py.len.
  all: destruct (Z.ltb_spec 100 (Z.of_nat (String.length t))) as [Hl | Hl].
  - assert (E : String.length (Py.take 97 t +:+ "...") = 100%nat).
    { rewrite length_append, length_take.
      change (String.length "...") with 3%nat. lia. }
    destruct (Py.take 97 t +:+ "...") eqn:Et; simpl in E; [discriminate|].
    simpl. lia.
  - destruct t; simpl in *; lia.
  - assert (E : Py.strip (Py.take 97 t +:+ "...") = Py.take 97 t +:+ "...").
    { destruct t as [|c t]; [simpl in Hl; lia|].
      rewrite take_cons, append_cons. unfold Py.strip in *.
      assert (Hc : Py.is_space c = false).
      { destruct (Py.is_space c) eqn:Hc; [|reflexivity]. exfalso.
        destruct (lstrip_head (String c t)) as [E | (c' & t' & E & Hc')].
        - rewrite E in Ht. discriminate.
        - rewrite E in Ht. destruct (rstrip_head c' t' Hc') as [t'' Et].
          rewrite Et in Ht. injection Ht as -> _. congruence. }
      cbn [Py.lstrip]. rewrite Hc.
      assert (Heq : String c (Py.take 96 t +:+ "...")
                    = String c (Py.take 96 t +:+ "..") +:+ ".")
        by (rewrite append_cons, append_assoc'; reflexivity).
      rewrite Heq. apply rstrip_end. reflexivity. }
    destruct (Py.take 97 t +:+ "..."); [reflexivity | exact E].
  - destruct t; [reflexivity | exact Ht].
Qed.

(** [extract_deadline_title] always gives a title: at least one character
    and at most 100, with no white space around it.  A sentence of white
    space only (the empty one too) is given the title "Untitled Deadline". *)
Theorem title_is_short_and_trimmed (sentence : string) :
  (1 <= String.length (extract_deadline_title sentence) <= 100)%nat
  /\ Py.strip (extract_deadline_title sentence) = extract_deadline_title sentence
  /\ (Py.strip sentence = "" -> extract_deadline_title sentence = "Untitled Deadline").
Proof. apply title_shape. Qed.

End TitleFacts.

(** ** The dates of a text *)

Module DatesFacts.
Import Datetime Calendar CalendarFacts Re ReSpec ReFacts Parser ParserSpec ParserFacts
  DatesSpec.











End DatesFacts.

(** ** Schedules with deadlines *)

Module PlanFacts.
Import Datetime Calendar CalendarFacts Scheduler SchedulerSpec SchedulerFacts PlanSpec
  ParserFacts.

(** *** The order of the time texts *)

Lemma ascii_compare_trans a b c :
  Ascii.compare a b <> Gt -> Ascii.compare b c <> Gt -> Ascii.compare a c <> Gt.
Proof.
  unfold Ascii.compare. rewrite !N.compare_le_iff. lia.
Qed.

Lemma ascii_compare_eq a b : Ascii.compare a b = Eq -> a = b.
Proof. apply Ascii.compare_eq_iff. Qed.

Lemma compare_le_trans s1 : forall s2 s3,
  String.compare s1 s2 <> Gt -> String.compare s2 s3 <> Gt -> String.compare s1 s3 <> Gt.
Proof.
  induction s1 as [|a s1 IH]; intros [|b s2] [|c s3]; simpl; try congruence.
  destruct (Ascii.compare a b) eqn:Eab; try congruence;
    destruct (Ascii.compare b c) eqn:Ebc; try congruence; intros H1 H2.
  - apply ascii_compare_eq in Eab, Ebc. subst.
    assert (Hcc : Ascii.compare c c = Eq) by (unfold Ascii.compare; apply N.compare_refl).
    rewrite Hcc. now apply (IH s2 s3).
  - apply ascii_compare_eq in Eab. subst. now rewrite Ebc.
  - apply ascii_compare_eq in Ebc. subst. now rewrite Eab.
  - assert (Hac : Ascii.compare a c = Lt).
    { unfold Ascii.compare in *. rewrite N.compare_lt_iff in *. lia. }
    now rewrite Hac.
Qed.

Lemma leb_trans s1 s2 s3 :
  String.leb s1 s2 = true -> String.leb s2 s3 = true -> String.leb s1 s3 = true.
Proof.
  unfold String.leb. intros H1 H2.
  pose proof (compare_le_trans s1 s2 s3) as H.
  destruct (String.compare s1 s2), (String.compare s2 s3), (String.compare s1 s3);
    try reflexivity; try discriminate; exfalso; apply H; congruence.
Qed.

Lemma insert_by_time_order a l : in_time_order l -> in_time_order (insert_by_time a l).
Proof.
  induction l as [|b l IH]; simpl.
  - intros _. split; [constructor | exact I].
  - intros [Hb Hl]. destruct (String.leb (time a) (time b)) eqn:E.
    + split; [|split; assumption]. constructor; [exact E|].
      eapply List.Forall_impl; [|exact Hb]. intros x Hx. eapply leb_trans; eassumption.
    + split; [|now apply IH].
      assert (Hba : String.leb (time b) (time a) = true)
        by (destruct (String.leb_total (time a) (time b)); congruence).
      apply List.Forall_forall. intros x Hx.
      apply (Permutation_in _ (insert_by_time_perm a l)) in Hx.
      destruct Hx as [<- | Hx]; [exact Hba|].
      rewrite List.Forall_forall in Hb. now apply Hb.
Qed.

Lemma sort_by_time_order l : in_time_order (sort_by_time l).
Proof.
  induction l as [|a l IH]; [exact I|]. now apply insert_by_time_order.
Qed.

(** *** Review sessions and the dates of the deadlines *)

Lemma date_parses_ok dl :
  date_parses dl = true ->
  exists dt, Strptime.strptime (default "" (d_date dl)) "%Y-%m-%d" = Ok dt.
Proof.
  unfold date_parses. destruct (Strptime.strptime _ _) as [dt|]; [eauto | discriminate].
Qed.

Lemma date_parses_raise dl :
  date_parses dl = false ->
  Strptime.strptime (default "" (d_date dl)) "%Y-%m-%d" = Raise ValueError.
Proof.
  unfold date_parses.
  destruct (strptime_cases (default "" (d_date dl)) "%Y-%m-%d")
    as [(cs & y & m & d & dt & _ & _ & _ & _ & Hs) | [Hs _]]; rewrite Hs;
    [discriminate | reflexivity].
Qed.

Lemma intensity_some k : in_1_3_7 k = true -> exists s, intensity_of k = Some s.
Proof.
  unfold in_1_3_7, intensity_of.
  destruct (k =? 1); [eauto|]. destruct (k =? 3); [eauto|].
  destruct (k =? 7); [eauto | discriminate].
Qed.

Lemma review_sessions_total date deadlines :
  forallb date_parses deadlines = true ->
  exists sessions, generate_review_sessions date deadlines = Ok sessions.
Proof.
  induction deadlines as [|dl deadlines IH]; intros H; [now exists []|].
  cbn [forallb] in H. apply andb_prop in H as [Hd Hrest].
  destruct (IH Hrest) as [more Hmore]. destruct (date_parses_ok dl Hd) as [dt Hdt].
  cbn [generate_review_sessions]. rewrite Hdt. cbn [rbind]. rewrite Hmore. cbn [rbind].
  destruct (in_1_3_7 (sub_days dt date)) eqn:E; [|cbn [andb]; eauto].
  destruct (major dl); cbn [andb]; [|eauto].
  destruct (intensity_some _ E) as [s ->]. eauto.
Qed.

Lemma review_sessions_ok date deadlines :
  forallb date_parses deadlines = true ->
  generate_review_sessions date deadlines = Ok (reviews_of date deadlines).
Proof.
  intros H. unfold reviews_of.
  destruct (review_sessions_total date deadlines H) as [sessions ->]. reflexivity.
Qed.

Lemma review_sessions_raise date deadlines :
  forallb date_parses deadlines = false ->
  generate_review_sessions date deadlines = Raise ValueError.
Proof.
  induction deadlines as [|dl deadlines IH]; intros H; [discriminate|].
  cbn [forallb] in H. cbn [generate_review_sessions].
  destruct (date_parses dl) eqn:Hd.
  - destruct (date_parses_ok dl Hd) as [dt ->]. cbn [rbind].
    rewrite (IH H). reflexivity.
  - rewrite (date_parses_raise dl Hd). reflexivity.
Qed.

Lemma daily_plan_ok {P} date wakeup sleep study_style deadlines (parsed_dates : P) :
  forallb date_parses deadlines = true ->
  generate_daily_plan date wakeup sleep study_style deadlines parsed_dates
  = Ok (sort_by_time (day_with wakeup sleep study_style deadlines date)).
Proof.
  intros H. unfold generate_daily_plan, day_with. cbv zeta.
  rewrite (review_sessions_ok date deadlines H). reflexivity.
Qed.

Lemma daily_plan_raise {P} date wakeup sleep study_style deadlines (parsed_dates : P) :
  forallb date_parses deadlines = false ->
  generate_daily_plan date wakeup sleep study_style deadlines parsed_dates
  = Raise ValueError.
Proof.
  intros H. unfold generate_daily_plan. cbv zeta.
  rewrite (review_sessions_raise date deadlines H). reflexivity.
Qed.

(** *** The loop over the days *)

Section LoopWith.
Context {P : Type} (start_date : datetime) (wakeup sleep : Z) (study_style : pyval)
  (deadlines : list Deadline) (parsed_dates : P).
Hypothesis Hparse : forallb date_parses deadlines = true.

Lemma add_days_in_range i :
  1 <= ordinal start_date + i <= MAXORDINAL ->
  add_days start_date i = Ok (day_after start_date i).
Proof.
  intros H. unfold add_days, day_after.
  replace ((1 <=? ordinal start_date + i) && (ordinal start_date + i <=? MAXORDINAL))
    with true by (symmetry; apply andb_true_intro; split; apply Z.leb_le; lia).
  reflexivity.
Qed.

Lemma not_before_start i : 0 <= i -> lt (day_after start_date i) start_date = false.
Proof.
  intros H. unfold lt, day_after. cbn [ordinal time_us].
  replace (ordinal start_date + i <? ordinal start_date) with false
    by (symmetry; apply Z.ltb_ge; lia).
  now rewrite Z.ltb_irrefl, andb_false_r.
Qed.

Lemma schedule_days_ok days schedule :
  1 <= ordinal start_date ->
  Forall (fun i => 0 <= i /\ ordinal start_date + i <= MAXORDINAL) days ->
  schedule_days start_date wakeup sleep study_style deadlines parsed_dates days schedule
  = Ok (filled_with start_date wakeup sleep study_style deadlines days schedule).
Proof using Hparse.
  intros Hstart Hdays. revert schedule.
  induction Hdays as [|i days [Hi Hmax] _ IH]; intros schedule; [reflexivity|].
  cbn [schedule_days]. rewrite add_days_in_range by lia. cbn [rbind].
  rewrite not_before_start by exact Hi.
  rewrite (daily_plan_ok _ _ _ _ _ _ Hparse). cbn [rbind]. apply IH.
Qed.

Lemma filled_with_other days schedule k :
  Forall (fun i => strftime_ymd (day_after start_date i) <> k) days ->
  filled_with start_date wakeup sleep study_style deadlines days schedule !! k
  = schedule !! k.
Proof.
  intros H. revert schedule. unfold filled_with.
  induction H as [|i days Hi _ IH]; intros schedule; [reflexivity|].
  simpl. rewrite IH. now apply lookup_insert_ne.
Qed.

Lemma filled_with_some days schedule k :
  is_Some (filled_with start_date wakeup sleep study_style deadlines days schedule !! k)
  <-> is_Some (schedule !! k)
      \/ exists i, In i days /\ k = strftime_ymd (day_after start_date i).
Proof.
  revert schedule. unfold filled_with.
  induction days as [|i days IH]; intros schedule; simpl.
  - split; [auto | intros [H | (i & [] & _)]; exact H].
  - rewrite IH. destruct (decide (strftime_ymd (day_after start_date i) = k)) as [E|E].
    + subst k. rewrite lookup_insert_eq. split; intros _; [|left; eauto].
      right. exists i. auto.
    + rewrite lookup_insert_ne by exact E.
      split; intros [H | (j & Hj & Hk)]; auto.
      * right. exists j. auto.
      * destruct Hj as [-> | Hj]; [congruence|]. right. exists j. auto.
Qed.

Lemma filled_with_step j days schedule :
  filled_with start_date wakeup sleep study_style deadlines (j :: days) schedule
  = filled_with start_date wakeup sleep study_style deadlines days
      (<[strftime_ymd (day_after start_date j) :=
           sort_by_time (day_with wakeup sleep study_style deadlines
                           (day_after start_date j))]> schedule).
Proof. reflexivity. Qed.

Lemma filled_with_in days schedule i :
  List.NoDup days ->
  Forall (fun i => 1 <= ordinal start_date + i <= MAXORDINAL) days ->
  In i days ->
  filled_with start_date wakeup sleep study_style deadlines days schedule
    !! strftime_ymd (day_after start_date i)
  = Some (sort_by_time (day_with wakeup sleep study_style deadlines
                          (day_after start_date i))).
Proof.
  intros Hnd Hr. revert schedule.
  induction Hr as [|j days Hj Hr IH]; intros schedule Hin; [destruct Hin|].
  apply List.NoDup_cons_iff in Hnd as [Hnotin Hnd].
  rewrite filled_with_step.
  destruct (in_dec Z.eq_dec i days) as [Hi | Hi]; [now apply IH|].
  destruct Hin as [-> | Hin]; [|contradiction].
  rewrite filled_with_other; [apply lookup_insert_eq|].
  rewrite List.Forall_forall in Hr |- *. intros k Hk E.
  apply key_inj in E; [congruence | now apply Hr | exact Hj].
Qed.

Lemma filled_with_size days schedule :
  List.NoDup days ->
  Forall (fun i => 1 <= ordinal start_date + i <= MAXORDINAL) days ->
  Forall (fun i => schedule !! strftime_ymd (day_after start_date i) = None) days ->
  size (filled_with start_date wakeup sleep study_style deadlines days schedule)
  = (size schedule + length days)%nat.
Proof.
  intros Hnd Hr. revert schedule.
  induction Hr as [|j days Hj Hr IH]; intros schedule Hfresh; [simpl; lia|].
  apply List.NoDup_cons_iff in Hnd as [Hnotin Hnd].
  apply List.Forall_cons_iff in Hfresh as [Hfj Hfresh].
  rewrite filled_with_step.
  rewrite IH; [rewrite map_size_insert_None by exact Hfj; simpl; lia | exact Hnd |].
  rewrite List.Forall_forall in Hr, Hfresh |- *. intros k Hk.
  rewrite lookup_insert_ne; [now apply Hfresh|].
  intros E. apply key_inj in E; [congruence | exact Hj | now apply Hr].
Qed.

(** The first day that cannot be reached ends the loop. *)
Lemma schedule_days_overflow days schedule :
  1 <= ordinal start_date ->
  Forall (fun i => 0 <= i) days ->
  Exists (fun i => MAXORDINAL < ordinal start_date + i) days ->
  schedule_days start_date wakeup sleep study_style deadlines parsed_dates days schedule
  = Raise OverflowError.
Proof using Hparse.
  intros Hstart Hdays Hex. revert schedule.
  induction Hdays as [|i days Hi Hdays IH]; intros schedule;
    [now apply List.Exists_nil in Hex|].
  cbn [schedule_days].
  destruct (Z.le_gt_cases (ordinal start_date + i) MAXORDINAL) as [Hle | Hgt].
  - rewrite add_days_in_range by lia. cbn [rbind].
    rewrite not_before_start by exact Hi.
    rewrite (daily_plan_ok _ _ _ _ _ _ Hparse). cbn [rbind].
    apply IH. apply List.Exists_cons in Hex as [Hex | Hex]; [lia | exact Hex].
  - unfold add_days.
    replace (ordinal start_date + i <=? MAXORDINAL) with false
      by (symmetry; apply Z.leb_gt; exact Hgt).
    now rewrite andb_false_r.
Qed.

End LoopWith.

(** *** What a day holds *)

Lemma count_type_all t l :
  Forall (fun a => type a = t) l -> count_type t l = length l.
Proof.
  induction 1 as [|a l Ha _ IH]; [reflexivity|].
  rewrite count_type_cons, Ha, IH. now destruct t.
Qed.

Lemma count_type_none t u l :
  Forall (fun a => type a = u) l -> type_eqb u t = false -> count_type t l = 0%nat.
Proof.
  intros H Hne. induction H as [|a l Ha _ IH]; [reflexivity|].
  now rewrite count_type_cons, Ha, Hne, IH.
Qed.

Lemma deadlines_for_date_type date deadlines :
  Forall (fun a => type a = deadline) (get_deadlines_for_date date deadlines).
Proof.
  induction deadlines as [|dl deadlines IH]; simpl; [constructor|].
  destruct (d_date dl) as [s|]; [|exact IH].
  destruct (String.eqb s _); [constructor; [reflexivity | exact IH] | exact IH].
Qed.

Lemma deadlines_for_date_length date deadlines :
  length (get_deadlines_for_date date deadlines)
  = length (List.filter (due_on (strftime_ymd date)) deadlines).
Proof.
  induction deadlines as [|dl deadlines IH]; simpl; [reflexivity|].
  unfold due_on at 1. destruct (d_date dl) as [s|]; [|exact IH].
  destruct (String.eqb s _); simpl; now rewrite IH.
Qed.

Lemma review_sessions_type date deadlines sessions :
  generate_review_sessions date deadlines = Ok sessions ->
  Forall (fun a => type a = review) sessions
  /\ (length sessions <= length (List.filter major deadlines))%nat.
Proof.
  revert sessions. induction deadlines as [|dl deadlines IH]; simpl; intros sessions H.
  - injection H as <-. split; [constructor | simpl; lia].
  - destruct (Strptime.strptime _ _) as [deadline_date|]; [|discriminate].
    simpl in H. destruct (generate_review_sessions date deadlines) as [more|];
      [|discriminate].
    simpl in H. destruct (IH more eq_refl) as [Ht Hl].
    destruct (in_1_3_7 _); simpl in H.
    + destruct (major dl); simpl in H.
      * destruct (intensity_of _); [|discriminate]. injection H as <-.
        split; [constructor; [reflexivity | exact Ht] | simpl; lia].
      * injection H as <-. split; [exact Ht | exact Hl].
    + injection H as <-. split; [exact Ht|]. destruct (major dl); simpl; lia.
Qed.

Lemma reviews_of_type date deadlines :
  Forall (fun a => type a = review) (reviews_of date deadlines)
  /\ (length (reviews_of date deadlines) <= length (List.filter major deadlines))%nat.
Proof.
  unfold reviews_of.
  destruct (generate_review_sessions date deadlines) as [sessions|] eqn:E.
  - now apply review_sessions_type in E.
  - split; [constructor | simpl; lia].
Qed.

Ltac in_day path :=
  apply has_sort; eexists;
  split; [unfold day_with; simpl; path | repeat split; reflexivity].

Ltac past_sessions path := right; right; apply in_or_app; right; path.
Ltac past_deadlines path :=
  past_sessions ltac:(right; right; apply in_or_app; right; apply in_or_app; right; path).

Lemma day_with_fixed wakeup sleep study_style deadlines date :
  fixed_activities wakeup sleep (weekday date)
    (sort_by_time (day_with wakeup sleep study_style deadlines date)).
Proof.
  pose proof (study_sessions_cases wakeup sleep study_style (weekday date)) as [_ Hlen].
  pose proof (count_study_sessions wakeup sleep study_style (weekday date)) as [Hst Hwl].
  pose proof (deadlines_for_date_type date deadlines) as Hd.
  pose proof (reviews_of_type date deadlines) as [Hr _].
  cbv zeta in *.
  unfold fixed_activities.
  rewrite (Permutation_length (sort_by_time_perm _)), !count_type_sort.
  split; [|split; [|split; [|split; [|split; [|split; [|split; [|split]]]]]]].
  - unfold day_with. rewrite !List.length_app. simpl. lia.
  - in_day ltac:(left; reflexivity).
  - in_day ltac:(right; left; reflexivity).
  - unfold day_with. rewrite !count_type_app, Hst.
    rewrite (count_type_none study deadline _ Hd eq_refl).
    rewrite (count_type_none study review _ Hr eq_refl).
    destruct (weekday date <? 5); simpl; lia.
  - in_day ltac:(past_sessions ltac:(left; reflexivity)).
  - in_day ltac:(past_sessions ltac:(right; left; reflexivity)).
  - in_day ltac:(past_deadlines ltac:(apply in_or_app; right; left; reflexivity)).
  - unfold day_with. rewrite !count_type_app, Hwl.
    rewrite (count_type_none wellness deadline _ Hd eq_refl).
    rewrite (count_type_none wellness review _ Hr eq_refl).
    destruct (weekday date <? 5); reflexivity.
  - intros Hw. apply Z.ltb_lt in Hw.
    apply has_sort; eexists.
    split; [unfold day_with; rewrite Hw; simpl;
            past_deadlines ltac:(left; reflexivity)
           | repeat split; reflexivity].
Qed.

Lemma day_with_deadlines wakeup sleep study_style deadlines date :
  count_type deadline (sort_by_time (day_with wakeup sleep study_style deadlines date))
  = length (List.filter (due_on (strftime_ymd date)) deadlines).
Proof.
  pose proof (study_sessions_cases wakeup sleep study_style (weekday date)) as [Hs _].
  pose proof (deadlines_for_date_type date deadlines) as Hd.
  pose proof (reviews_of_type date deadlines) as [Hr _].
  cbv zeta in Hs.
  rewrite count_type_sort. unfold day_with. rewrite !count_type_app.
  rewrite (count_type_none deadline study (generate_study_sessions _ _ _ _)); [|
    eapply List.Forall_impl; [|exact Hs]; now intros a [Ha _] | reflexivity].
  rewrite (count_type_all deadline _ Hd), deadlines_for_date_length.
  rewrite (count_type_none deadline review _ Hr eq_refl).
  destruct (weekday date <? 5); unfold count_type; simpl; lia.
Qed.

Lemma day_with_reviews wakeup sleep study_style deadlines date :
  (count_type review (sort_by_time (day_with wakeup sleep study_style deadlines date))
   <= length (List.filter major deadlines))%nat.
Proof.
  pose proof (study_sessions_cases wakeup sleep study_style (weekday date)) as [Hs _].
  pose proof (deadlines_for_date_type date deadlines) as Hd.
  pose proof (reviews_of_type date deadlines) as [Hr Hl].
  cbv zeta in Hs.
  rewrite count_type_sort. unfold day_with. rewrite !count_type_app.
  rewrite (count_type_none review study (generate_study_sessions _ _ _ _)); [|
    eapply List.Forall_impl; [|exact Hs]; now intros a [Ha _] | reflexivity].
  rewrite (count_type_none review deadline _ Hd eq_refl).
  rewrite (count_type_all review _ Hr).
  destruct (weekday date <? 5); unfold count_type; simpl; lia.
Qed.

(** *** [create_schedule] with deadlines *)

Lemma create_schedule_filled {P : Type} (today : datetime) (parsed_dates : P)
    (user_data : gmap string pyval) (wakeup sleep : Z) (deadlines : list Deadline) :
  1 <= ordinal today ->
  ordinal today + 119 <= MAXORDINAL ->
  py_int (default (PyInt 8) (user_data !! "wakeup")) = Ok wakeup ->
  py_int (default (PyInt 23) (user_data !! "sleep")) = Ok sleep ->
  as_deadlines (default (PyDeadlines []) (user_data !! "deadlines")) = Ok deadlines ->
  forallb date_parses deadlines = true ->
  create_schedule today parsed_dates user_data
  = Ok (filled_with today wakeup sleep
          (default (PyStr "pomodoro") (user_data !! "study_style"))
          deadlines (range 120) ∅).
Proof.
  intros Hord Hmax Hw Hs Hd Hparse.
  unfold create_schedule. rewrite Hw, Hs, Hd. unfold rbind at 1 2 3. cbv beta iota zeta.
  apply schedule_days_ok; [exact Hparse | lia |].
  apply List.Forall_forall. intros i Hi. apply range_spec in Hi. lia.
Qed.

Lemma range_120_reached today :
  1 <= ordinal today -> ordinal today + 119 <= MAXORDINAL ->
  Forall (fun i => 1 <= ordinal today + i <= MAXORDINAL) (range 120).
Proof.
  intros Hord Hmax. apply List.Forall_forall. intros i Hi. apply range_spec in Hi. lia.
Qed.

(** With deadlines whose dates all read as days of the calendar, and today
    in a year of four digits, [create_schedule] returns a schedule of 120
    days from today on.  Each
    day holds the fixed activities, in the order of the time texts, one
    activity of type [deadline] for every deadline whose date is exactly
    the text of that day, and at most one review per exam or project. *)
Theorem create_schedule_with_deadlines {P : Type} (today : datetime)
    (parsed_dates : P) (user_data : gmap string pyval) (wakeup sleep : Z)
    (deadlines : list Deadline) :
  valid today ->
  1000 <= year today ->
  ordinal today + 119 <= MAXORDINAL ->
  py_int (default (PyInt 8) (user_data !! "wakeup")) = Ok wakeup ->
  py_int (default (PyInt 23) (user_data !! "sleep")) = Ok sleep ->
  as_deadlines (default (PyDeadlines []) (user_data !! "deadlines")) = Ok deadlines ->
  forallb date_parses deadlines = true ->
  exists schedule,
    create_schedule today parsed_dates user_data = Ok schedule
    /\ size schedule = 120%nat
    /\ (forall date, is_Some (schedule !! date)
                     <-> exists i, 0 <= i < 120 /\ date = strftime_ymd (day_after today i))
    /\ (forall i, 0 <= i < 120 ->
          exists plan,
            schedule !! strftime_ymd (day_after today i) = Some plan
            /\ fixed_activities wakeup sleep (weekday (day_after today i)) plan
            /\ in_time_order plan
            /\ count_type deadline plan
               = length (List.filter (due_on (strftime_ymd (day_after today i))) deadlines)
            /\ (count_type review plan <= length (List.filter major deadlines))%nat).
Proof.
  intros [Hord _] _ Hmax Hw Hs Hd Hparse.
  assert (Hrange : Forall (fun i => 1 <= ordinal today + i <= MAXORDINAL) (range 120)).
  { apply List.Forall_forall. intros i Hi. apply range_spec in Hi. lia. }
  eexists. split; [|split; [|split]].
  - unfold create_schedule. rewrite Hw, Hs, Hd. unfold rbind. cbv beta iota.
    apply schedule_days_ok; [exact Hparse | lia |].
    apply List.Forall_forall. intros i Hi. apply range_spec in Hi. lia.
  - rewrite filled_with_size; [reflexivity | apply range_NoDup | exact Hrange |].
    apply List.Forall_forall. intros i _. apply lookup_empty.
  - intros date. rewrite filled_with_some, lookup_empty. split.
    + intros [[x Hx] | (i & Hi & ->)]; [discriminate|].
      exists i. apply range_spec in Hi. split; [lia | reflexivity].
    + intros (i & Hi & ->). right. exists i. split; [apply range_spec; lia | reflexivity].
  - intros i Hi. eexists. split; [|split; [|split; [|split]]].
    + apply filled_with_in; [apply range_NoDup | exact Hrange | apply range_spec; lia].
    + apply day_with_fixed.
    + apply sort_by_time_order.
    + apply day_with_deadlines.
    + apply day_with_reviews.
Qed.

Lemma create_schedule_with_deadlines_witness :
  exists schedule,
    create_schedule Examples.today0 tt Examples.with_project = Ok schedule
    /\ size schedule = 120%nat
    /\ (forall date, is_Some (schedule !! date)
                     <-> exists i, 0 <= i < 120
                                   /\ date = strftime_ymd (day_after Examples.today0 i))
    /\ (forall i, 0 <= i < 120 ->
          exists plan,
            schedule !! strftime_ymd (day_after Examples.today0 i) = Some plan
            /\ fixed_activities 8 23 (weekday (day_after Examples.today0 i)) plan
            /\ in_time_order plan
            /\ count_type deadline plan
               = length (List.filter
                           (due_on (strftime_ymd (day_after Examples.today0 i)))
                           [Examples.project_in_3_days])
            /\ (count_type review plan
                <= length (List.filter major [Examples.project_in_3_days]))%nat).
Proof.
  apply (create_schedule_with_deadlines Examples.today0 tt Examples.with_project 8 23
           [Examples.project_in_3_days]).
  - unfold valid. simpl. unfold MAXORDINAL, US_PER_DAY. lia.
  - vm_compute. discriminate.
  - simpl. unfold MAXORDINAL. lia.
  - reflexivity.
  - reflexivity.
  - reflexivity.
  - vm_compute. reflexivity.
Defined.

(** *** Errors of [create_schedule] *)

Lemma missing_date_does_not_parse dl : d_date dl = None -> date_parses dl = false.
Proof. unfold date_parses. intros ->. vm_compute. reflexivity. Qed.

Lemma some_date_does_not_parse deadlines dl :
  In dl deadlines -> date_parses dl = false -> forallb date_parses deadlines = false.
Proof.
  intros Hin Hd. destruct (forallb date_parses deadlines) eqn:E; [|reflexivity].
  rewrite List.forallb_forall in E. rewrite (E dl Hin) in Hd. discriminate.
Qed.

Lemma create_schedule_unreadable_deadline_aux {P : Type} (today : datetime)
    (parsed_dates : P) (user_data : gmap string pyval) (wakeup sleep : Z)
    (deadlines : list Deadline) (dl : Deadline) :
  1 <= ordinal today <= MAXORDINAL ->
  py_int (default (PyInt 8) (user_data !! "wakeup")) = Ok wakeup ->
  py_int (default (PyInt 23) (user_data !! "sleep")) = Ok sleep ->
  as_deadlines (default (PyDeadlines []) (user_data !! "deadlines")) = Ok deadlines ->
  In dl deadlines ->
  date_parses dl = false ->
  create_schedule today parsed_dates user_data = Raise ValueError.
Proof.
  intros Hord Hw Hs Hd Hin Hdl.
  pose proof (some_date_does_not_parse deadlines dl Hin Hdl) as Hparse.
  unfold create_schedule. rewrite Hw, Hs, Hd. unfold rbind at 1 2 3. cbv beta iota.
  assert (Hr : range 120 = 0 :: map Z.of_nat (seq 1 119)) by reflexivity.
  rewrite Hr. generalize (map Z.of_nat (seq 1 119)). intros days.
  cbn [schedule_days]. rewrite add_days_in_range by lia. cbn [rbind].
  rewrite not_before_start by lia.
  rewrite (daily_plan_raise _ _ _ _ _ _ Hparse). reflexivity.
Qed.

(** One deadline whose date [strptime] does not read with ['%Y-%m-%d'] (no
    date at all, say) makes [create_schedule] raise [ValueError], whatever
    the type of the deadline and however far away it is. *)
Theorem create_schedule_unreadable_deadline {P : Type} (today : datetime)
    (parsed_dates : P) (user_data : gmap string pyval) (wakeup sleep : Z)
    (deadlines : list Deadline) (dl : Deadline) :
  1 <= ordinal today <= MAXORDINAL ->
  py_int (default (PyInt 8) (user_data !! "wakeup")) = Ok wakeup ->
  py_int (default (PyInt 23) (user_data !! "sleep")) = Ok sleep ->
  as_deadlines (default (PyDeadlines []) (user_data !! "deadlines")) = Ok deadlines ->
  In dl deadlines ->
  date_parses dl = false ->
  create_schedule today parsed_dates user_data = Raise ValueError.
Proof. apply create_schedule_unreadable_deadline_aux. Qed.

Lemma create_schedule_unreadable_deadline_witness :
  create_schedule Examples.today0 tt
    (<["deadlines" := PyDeadlines
         [mk_deadline None (Some "quiz") (Some "Quiz 5") None None None]]> ∅)
  = Raise ValueError.
Proof.
  apply (create_schedule_unreadable_deadline Examples.today0 tt _ 8 23
           [mk_deadline None (Some "quiz") (Some "Quiz 5") None None None]
           (mk_deadline None (Some "quiz") (Some "Quiz 5") None None None)).
  - simpl. unfold MAXORDINAL. lia.
  - reflexivity.
  - reflexivity.
  - reflexivity.
  - left. reflexivity.
  - vm_compute. reflexivity.
Defined.

(** Less than 120 days before the last day of the calendar (31 December
    9999) the loop runs past it, and [create_schedule] raises
    [OverflowError] instead of returning the days that are left. *)
Theorem create_schedule_past_the_last_day {P : Type} (today : datetime)
    (parsed_dates : P) (user_data : gmap string pyval) (wakeup sleep : Z)
    (deadlines : list Deadline) :
  1 <= ordinal today ->
  MAXORDINAL < ordinal today + 119 ->
  py_int (default (PyInt 8) (user_data !! "wakeup")) = Ok wakeup ->
  py_int (default (PyInt 23) (user_data !! "sleep")) = Ok sleep ->
  as_deadlines (default (PyDeadlines []) (user_data !! "deadlines")) = Ok deadlines ->
  forallb date_parses deadlines = true ->
  create_schedule today parsed_dates user_data = Raise OverflowError.
Proof.
  intros Hord Hmax Hw Hs Hd Hparse.
  unfold create_schedule. rewrite Hw, Hs, Hd. unfold rbind at 1 2 3. cbv beta iota.
  apply schedule_days_overflow; [exact Hparse | exact Hord | |].
  - apply List.Forall_forall. intros i Hi. apply range_spec in Hi. lia.
  - apply List.Exists_exists. exists 119. split; [apply range_spec; lia | lia].
Qed.

Lemma create_schedule_past_the_last_day_witness :
  create_schedule (mk_datetime 3652000 0) tt Examples.no_preferences = Raise OverflowError.
Proof.
  apply (create_schedule_past_the_last_day (mk_datetime 3652000 0) tt
           Examples.no_preferences 8 23 []).
  - simpl. lia.
  - simpl. unfold MAXORDINAL. lia.
  - reflexivity.
  - reflexivity.
  - reflexivity.
  - reflexivity.
Defined.

(** *** What the schedule does not depend on *)

Lemma schedule_days_ignores {P Q} start_date wakeup sleep study_style deadlines
    (parsed_dates : P) (parsed_dates' : Q) days : forall schedule,
  schedule_days start_date wakeup sleep study_style deadlines parsed_dates days schedule
  = schedule_days start_date wakeup sleep study_style deadlines parsed_dates' days schedule.
Proof.
  induction days as [|i days IH]; intros schedule; [reflexivity|].
  cbn [schedule_days]. destruct (add_days start_date i) as [current_day|]; [|reflexivity].
  cbn [rbind]. destruct (lt current_day start_date); [apply IH|].
  change (generate_daily_plan current_day wakeup sleep study_style deadlines parsed_dates)
    with (generate_daily_plan current_day wakeup sleep study_style deadlines parsed_dates').
  destruct (generate_daily_plan _ _ _ _ _ _); [|reflexivity]. cbn [rbind]. apply IH.
Qed.

(** The schedule depends neither on the dates parsed from the uploaded file
    nor on the e-mail address nor on any key of the preferences but
    [wakeup], [sleep], [study_style] and [deadlines]. *)
Theorem schedule_ignores_the_parsed_dates {P Q : Type} (today : datetime)
    (parsed_dates : P) (parsed_dates' : Q) (user_data : gmap string pyval)
    (key : string) (v : pyval) :
  create_schedule today parsed_dates user_data
  = create_schedule today parsed_dates' user_data
  /\ (~ In key ["wakeup"; "sleep"; "study_style"; "deadlines"] ->
      create_schedule today parsed_dates (<[key := v]> user_data)
      = create_schedule today parsed_dates user_data).
Proof.
  split.
  - unfold create_schedule. generalize (range 120). intros days.
    destruct (py_int _) as [wakeup|]; [|reflexivity]. cbn [rbind].
    destruct (py_int _) as [sleep|]; [|reflexivity]. cbn [rbind].
    destruct (as_deadlines _) as [deadlines|]; [|reflexivity]. cbn [rbind].
    apply schedule_days_ignores.
  - intros Hkey. unfold create_schedule.
    rewrite !lookup_insert_ne by (intros ->; apply Hkey; cbn; tauto).
    reflexivity.
Qed.

(** *** Dates that are read but not shown *)

Lemma key_length today i :
  1 <= ordinal today + i <= MAXORDINAL ->
  String.length (strftime_ymd (day_after today i)) = 10%nat.
Proof.
  intros H. unfold strftime_ymd, day_after. cbn [ordinal].
  pose proof (ord2ymd_ok (ordinal today + i) H) as Hok.
  destruct (_ord2ymd (ordinal today + i)) as [[y m] d].
  apply iso_length. unfold valid_ymd. lia.
Qed.

(** [strptime] reads a date such as 2024-3-15, so its reviews are planned,
    but a deadline is shown on a day only when its date is the very text
    of the day, ten characters long: a schedule made for one deadline
    whose date has another length shows no deadline at all. *)
Theorem unpadded_date_is_never_shown {P : Type} (today : datetime)
    (parsed_dates : P) (user_data : gmap string pyval) (wakeup sleep : Z)
    (dl : Deadline) (date_text : string) :
  valid today ->
  1000 <= year today ->
  ordinal today + 119 <= MAXORDINAL ->
  py_int (default (PyInt 8) (user_data !! "wakeup")) = Ok wakeup ->
  py_int (default (PyInt 23) (user_data !! "sleep")) = Ok sleep ->
  as_deadlines (default (PyDeadlines []) (user_data !! "deadlines")) = Ok [dl] ->
  d_date dl = Some date_text ->
  date_parses dl = true ->
  String.length date_text <> 10%nat ->
  exists schedule,
    create_schedule today parsed_dates user_data = Ok schedule
    /\ size schedule = 120%nat
    /\ forall date_str plan,
         schedule !! date_str = Some plan -> count_type deadline plan = 0%nat.
Proof.
  intros [Hord _] _ Hmax Hw Hs Hd Hdate Hp Hlen.
  assert (Hparse : forallb date_parses [dl] = true) by (cbn; now rewrite Hp).
  pose proof (range_120_reached today ltac:(lia) Hmax) as Hrange.
  eexists. split; [|split].
  - apply (create_schedule_filled today parsed_dates user_data wakeup sleep [dl]);
      try assumption; lia.
  - rewrite filled_with_size; [reflexivity | apply range_NoDup | exact Hrange |].
    apply List.Forall_forall. intros i _. apply lookup_empty.
  - intros date_str plan Hplan.
    assert (Hs' : is_Some (filled_with today wakeup sleep
                             (default (PyStr "pomodoro") (user_data !! "study_style"))
                             [dl] (range 120) ∅ !! date_str)) by (rewrite Hplan; eauto).
    apply filled_with_some in Hs' as [[x Hx] | (i & Hi & ->)];
      [rewrite lookup_empty in Hx; discriminate|].
    rewrite filled_with_in in Hplan; [|apply range_NoDup | exact Hrange | exact Hi].
    assert (E : plan = sort_by_time
                         (day_with wakeup sleep
                            (default (PyStr "pomodoro") (user_data !! "study_style"))
                            [dl] (day_after today i))) by congruence.
    rewrite E, day_with_deadlines. cbn [List.filter]. unfold due_on. rewrite Hdate.
    destruct (String.eqb_spec date_text (strftime_ymd (day_after today i))) as [E' | _];
      [|reflexivity].
    exfalso. apply Hlen. rewrite E'. apply key_length.
    rewrite List.Forall_forall in Hrange. now apply Hrange.
Qed.

Lemma unpadded_date_is_never_shown_witness :
  exists schedule,
    create_schedule Examples.today0 tt
      (<["deadlines" := PyDeadlines
           [mk_deadline (Some "2024-3-15") (Some "exam") (Some "Midterm") None None None]]>
         ∅)
    = Ok schedule
    /\ size schedule = 120%nat
    /\ forall date_str plan,
         schedule !! date_str = Some plan -> count_type deadline plan = 0%nat.
Proof.
  apply (unpadded_date_is_never_shown Examples.today0 tt _ 8 23
           (mk_deadline (Some "2024-3-15") (Some "exam") (Some "Midterm") None None None)
           "2024-3-15").
  - unfold valid. simpl. unfold MAXORDINAL, US_PER_DAY. lia.
  - vm_compute. discriminate.
  - simpl. unfold MAXORDINAL. lia.
  - reflexivity.
  - reflexivity.
  - reflexivity.
  - reflexivity.
  - vm_compute. reflexivity.
  - simpl. lia.
Defined.

(** *** The days of the reviews *)

Lemma strptime_midnight text fmt dt : Strptime.strptime text fmt = Ok dt -> time_us dt = 0.
Proof.
  destruct (strptime_cases text fmt)
    as [(cs & y & m & d & dt' & _ & _ & _ & Hd & Hs) | [Hs _]]; rewrite Hs; [|discriminate].
  intros [= <-]. unfold make_date in Hd. destruct (_ && _); [|discriminate].
  now injection Hd as <-.
Qed.

Lemma intensity_in_1_3_7 k : intensity_of k = None <-> in_1_3_7 k = false.
Proof.
  unfold in_1_3_7, intensity_of.
  destruct (k =? 1); [split; discriminate|]. destruct (k =? 3); [split; discriminate|].
  destruct (k =? 7); split; try discriminate; reflexivity.
Qed.

(** The day of a review is counted from the clock: [create_schedule] runs
    with the time of day of [datetime.today()], and for a day with a time
    after midnight the number of days until a deadline is one less than the
    number of calendar days.  Past midnight an exam or a project is
    reviewed 2, 4 and 8 calendar days before its date, and 1, 3 and 7 days
    before it only at midnight sharp. *)
Theorem reviews_follow_the_clock (date deadline_date : datetime) (dl : Deadline) :
  Strptime.strptime (default "" (d_date dl)) "%Y-%m-%d" = Ok deadline_date ->
  major dl = true ->
  0 <= time_us date < US_PER_DAY ->
  generate_review_sessions date [dl]
  = Ok (let calendar_days := ordinal deadline_date - ordinal date in
        let days_until := if time_us date =? 0 then calendar_days else calendar_days - 1 in
        if in_1_3_7 days_until
        then [review_activity days_until (default "" (intensity_of days_until)) dl]
        else []).
Proof.
  intros Hs Hm Ht. rewrite (review_sessions_single date dl deadline_date Hs). cbv zeta.
  rewrite (sub_days_of_midnight deadline_date date (strptime_midnight _ _ _ Hs) Ht).
  rewrite Hm.
  replace (ordinal deadline_date - ordinal date - (if time_us date =? 0 then 0 else 1))
    with (if time_us date =? 0 then ordinal deadline_date - ordinal date
          else ordinal deadline_date - ordinal date - 1)
    by (destruct (time_us date =? 0); lia).
  set (k := if time_us date =? 0 then _ else _).
  destruct (intensity_of k) as [intensity|] eqn:E.
  - destruct (in_1_3_7 k) eqn:E'; [reflexivity|].
    apply intensity_in_1_3_7 in E'. congruence.
  - apply intensity_in_1_3_7 in E. now rewrite E.
Qed.

Lemma reviews_follow_the_clock_witness :
  generate_review_sessions Examples.today0 [Examples.project_in_3_days]
  = Ok (let calendar_days := ordinal (mk_datetime 738960 0) - ordinal Examples.today0 in
        let days_until :=
          if time_us Examples.today0 =? 0 then calendar_days else calendar_days - 1 in
        if in_1_3_7 days_until
        then [review_activity days_until (default "" (intensity_of days_until))
                Examples.project_in_3_days]
        else []).
Proof.
  apply (reviews_follow_the_clock Examples.today0 (mk_datetime 738960 0)
           Examples.project_in_3_days).
  - vm_compute. reflexivity.
  - reflexivity.
  - simpl. unfold US_PER_DAY. lia.
Defined.

End PlanFacts.

(** ** Canonical dates read back *)

Module IsoFacts.
Import Datetime Calendar CalendarFacts Re ReSpec ReFacts Parser ParserSpec ParserFacts
  YearlessFacts DatesSpec IsoSpec.

Lemma star_matches_frame greedy p cs s : forall pv,
  star_matches greedy p pv s cs = map (behind cs) (star_matches greedy p pv s []).
Proof.
  induction s as [|c s IH]; intros pv; cbn [star_matches]; [reflexivity|].
  destruct (p c); [|reflexivity].
  destruct greedy; rewrite IH.
  - now rewrite map_app.
  - reflexivity.
Qed.

Lemma matches_frame r : forall pv s cs,
  matches r (mk_mstate pv s cs) = map (behind cs) (matches r (mk_mstate pv s [])).
Proof.
  induction r as [|p|r1 IH1 r2 IH2|r1 IH1 r2 IH2|greedy p| | |name r1 IH1];
    intros pv s cs; cbn [matches rest prev caps].
  - reflexivity.
  - destruct s as [|c s]; [reflexivity|]. destruct (p c); reflexivity.
  - rewrite IH1, flat_map_map, map_flat_map.
    apply flat_map_ext. intros [pv' s' cs']. unfold behind at 1. cbn [prev rest caps].
    rewrite (IH2 pv' s' (cs' ++ cs)), (IH2 pv' s' cs'), map_map.
    apply map_ext. intros [pv2 s2 cs2]. unfold behind. cbn [prev rest caps].
    now rewrite app_assoc.
  - now rewrite IH1, IH2, map_app.
  - apply star_matches_frame.
  - destruct pv; reflexivity.
  - destruct (xorb _ _); reflexivity.
  - rewrite IH1, !map_map. apply map_ext. intros [pv' s' cs']. reflexivity.
Qed.

Lemma shape_iso_format :
  pattern_of "%Y-%m-%d" = Seq (Group "Y" (rep4 Py.is_digit)) after_year.
Proof. reflexivity. Qed.

Lemma year_group a b c e tail :
  Py.is_digit a = true -> Py.is_digit b = true -> Py.is_digit c = true ->
  Py.is_digit e = true ->
  matches (Group "Y" (rep4 Py.is_digit))
    (init (String a (String b (String c (String e tail)))))
  = [mk_mstate (Some e) tail [("Y", String a (String b (String c (String e ""))))]].
Proof.
  intros Ha Hb Hc He. unfold rep4, seqs, init.
  repeat re_step. rewrite Ha. repeat re_step. rewrite Hb. repeat re_step.
  rewrite Hc. repeat re_step. rewrite He. cbn [map].
  rewrite (consumed_split _ _ (String a (String b (String c (String e ""))))); reflexivity.
Qed.

Lemma digits10_complete c : Py.is_digit c = true -> In c digits10.
Proof.
  intros H.
  assert (Hall : forallb (fun c => implb (Py.is_digit c)
                                     (existsb (Ascii.eqb c) digits10)) all_ascii = true)
    by (vm_compute; reflexivity).
  rewrite List.forallb_forall in Hall. specialize (Hall c (all_ascii_complete c)).
  rewrite H in Hall. cbn [implb] in Hall.
  apply List.existsb_exists in Hall as (x & Hx & E).
  apply Ascii.eqb_eq in E. now subst.
Qed.

Lemma month_day_texts :
  forallb (fun e =>
    forallb (fun m =>
      forallb (fun d => month_day_text_ok e (Z.of_nat m) (Z.of_nat d)) (seq 1 31))
      (seq 1 12))
    digits10 = true.
Proof. vm_compute. reflexivity. Qed.

Lemma month_day_text e m d :
  Py.is_digit e = true -> 1 <= m <= 12 -> 1 <= d <= 31 ->
  month_day_text_ok e m d = true.
Proof.
  intros He Hm Hd. pose proof month_day_texts as H.
  rewrite List.forallb_forall in H. specialize (H e (digits10_complete e He)).
  rewrite List.forallb_forall in H.
  assert (Hm' : In (Z.to_nat m) (seq 1 12)) by (apply in_seq; lia).
  specialize (H _ Hm'). rewrite List.forallb_forall in H.
  assert (Hd' : In (Z.to_nat d) (seq 1 31)) by (apply in_seq; lia).
  specialize (H _ Hd'). now rewrite !Z2Nat.id in H by lia.
Qed.

Lemma caps_eqb_eq a : forall b, caps_eqb a b = true -> a = b.
Proof.
  induction a as [|[k v] a IH]; intros [|[k' v'] b]; simpl; try discriminate;
    [reflexivity|].
  intros H. apply andb_prop in H as [H Hab]. apply andb_prop in H as [Hk Hv].
  apply String.eqb_eq in Hk, Hv. subst. f_equal. now apply IH.
Qed.

Lemma reads_as_eq text z : reads_as text z = true -> Py.int_of_str text = Ok z.
Proof.
  unfold reads_as. destruct (Py.int_of_str text); [|discriminate].
  intros H. apply Z.eqb_eq in H. now subst.
Qed.

Lemma year_shape y :
  1000 <= y <= 9999 ->
  exists a b c e,
    Py.format_0d 4 y = String a (String b (String c (String e "")))
    /\ Py.is_digit a = true /\ Py.is_digit b = true /\ Py.is_digit c = true
    /\ Py.is_digit e = true
    /\ Py.int_of_str (Py.format_0d 4 y) = Ok y.
Proof.
  intros Hy. pose proof (year_text_ok_all y Hy) as Hok. unfold year_text_ok in Hok.
  unfold Py.format_0d. replace (y <? 0) with false by (symmetry; apply Z.ltb_ge; lia).
  destruct (Py.str_of_int y) as [|a [|b [|c [|e [|? ?]]]]]; try discriminate.
  do 4 (apply andb_prop in Hok as [Hok ?]).
  exists a, b, c, e. cbn [String.length Nat.sub Py.zeros]. rewrite append_nil_l.
  repeat split; try assumption.
  destruct (Py.int_of_str _) as [z|]; [|discriminate].
  match goal with H : (z =? y) = true |- _ => apply Z.eqb_eq in H; now subst end.
Qed.

(** [strptime] with ['%Y-%m-%d'] reads a date written that way. *)
Lemma strptime_iso y m d :
  1000 <= y <= 9999 -> 1 <= m <= 12 -> 1 <= d <= 31 ->
  Strptime.strptime (iso y m d) "%Y-%m-%d" = make_date y m d.
Proof.
  intros Hy Hm Hd.
  destruct (year_shape y Hy) as (a & b & c & e & Ey & Ha & Hb & Hc & He & Hint).
  pose proof (month_day_text e m d He Hm Hd) as Hok. unfold month_day_text_ok in Hok.
  cbv zeta in Hok.
  destruct (match_at after_year _) as [st|] eqn:Est; [|discriminate].
  apply andb_prop in Hok as [Hok Hdd]. apply andb_prop in Hok as [Hok Hmm].
  apply andb_prop in Hok as [Hend Hcaps].
  apply caps_eqb_eq in Hcaps. apply reads_as_eq in Hmm, Hdd.
  unfold at_end in Hend. destruct st as [pv' s' cs']. cbn [rest caps] in *.
  destruct s'; [|discriminate]. subst cs'.
  unfold Strptime.strptime, Strptime.parse.
  change (Strptime.pattern "%Y-%m-%d") with (Some (pattern_of "%Y-%m-%d")).
  rewrite shape_iso_format. unfold match_at, iso. rewrite Ey, !append_cons, append_nil_l.
  rewrite matches_seq, year_group by assumption. rewrite flat_map_one, matches_frame.
  unfold match_at in Est.
  change (String "-" (Py.format_0d 2 m +:+ "-" +:+ Py.format_0d 2 d))
    with ("-" +:+ Py.format_0d 2 m +:+ "-" +:+ Py.format_0d 2 d).
  destruct (matches after_year _) as [|st l]; [discriminate|].
  injection Est as ->. cbn [map head behind rest caps prev app rbind].
  rewrite <- Ey.
  change (Strptime.fields
            [("d", Py.format_0d 2 d); ("m", Py.format_0d 2 m); ("Y", Py.format_0d 4 y)])
    with (let* year := Py.int_of_str (Py.format_0d 4 y) in
          let* month := Py.int_of_str (Py.format_0d 2 m) in
          let* day := Py.int_of_str (Py.format_0d 2 d) in
          Ok (year, month, day)).
  rewrite Hint, Hmm, Hdd. reflexivity.
Qed.

Lemma no_month_first_digits fmt a b c tail :
  In fmt ["%m/%d/%Y"; "%m-%d-%Y"] -> In a digits10 -> In b digits10 -> In c digits10 ->
  no_month_first fmt a b c tail = true.
Proof.
  intros Hf Ha Hb Hc. unfold digits10 in *.
  repeat match goal with
         | H : In _ (_ :: _) |- _ => destruct H as [<- | H]
         | H : In _ [] |- _ => destruct H
         end; vm_compute; reflexivity.
Qed.

Lemma iso_not_month_first fmt y m d :
  In fmt ["%m/%d/%Y"; "%m-%d-%Y"] -> 1000 <= y <= 9999 -> ~ in_format fmt (iso y m d).
Proof.
  intros Hf Hy (st & Hin & _).
  destruct (year_shape y Hy) as (a & b & c & e & Ey & Ha & Hb & Hc & _).
  unfold iso in Hin. rewrite Ey, !append_cons in Hin.
  pose proof (no_month_first_digits fmt a b c
                (String e ("" +:+ "-" +:+ Py.format_0d 2 m +:+ "-" +:+ Py.format_0d 2 d))
                Hf (digits10_complete a Ha) (digits10_complete b Hb)
                (digits10_complete c Hc)) as H.
  unfold no_month_first in H. destruct (matches _ _); [destruct Hin | discriminate].
Qed.

Lemma iso_reads_back y m d :
  1000 <= y -> valid_ymd y m d ->
  Strptime.strptime (iso y m d) "%Y-%m-%d" = Ok (mk_datetime (_ymd2ord y m d) 0).
Proof.
  intros Hy (Hy' & Hm & Hd).
  assert (Hd31 : 1 <= d <= 31).
  { pose proof (days_in_month_le y m). lia. }
  rewrite strptime_iso by lia. unfold make_date.
  replace (_ && _) with true; [reflexivity|].
  symmetry. repeat (apply andb_true_intro; split); apply Z.leb_le; lia.
Qed.

(** A date of the calendar written YYYY-MM-DD, with a year of four digits,
    is read back by [strptime] with ['%Y-%m-%d'] as that day, and
    [validate_and_format_date] returns it unchanged. *)
Theorem canonical_date_reads_back (now : datetime) (y m d : Z) :
  1000 <= y -> valid_ymd y m d ->
  Strptime.strptime (iso y m d) "%Y-%m-%d" = Ok (mk_datetime (_ymd2ord y m d) 0)
  /\ validate_and_format_date now (iso y m d) = Ok (Some (iso y m d)).
Proof.
  intros Hy Hv. pose proof (iso_reads_back y m d Hy Hv) as Hs.
  destruct Hv as (Hy' & Hm & Hd).
  assert (Hv : valid_ymd y m d) by (unfold valid_ymd; lia).
  split; [exact Hs|].
  unfold validate_and_format_date, date_formats. cbn [try_formats].
  rewrite (attempt_year_format now "%m/%d/%Y");
    [|cbn; tauto | apply iso_not_month_first; [cbn; tauto | lia]].
  rewrite (attempt_year_format now "%m-%d-%Y");
    [|cbn; tauto | apply iso_not_month_first; [cbn; tauto | lia]].
  change (attempt now (iso y m d) "%Y-%m-%d")
    with (Strptime.strptime (iso y m d) "%Y-%m-%d").
  rewrite Hs. do 2 f_equal.
  unfold strftime_ymd. cbn [ordinal].
  rewrite ord2ymd_ymd2ord by exact Hv. reflexivity.
Qed.

Lemma canonical_date_reads_back_witness :
  Strptime.strptime (iso 2024 3 15) "%Y-%m-%d" = Ok (mk_datetime (_ymd2ord 2024 3 15) 0)
  /\ validate_and_format_date Examples.now0 (iso 2024 3 15) = Ok (Some (iso 2024 3 15)).
Proof.
  apply (canonical_date_reads_back Examples.now0 2024 3 15).
  - lia.
  - unfold valid_ymd. change (_days_in_month 2024 3) with 31. lia.
Defined.

End IsoFacts.

(** ** The weekly summary *)

Module SummaryFacts.
Import Datetime Calendar CalendarFacts Scheduler SchedulerSpec SchedulerFacts PlanSpec
  PlanFacts Summary SummarySpec.

Lemma seq_offset a n : forall b, seq (a + b) n = map (Nat.add a) (seq b n).
Proof.
  induction n as [|n IH]; intros b; [reflexivity|].
  simpl. f_equal. rewrite <- IH. f_equal. lia.
Qed.

Lemma range_split a b :
  range (a + b) = range a ++ map (fun j => Z.of_nat a + j) (range b).
Proof.
  unfold range. rewrite seq_app, map_app. f_equal.
  replace (0 + a)%nat with (a + 0)%nat by lia.
  rewrite seq_offset, !map_map. apply map_ext. intros j. lia.
Qed.

Lemma list_sum_cons x l : list_sum (x :: l) = (x + list_sum l)%nat.
Proof. reflexivity. Qed.

Lemma list_sum_zero {A} (f : A -> nat) l :
  Forall (fun x => f x = 0%nat) l -> list_sum (map f l) = 0%nat.
Proof. induction 1 as [|x l Hx _ IH]; simpl; [reflexivity | lia]. Qed.

Lemma week_start_in_range today :
  1 <= ordinal today -> 1 <= ordinal today - weekday today <= ordinal today.
Proof.
  unfold weekday. intros H. Z.div_mod_to_equations. lia.
Qed.

Section Floats.
Context {float : Type} (of_int : Z -> float) (true_div : Z -> Z -> float)
  (add : float -> float -> float).

Lemma fold_count date_str plan : forall stats,
  let stats' := fold_left (count_activity of_int true_div add date_str) plan stats in
  study_sessions stats' = study_sessions stats + Z.of_nat (count_type study plan)
  /\ deadlines_this_week stats'
     = deadlines_this_week stats + Z.of_nat (count_type deadline plan)
  /\ exists more,
       upcoming_deadlines stats' = upcoming_deadlines stats ++ more
       /\ length more = count_type deadline plan
       /\ Forall (fun u => u_date u = date_str) more.
Proof.
  induction plan as [|a plan IH]; intros stats; cbn zeta.
  - cbn [fold_left]. unfold count_type. simpl.
    split; [lia|]. split; [lia|].
    exists []. rewrite app_nil_r. split; [reflexivity|]. split; [reflexivity | constructor].
  - cbn [fold_left]. specialize (IH (count_activity of_int true_div add date_str stats a)).
    cbn zeta in IH. destruct IH as (Hs & Hd & more & Hu & Hl & Hall).
    rewrite Hs, Hd, Hu, !count_type_cons. unfold count_activity.
    destruct (type a); cbn [study_sessions deadlines_this_week upcoming_deadlines type_eqb];
      repeat split; try lia;
      try (exists more; repeat split; [lia | assumption]).
    exists (mk_upcoming date_str (activity a) (default "" (course a)) :: more).
    rewrite <- app_assoc. repeat split; [simpl; lia|].
    constructor; [reflexivity | exact Hall].
Qed.

Lemma week_days_counts week_start schedule days : forall stats,
  Forall (fun i => 1 <= ordinal week_start + i <= MAXORDINAL) days ->
  exists stats',
    week_days of_int true_div add week_start schedule days stats = Ok stats'
    /\ study_sessions stats'
       = study_sessions stats
         + Z.of_nat (list_sum (map (fun i =>
             count_type study
               (default [] (schedule !! strftime_ymd (day_after week_start i)))) days))
    /\ deadlines_this_week stats'
       = deadlines_this_week stats
         + Z.of_nat (list_sum (map (fun i =>
             count_type deadline
               (default [] (schedule !! strftime_ymd (day_after week_start i)))) days))
    /\ exists more,
         upcoming_deadlines stats' = upcoming_deadlines stats ++ more
         /\ Z.of_nat (length more) = deadlines_this_week stats' - deadlines_this_week stats
         /\ Forall (fun u => In (u_date u)
                               (map (fun i => strftime_ymd (day_after week_start i)) days))
              more.
Proof.
  induction days as [|i days IH]; intros stats Hdays.
  - exists stats. cbn [week_days]. simpl.
    split; [reflexivity|]. split; [lia|]. split; [lia|].
    exists []. rewrite app_nil_r. split; [reflexivity|]. split; [simpl; lia | constructor].
  - apply List.Forall_cons_iff in Hdays as [Hi Hdays].
    cbn [week_days]. rewrite (add_days_in_range week_start i Hi). cbn [rbind].
    cbn [map]. rewrite !list_sum_cons.
    destruct (schedule !! strftime_ymd (day_after week_start i)) as [plan|] eqn:E.
    + pose proof (fold_count (strftime_ymd (day_after week_start i)) plan stats) as Hf.
      cbn zeta in Hf. destruct Hf as (Hs & Hd & more & Hu & Hl & Hall).
      destruct (IH (fold_left (count_activity of_int true_div add
                                 (strftime_ymd (day_after week_start i))) plan stats) Hdays)
        as (stats' & Hw & Hs' & Hd' & more' & Hu' & Hl' & Hall').
      exists stats'. split; [exact Hw|]. change (default [] (Some plan)) with plan.
      split; [lia|]. split; [lia|].
      exists (more ++ more'). rewrite Hu', Hu, <- app_assoc. split; [reflexivity|].
      split; [rewrite List.length_app; lia|].
      apply Forall_app. split.
      * eapply List.Forall_impl; [|exact Hall]. intros u ->. now left.
      * eapply List.Forall_impl; [|exact Hall']. intros u Hu0. now right.
    + destruct (IH stats Hdays) as (stats' & Hw & Hs' & Hd' & more' & Hu' & Hl' & Hall').
      exists stats'. split; [exact Hw|].
      change (default [] (@None (list Activity))) with (@nil Activity).
      change (count_type study []) with 0%nat. change (count_type deadline []) with 0%nat.
      split; [lia|]. split; [lia|].
      exists more'. split; [exact Hu'|]. split; [exact Hl'|].
      eapply List.Forall_impl; [|exact Hall']. intros u Hu0. now right.
Qed.

Lemma weekly_summary_spec (today : datetime) (schedule : gmap string (list Activity)) :
  1 <= ordinal today ->
  ordinal today - weekday today + 6 <= MAXORDINAL ->
  exists stats,
    generate_weekly_summary of_int true_div add today schedule = Ok stats
    /\ study_sessions stats
       = Z.of_nat (list_sum (map (fun date_str =>
                     count_type study (default [] (schedule !! date_str)))
                   (week_dates today)))
    /\ deadlines_this_week stats
       = Z.of_nat (list_sum (map (fun date_str =>
                     count_type deadline (default [] (schedule !! date_str)))
                   (week_dates today)))
    /\ Z.of_nat (length (upcoming_deadlines stats)) = deadlines_this_week stats
    /\ Forall (fun u => In (u_date u) (week_dates today)) (upcoming_deadlines stats).
Proof.
  intros Hord Hmax. pose proof (week_start_in_range today Hord) as Hws.
  unfold generate_weekly_summary.
  rewrite (add_days_in_range today (- weekday today)) by lia. cbn [rbind].
  destruct (week_days_counts (day_after today (- weekday today)) schedule (range 7)
              (mk_weekly_stats (Int 0) 0 0 []))
    as (stats & Hw & Hs & Hd & more & Hu & Hl & Hall).
  { apply List.Forall_forall. intros i Hi. apply range_spec in Hi.
    cbn [day_after ordinal]. lia. }
  assert (Hkey : forall i, day_after (day_after today (- weekday today)) i
                           = day_after today (i - weekday today)).
  { intros i. unfold day_after. cbn [ordinal time_us]. f_equal. lia. }
  exists stats. split; [exact Hw|].
  cbn [study_sessions deadlines_this_week upcoming_deadlines app] in Hs, Hd, Hu, Hl.
  unfold week_dates. rewrite !map_map.
  split; [|split; [|split]].
  - rewrite Hs, Z.add_0_l. do 2 f_equal. apply map_ext. intros i. now rewrite Hkey.
  - rewrite Hd, Z.add_0_l. do 2 f_equal. apply map_ext. intros i. now rewrite Hkey.
  - rewrite Hu. lia.
  - rewrite Hu. eapply List.Forall_impl; [|exact Hall]. intros u Hin.
    rewrite in_map_iff in Hin |- *. destruct Hin as (i & <- & Hi).
    exists i. split; [now rewrite Hkey | exact Hi].
Qed.

(** [generate_weekly_summary] counts the study sessions and the deadlines
    of the seven days from the Monday to the Sunday of the current week
    (in years of four digits), as far as the schedule has them; it lists
    one upcoming deadline for each deadline it counts, dated with one of
    these seven days. *)
Theorem weekly_summary_counts_the_week (today : datetime)
    (schedule : gmap string (list Activity)) :
  1 <= ordinal today ->
  1000 <= year (day_after today (- weekday today)) ->
  ordinal today - weekday today + 6 <= MAXORDINAL ->
  exists stats,
    generate_weekly_summary of_int true_div add today schedule = Ok stats
    /\ study_sessions stats
       = Z.of_nat (list_sum (map (fun date_str =>
                     count_type study (default [] (schedule !! date_str)))
                   (week_dates today)))
    /\ deadlines_this_week stats
       = Z.of_nat (list_sum (map (fun date_str =>
                     count_type deadline (default [] (schedule !! date_str)))
                   (week_dates today)))
    /\ Z.of_nat (length (upcoming_deadlines stats)) = deadlines_this_week stats
    /\ Forall (fun u => In (u_date u) (week_dates today)) (upcoming_deadlines stats).
Proof. intros Hord _. now apply weekly_summary_spec. Qed.

(** *** The summary of a schedule made the same day *)

Lemma day_with_studies wakeup sleep study_style deadlines date :
  count_type study (sort_by_time (day_with wakeup sleep study_style deadlines date))
  = length (generate_study_sessions wakeup sleep study_style (weekday date)).
Proof.
  pose proof (count_study_sessions wakeup sleep study_style (weekday date)) as [Hst _].
  pose proof (deadlines_for_date_type date deadlines) as Hd.
  pose proof (reviews_of_type date deadlines) as [Hr _].
  cbv zeta in Hst.
  rewrite count_type_sort. unfold day_with. rewrite !count_type_app, Hst.
  rewrite (count_type_none study deadline _ Hd eq_refl).
  rewrite (count_type_none study review _ Hr eq_refl).
  destruct (weekday date <? 5); unfold count_type; simpl; lia.
Qed.

Lemma new_schedule_before today wakeup sleep study_style deadlines j :
  ordinal today + 119 <= MAXORDINAL -> j < 0 -> 1 <= ordinal today + j ->
  filled_with today wakeup sleep study_style deadlines (range 120) ∅
    !! strftime_ymd (day_after today j) = None.
Proof.
  intros Hmax Hj Hord.
  destruct (filled_with today wakeup sleep study_style deadlines (range 120) ∅
              !! strftime_ymd (day_after today j)) as [plan|] eqn:E; [|reflexivity].
  exfalso. assert (Hs : is_Some (filled_with today wakeup sleep study_style deadlines
                                   (range 120) ∅ !! strftime_ymd (day_after today j)))
    by (rewrite E; eauto).
  apply filled_with_some in Hs as [[x Hx] | (i & Hi & Hk)].
  - rewrite lookup_empty in Hx. discriminate.
  - apply range_spec in Hi. apply key_inj in Hk; lia.
Qed.

Lemma new_schedule_from today wakeup sleep study_style deadlines j :
  1 <= ordinal today -> ordinal today + 119 <= MAXORDINAL -> 0 <= j < 120 ->
  filled_with today wakeup sleep study_style deadlines (range 120) ∅
    !! strftime_ymd (day_after today j)
  = Some (sort_by_time (day_with wakeup sleep study_style deadlines (day_after today j))).
Proof.
  intros Hord Hmax Hj. apply filled_with_in; [apply range_NoDup | | apply range_spec; lia].
  apply List.Forall_forall. intros i Hi. apply range_spec in Hi. lia.
Qed.

Lemma weekday_range today : 0 <= weekday today < 7.
Proof. unfold weekday. apply Z.mod_pos_bound. lia. Qed.

(** The sum over the week of a count that is 0 on the days before today. *)
Lemma week_sum today (f : Z -> nat) :
  (forall j, j < 0 -> f j = 0%nat) ->
  list_sum (map (fun i => f (i - weekday today)) (range 7))
  = list_sum (map f (days_left today)).
Proof.
  intros Hf. pose proof (weekday_range today) as Hw. unfold days_left.
  replace 7%nat with (Z.to_nat (weekday today) + Z.to_nat (7 - weekday today))%nat at 1
    by lia.
  rewrite range_split, map_app, list_sum_app, map_map.
  rewrite list_sum_zero.
  - simpl. f_equal. apply map_ext. intros j. f_equal. lia.
  - apply List.Forall_forall. intros i Hi. apply range_spec in Hi. apply Hf. lia.
Qed.

(** The weekly summary of the schedule that [create_schedule] has just made
    (today in a year of four digits) counts the study sessions and the
    deadlines from today to Sunday: the
    days of the week that are past are not in the schedule.  A deadline is
    counted when its date is exactly the text of one of these days. *)
Theorem weekly_summary_of_a_new_schedule {P : Type} (today : datetime)
    (parsed_dates : P) (user_data : gmap string pyval) (wakeup sleep : Z)
    (deadlines : list Deadline) :
  valid today ->
  1000 <= year today ->
  ordinal today + 119 <= MAXORDINAL ->
  py_int (default (PyInt 8) (user_data !! "wakeup")) = Ok wakeup ->
  py_int (default (PyInt 23) (user_data !! "sleep")) = Ok sleep ->
  as_deadlines (default (PyDeadlines []) (user_data !! "deadlines")) = Ok deadlines ->
  forallb date_parses deadlines = true ->
  exists schedule stats,
    create_schedule today parsed_dates user_data = Ok schedule
    /\ generate_weekly_summary of_int true_div add today schedule = Ok stats
    /\ study_sessions stats
       = Z.of_nat (list_sum (map (fun j =>
           length (generate_study_sessions wakeup sleep
                     (default (PyStr "pomodoro") (user_data !! "study_style"))
                     (weekday (day_after today j))))
           (days_left today)))
    /\ deadlines_this_week stats
       = Z.of_nat (list_sum (map (fun j =>
           length (List.filter (due_on (strftime_ymd (day_after today j))) deadlines))
           (days_left today)))
    /\ Z.of_nat (length (upcoming_deadlines stats)) = deadlines_this_week stats.
Proof.
  intros [Hord _] _ Hmax Hw Hs Hd Hparse.
  pose proof (weekday_range today) as Hwd.
  set (study_style := default (PyStr "pomodoro") (user_data !! "study_style")).
  set (schedule := filled_with today wakeup sleep study_style deadlines (range 120) ∅).
  assert (Hc : create_schedule today parsed_dates user_data = Ok schedule).
  { unfold create_schedule. rewrite Hw, Hs, Hd. unfold rbind at 1 2 3. cbv beta iota.
    apply schedule_days_ok; [exact Hparse | lia |].
    apply List.Forall_forall. intros i Hi. apply range_spec in Hi. lia. }
  destruct (weekly_summary_spec today schedule) as (stats & Hsum & Hst & Hdl & Hup & _);
    [lia | lia |].
  exists schedule, stats. split; [exact Hc|]. split; [exact Hsum|].
  unfold week_dates in Hst, Hdl. rewrite map_map in Hst, Hdl.
  assert (Hlook : forall j,
            1 <= ordinal today + j -> j < 7 ->
            default [] (schedule !! strftime_ymd (day_after today j))
            = if j <? 0 then []
              else sort_by_time (day_with wakeup sleep study_style deadlines
                                   (day_after today j))).
  { intros j Hj1 Hj7. unfold schedule. destruct (Z.ltb_spec j 0).
    - now rewrite new_schedule_before.
    - now rewrite new_schedule_from by lia. }
  pose proof (week_start_in_range today ltac:(lia)) as Hws.
  split; [|split; [|exact Hup]].
  - rewrite Hst. f_equal.
    transitivity (list_sum (map (fun j =>
      if j <? 0 then 0%nat
      else length (generate_study_sessions wakeup sleep study_style
                     (weekday (day_after today j)))) (days_left today))).
    + rewrite <- week_sum.
      * f_equal. apply map_ext_in. intros i Hi. apply range_spec in Hi.
        rewrite Hlook by lia. destruct (Z.ltb_spec (i - weekday today) 0); [reflexivity|].
        apply day_with_studies.
      * intros j Hj. now replace (j <? 0) with true by (symmetry; apply Z.ltb_lt; lia).
    + f_equal. apply map_ext_in. intros j Hj. apply range_spec in Hj.
      now replace (j <? 0) with false by (symmetry; apply Z.ltb_ge; lia).
  - rewrite Hdl. f_equal.
    transitivity (list_sum (map (fun j =>
      if j <? 0 then 0%nat
      else length (List.filter (due_on (strftime_ymd (day_after today j))) deadlines))
      (days_left today))).
    + rewrite <- week_sum.
      * f_equal. apply map_ext_in. intros i Hi. apply range_spec in Hi.
        rewrite Hlook by lia. destruct (Z.ltb_spec (i - weekday today) 0); [reflexivity|].
        apply day_with_deadlines.
      * intros j Hj. now replace (j <? 0) with true by (symmetry; apply Z.ltb_lt; lia).
    + f_equal. apply map_ext_in. intros j Hj. apply range_spec in Hj.
      now replace (j <? 0) with false by (symmetry; apply Z.ltb_ge; lia).
Qed.

End Floats.

Lemma weekly_summary_counts_the_week_witness :
  exists stats,
    generate_weekly_summary (fun z => 60 * z) (fun a b => 60 * a / b) Z.add
      Examples.today0 Examples.schedule_with_quiz = Ok stats
    /\ study_sessions stats
       = Z.of_nat (list_sum (map (fun date_str =>
                     count_type study
                       (default [] (Examples.schedule_with_quiz !! date_str)))
                   (week_dates Examples.today0)))
    /\ deadlines_this_week stats
       = Z.of_nat (list_sum (map (fun date_str =>
                     count_type deadline
                       (default [] (Examples.schedule_with_quiz !! date_str)))
                   (week_dates Examples.today0)))
    /\ Z.of_nat (length (upcoming_deadlines stats)) = deadlines_this_week stats
    /\ Forall (fun u => In (u_date u) (week_dates Examples.today0))
         (upcoming_deadlines stats).
Proof.
  apply (weekly_summary_counts_the_week (fun z => 60 * z) (fun a b => 60 * a / b) Z.add
           Examples.today0 Examples.schedule_with_quiz).
  - vm_compute. discriminate.
  - vm_compute. discriminate.
  - vm_compute. discriminate.
Defined.

Lemma weekly_summary_of_a_new_schedule_witness :
  exists schedule stats,
    create_schedule Examples.today0 tt Examples.with_quiz_today = Ok schedule
    /\ generate_weekly_summary (fun z => 60 * z) (fun a b => 60 * a / b) Z.add
         Examples.today0 schedule = Ok stats
    /\ study_sessions stats
       = Z.of_nat (list_sum (map (fun j =>
           length (generate_study_sessions 8 23
                     (default (PyStr "pomodoro")
                        (Examples.with_quiz_today !! "study_style"))
                     (weekday (day_after Examples.today0 j))))
           (days_left Examples.today0)))
    /\ deadlines_this_week stats
       = Z.of_nat (list_sum (map (fun j =>
           length (List.filter (due_on (strftime_ymd (day_after Examples.today0 j)))
                     [Examples.quiz_today]))
           (days_left Examples.today0)))
    /\ Z.of_nat (length (upcoming_deadlines stats)) = deadlines_this_week stats.
Proof.
  apply (weekly_summary_of_a_new_schedule (fun z => 60 * z) (fun a b => 60 * a / b) Z.add
           Examples.today0 tt Examples.with_quiz_today 8 23 [Examples.quiz_today]).
  - unfold valid. simpl. unfold MAXORDINAL, US_PER_DAY. lia.
  - vm_compute. discriminate.
  - simpl. unfold MAXORDINAL. lia.
  - reflexivity.
  - reflexivity.
  - reflexivity.
  - vm_compute. reflexivity.
Defined.

End SummaryFacts.

(** ** The calendar file *)

Module EmailerFacts.
Import Datetime Calendar CalendarFacts Scheduler SchedulerSpec SchedulerFacts PlanSpec
  PlanFacts IsoFacts SummaryFacts Emailer EmailerSpec.

(** *** When an event is written *)

Lemma minute_of_replaced dt hour minute start_datetime :
  replace_hour_minute dt hour minute = Some start_datetime ->
  0 <= minute <= 59 /\ 0 <= hour <= 23 /\ minute_of start_datetime = minute.
Proof.
  unfold replace_hour_minute. destruct (_ && _) eqn:E; [|discriminate].
  intros [= <-]. repeat (apply andb_prop in E as [E ?]).
  repeat match goal with H : (_ <=? _) = true |- _ => apply Z.leb_le in H end.
  split; [lia|]. split; [lia|].
  unfold minute_of, US_PER_MINUTE. cbn [time_us].
  pose proof (Z.mod_pos_bound (time_us dt) 60000000 ltac:(lia)).
  Z.div_mod_to_equations. lia.
Qed.

Lemma event_needs_room event_id event_date a text :
  event_text event_id event_date a = Some text ->
  exists hour minute,
    hour_minute (time a) = Some (hour, minute)
    /\ 0 <= hour <= 23 /\ 0 <= minute
    /\ minute + default 60 (duration a) <= 59.
Proof.
  unfold event_text.
  destruct (hour_minute (time a)) as [[hour minute]|]; [|discriminate].
  destruct (replace_hour_minute event_date hour minute) as [start_datetime|] eqn:Es;
    [|discriminate].
  apply minute_of_replaced in Es as (Hm & Hh & ->). cbv zeta.
  unfold replace_minute. destruct (_ && _) eqn:E; [|discriminate].
  intros _. apply andb_prop in E as [E1 E2]. apply Z.leb_le in E1, E2.
  exists hour, minute. split; [reflexivity|]. lia.
Qed.

Lemma no_event event_id event_date a : too_long a -> event_text event_id event_date a = None.
Proof.
  intros H. destruct (event_text event_id event_date a) as [text|] eqn:E; [|reflexivity].
  exfalso. apply event_needs_room in E as (hour & minute & Hhm & _ & Hm & Hd).
  destruct H as [H | [Ht Hdur]]; [lia|].
  rewrite Ht in Hhm. vm_compute in Hhm. injection Hhm as <- <-.
  rewrite Hdur in Hd. cbn in Hd. lia.
Qed.

(** *** The activities of a schedule *)

Lemma study_sessions_too_long wakeup sleep study_style day_of_week :
  Forall too_long (generate_study_sessions wakeup sleep study_style day_of_week).
Proof.
  unfold generate_study_sessions. cbv zeta.
  destruct (py_eq_str study_style "pomodoro").
  - apply Forall_app. split.
    + repeat (apply List.Forall_cons; [left; cbn; lia|]). apply List.Forall_nil.
    + destruct (day_of_week <? 5); [|apply List.Forall_nil].
      apply List.Forall_cons; [left; cbn; lia | apply List.Forall_nil].
  - destruct (py_eq_str study_style "focused").
    + repeat (apply List.Forall_cons; [left; cbn; lia|]). apply List.Forall_nil.
    + repeat (apply List.Forall_cons; [left; cbn; lia|]).
      apply List.Forall_cons; [right; split; reflexivity | apply List.Forall_nil].
Qed.

Lemma deadlines_for_date_too_long date deadlines :
  Forall too_long (get_deadlines_for_date date deadlines).
Proof.
  induction deadlines as [|dl deadlines IH]; simpl; [apply List.Forall_nil|].
  destruct (d_date dl) as [s|]; [|exact IH].
  destruct (String.eqb s _); [|exact IH].
  apply List.Forall_cons; [|exact IH]. left. cbn. lia.
Qed.

Lemma day_with_exported wakeup sleep study_style deadlines date a :
  In a (sort_by_time (day_with wakeup sleep study_style deadlines date)) ->
  exported_type a = true -> too_long a.
Proof.
  rewrite in_sort. unfold day_with. intros Hin Hex.
  pose proof (reviews_of_type date deadlines) as [Hr _].
  pose proof (study_sessions_too_long wakeup sleep study_style (weekday date)) as Hs.
  pose proof (deadlines_for_date_too_long date deadlines) as Hd.
  rewrite List.Forall_forall in Hr, Hs, Hd.
  repeat (apply in_app_or in Hin as [Hin | Hin]).
  - destruct Hin as [<- | []]. discriminate.
  - destruct Hin as [<- | []]. discriminate.
  - now apply Hs.
  - destruct Hin as [<- | [<- | []]]; discriminate.
  - now apply Hd.
  - unfold exported_type in Hex. now rewrite (Hr a Hin) in Hex.
  - destruct (weekday date <? 5); [|destruct Hin]. destruct Hin as [<- | []]. discriminate.
  - destruct Hin as [<- | []]. discriminate.
Qed.

(** *** What [create_schedule] returns *)

Lemma ok_inj {A : Type} (a b : A) : Ok a = Ok b -> a = b.
Proof. now intros [= ->]. Qed.

Lemma some_inj {A : Type} (a b : A) : Some a = Some b -> a = b.
Proof. now intros [= ->]. Qed.

Lemma schedule_days_reached {P} start_date wakeup sleep study_style deadlines
    (parsed_dates : P) days : forall schedule0 schedule,
  schedule_days start_date wakeup sleep study_style deadlines parsed_dates days schedule0
  = Ok schedule ->
  Forall (fun i => 1 <= ordinal start_date + i <= MAXORDINAL) days.
Proof.
  induction days as [|i days IH]; intros schedule0 schedule H; [constructor|].
  cbn [schedule_days] in H. unfold add_days in H.
  destruct ((1 <=? ordinal start_date + i) && (ordinal start_date + i <=? MAXORDINAL))
    eqn:E; [|discriminate].
  apply andb_prop in E as [E1 E2]. apply Z.leb_le in E1, E2.
  constructor; [lia|]. cbn [rbind] in H.
  destruct (lt _ start_date); [now apply IH in H|].
  destruct (generate_daily_plan _ _ _ _ _ _) as [plan|]; [|discriminate].
  cbn [rbind] in H. now apply IH in H.
Qed.

Lemma schedule_days_parsed {P} start_date wakeup sleep study_style deadlines
    (parsed_dates : P) days : forall schedule0 schedule,
  schedule_days start_date wakeup sleep study_style deadlines parsed_dates days schedule0
  = Ok schedule ->
  Exists (fun i => 0 <= i) days ->
  forallb date_parses deadlines = true.
Proof.
  induction days as [|i days IH]; intros schedule0 schedule H Hex;
    [now apply List.Exists_nil in Hex|].
  cbn [schedule_days] in H.
  destruct (add_days start_date i) as [current_day|] eqn:Ea; [|discriminate].
  cbn [rbind] in H.
  assert (Ec : current_day = day_after start_date i).
  { unfold add_days in Ea. destruct (_ && _); [|discriminate]. now injection Ea as <-. }
  subst current_day.
  destruct (Z.le_gt_cases 0 i) as [Hi | Hi].
  - rewrite not_before_start in H by exact Hi.
    destruct (forallb date_parses deadlines) eqn:Hp; [reflexivity|].
    rewrite (daily_plan_raise _ _ _ _ _ _ Hp) in H. discriminate.
  - apply List.Exists_cons in Hex as [Hex | Hex]; [lia|].
    destruct (lt _ start_date); [now apply IH in H|].
    destruct (generate_daily_plan _ _ _ _ _ _) as [plan|]; [|discriminate].
    cbn [rbind] in H. now apply IH in H.
Qed.

Lemma create_schedule_inv {P} today (parsed_dates : P) user_data schedule :
  create_schedule today parsed_dates user_data = Ok schedule ->
  exists wakeup sleep deadlines,
    py_int (default (PyInt 8) (user_data !! "wakeup")) = Ok wakeup
    /\ py_int (default (PyInt 23) (user_data !! "sleep")) = Ok sleep
    /\ as_deadlines (default (PyDeadlines []) (user_data !! "deadlines")) = Ok deadlines
    /\ 1 <= ordinal today /\ ordinal today + 119 <= MAXORDINAL
    /\ forallb date_parses deadlines = true
    /\ schedule = filled_with today wakeup sleep
                    (default (PyStr "pomodoro") (user_data !! "study_style"))
                    deadlines (range 120) ∅.
Proof.
  unfold create_schedule.
  assert (H0 : In 0 (range 120)) by (apply range_spec; lia).
  assert (H119 : In 119 (range 120)) by (apply range_spec; lia).
  assert (Hall : Forall (fun i => 0 <= i) (range 120)).
  { apply List.Forall_forall. intros i Hi. apply range_spec in Hi. lia. }
  revert H0 H119 Hall. generalize (range 120). intros days H0 H119 Hall H.
  destruct (py_int (default (PyInt 8) (user_data !! "wakeup"))) as [wakeup|] eqn:Hw;
    [|discriminate].
  destruct (py_int (default (PyInt 23) (user_data !! "sleep"))) as [sleep|] eqn:Hs;
    [|discriminate].
  destruct (as_deadlines (default (PyDeadlines []) (user_data !! "deadlines")))
    as [deadlines|] eqn:Hd; [|discriminate].
  unfold rbind at 1 2 3 in H. cbv beta iota zeta in H.
  exists wakeup, sleep, deadlines. split; [reflexivity|]. split; [reflexivity|].
  split; [reflexivity|].
  pose proof (schedule_days_reached _ _ _ _ _ _ _ _ _ H) as Hreach.
  assert (Hparse : forallb date_parses deadlines = true).
  { eapply schedule_days_parsed; [exact H|]. apply List.Exists_exists. exists 0. split;
      [exact H0 | lia]. }
  rewrite List.Forall_forall in Hreach.
  pose proof (Hreach 0 H0). pose proof (Hreach 119 H119).
  split; [lia|]. split; [lia|]. split; [exact Hparse|].
  rewrite schedule_days_ok in H; [|exact Hparse | lia |].
  - symmetry. exact (ok_inj _ _ H).
  - rewrite List.Forall_forall in Hall |- *. intros i Hi.
    specialize (Hall i Hi). specialize (Hreach i Hi). lia.
Qed.

(** *** The keys of a schedule are read back *)

Lemma year_later dt i :
  1 <= ordinal dt -> 0 <= i -> ordinal dt + i <= MAXORDINAL ->
  year dt <= year (day_after dt i).
Proof.
  intros Hord Hi Hmax. unfold year, day_after. cbn [ordinal].
  pose proof (ord2ymd_ok (ordinal dt) ltac:(lia)) as H1.
  pose proof (ord2ymd_ok (ordinal dt + i) ltac:(lia)) as H2.
  destruct (_ord2ymd (ordinal dt)) as [[y m] d].
  destruct (_ord2ymd (ordinal dt + i)) as [[y' m'] d'].
  cbn [fst]. destruct H1 as (Hy & Hm & Hd & E), H2 as (Hy' & Hm' & Hd' & E').
  destruct (Z.le_gt_cases y y') as [Hle | Hgt]; [exact Hle|]. exfalso.
  pose proof (day_of_year_bounds y m d ltac:(unfold valid_ymd; lia)) as B.
  pose proof (day_of_year_bounds y' m' d' ltac:(unfold valid_ymd; lia)) as B'.
  pose proof (days_before_year_succ y' ltac:(lia)) as S'.
  pose proof (days_before_year_mono (y' + 1) y ltac:(lia)) as M.
  unfold _ymd2ord in E, E'. lia.
Qed.

Lemma key_reads_back today i :
  1 <= ordinal today -> 1000 <= year today -> 0 <= i ->
  ordinal today + i <= MAXORDINAL ->
  Strptime.strptime (strftime_ymd (day_after today i)) "%Y-%m-%d"
  = Ok (mk_datetime (ordinal today + i) 0).
Proof.
  intros Hord Hy Hi Hmax. pose proof (year_later today i Hord Hi Hmax) as Hl.
  unfold strftime_ymd, year in *. unfold day_after in *. cbn [ordinal] in *.
  pose proof (ord2ymd_ok (ordinal today + i) ltac:(lia)) as H.
  destruct (_ord2ymd (ordinal today + i)) as [[y m] d]. cbn [fst] in Hl.
  destruct H as (Hy' & Hm & Hd & E).
  rewrite iso_reads_back; [now rewrite E | lia | unfold valid_ymd; lia].
Qed.

(** *** The loops *)

Lemma day_events_skip uuids date_str event_date activities : forall n ics_content,
  Strptime.strptime date_str "%Y-%m-%d" = Ok event_date ->
  (forall a, In a activities -> exported_type a = true -> too_long a) ->
  exists n', day_events uuids date_str activities n ics_content = Ok (n', ics_content).
Proof.
  induction activities as [|a activities IH]; intros n ics_content Hk Hall.
  - now exists n.
  - cbn [day_events]. destruct (exported_type a) eqn:Ex.
    + rewrite Hk. cbn [rbind]. rewrite no_event by (apply Hall; [now left | exact Ex]).
      apply IH; [exact Hk|]. intros b Hb. apply Hall. now right.
    + apply IH; [exact Hk|]. intros b Hb. apply Hall. now right.
Qed.

Lemma all_events_skip uuids items : forall n ics_content,
  (forall date_str activities, In (date_str, activities) items ->
     (exists event_date, Strptime.strptime date_str "%Y-%m-%d" = Ok event_date)
     /\ forall a, In a activities -> exported_type a = true -> too_long a) ->
  exists n', all_events uuids items n ics_content = Ok (n', ics_content).
Proof.
  induction items as [|[date_str activities] items IH]; intros n ics_content Hall.
  - now exists n.
  - cbn [all_events].
    destruct (Hall date_str activities (or_introl eq_refl)) as [[event_date Hk] Ha].
    destruct (day_events_skip uuids date_str event_date activities n ics_content Hk Ha)
      as [n' ->].
    cbn [rbind fst snd]. apply IH. intros k acts Hin. apply Hall. now right.
Qed.

(** The calendar file holds an event for an activity only if the time of
    the activity reads as hour and minute of the clock and the minute plus
    the duration (60 when the activity has none) stays under the hour.  So
    when every study or deadline activity lasts an hour or more, and the
    keys are dates, the file is the header and the closing line, with no
    event at all. *)
Theorem events_stay_within_the_hour (uuids : nat -> string)
    (schedule_data : list (string * list Activity)) (student_email : string) :
  (forall event_id event_date a text,
     event_text event_id event_date a = Some text ->
     exists hour minute,
       hour_minute (time a) = Some (hour, minute)
       /\ 0 <= hour <= 23 /\ 0 <= minute
       /\ minute + default 60 (duration a) <= 59)
  /\ ((forall date_str activities, In (date_str, activities) schedule_data ->
         (exists event_date, Strptime.strptime date_str "%Y-%m-%d" = Ok event_date)
         /\ forall a, In a activities -> exported_type a = true ->
                      60 <= default 60 (duration a)) ->
      generate_calendar_ics_file uuids schedule_data student_email
      = Ok (header +:+ "END:VCALENDAR")).
Proof.
  split; [apply event_needs_room|]. intros Hall.
  unfold generate_calendar_ics_file.
  destruct (all_events_skip uuids schedule_data 0 header) as [n' ->]; [|reflexivity].
  intros k acts Hin. destruct (Hall k acts Hin) as [Hk Ha]. split; [exact Hk|].
  intros a Hin' Hex. left. now apply Ha.
Qed.

(** The calendar file of a schedule that [create_schedule] returns has no
    event: the deadlines carry no duration and are taken to last 60
    minutes, and no study session ends within the hour it starts in. *)
Theorem calendar_of_a_schedule_is_empty {P : Type} (today : datetime)
    (parsed_dates : P) (user_data : gmap string pyval)
    (schedule : gmap string (list Activity)) (uuids : nat -> string)
    (items : list (string * list Activity)) (student_email : string) :
  1000 <= year today ->
  create_schedule today parsed_dates user_data = Ok schedule ->
  entries_of schedule items ->
  generate_calendar_ics_file uuids items student_email
  = Ok (header +:+ "END:VCALENDAR").
Proof.
  intros Hy Hc Hitems.
  apply create_schedule_inv in Hc
    as (wakeup & sleep & deadlines & _ & _ & _ & Hord & Hmax & Hparse & ->).
  unfold generate_calendar_ics_file.
  destruct (all_events_skip uuids items 0 header) as [n' ->]; [|reflexivity].
  intros k acts Hin. apply Hitems in Hin.
  assert (Hs : is_Some (filled_with today wakeup sleep
                          (default (PyStr "pomodoro") (user_data !! "study_style"))
                          deadlines (range 120) ∅ !! k)) by (rewrite Hin; eauto).
  apply filled_with_some in Hs as [[x Hx] | (i & Hi & ->)];
    [rewrite lookup_empty in Hx; discriminate|].
  apply range_spec in Hi.
  rewrite new_schedule_from in Hin by lia. apply some_inj in Hin. subst acts.
  split.
  - eexists. apply key_reads_back; lia.
  - intros a Ha Hex. eapply day_with_exported; eassumption.
Qed.

Lemma calendar_of_a_schedule_is_empty_witness :
  generate_calendar_ics_file (fun _ => "0") [("2024-03-12", Examples.plan_with_quiz)]
    "student@example.com"
  = Ok (header +:+ "END:VCALENDAR").
Proof.
  apply (calendar_of_a_schedule_is_empty Examples.today0 tt Examples.with_quiz_today
           Examples.schedule_with_quiz).
  - vm_compute. discriminate.
  - apply schedule_with_quiz_eq.
  - intros date_str activities [E | []].
    assert (Ek : "2024-03-12" = date_str) by exact (f_equal fst E).
    assert (Ea : Examples.plan_with_quiz = activities) by exact (f_equal snd E).
    rewrite <- Ek, <- Ea. apply plan_with_quiz_eq.
Defined.

End EmailerFacts.

(** ** The deadlines of a text *)

Module DeadlinesFacts.
Import Datetime Calendar CalendarFacts Re ReSpec ReFacts Parser ParserSpec ParserFacts
  DatesSpec DatesFacts TitleFacts Deadlines DeadlinesSpec.

(** *** Sentences *)




(** *** White space around a sentence *)






(** *** Types *)


(** *** The deadlines of a sentence *)







(** *** From the parser to the scheduler *)






End DeadlinesFacts.

(** ** Class times *)

Module ClassTimesFacts.
Import CalendarFacts Re ReSpec ReFacts DatesSpec DatesFacts ClassTimes ClassTimesSpec.













End ClassTimesFacts.
